(** * imagenet/main.py: metric bookkeeping and the benchmarking loops

    A shallow embedding of the parts of [imagenet/main.py] that carry
    logic of their own: the [params_dict] table and [get_image_size],
    the [AverageMeter] class, [accuracy], the [train] loop,
    [validate] with its inner [run_validate], the batch counter of
    [ProgressMeter], and the ranks [main] and [main_worker] give to the
    worker processes.

    Conventions.
    - Numbers are rationals [Q]; integer-only quantities (indices, counts
      given on the command line) are [Z].  A Python [float] is a binary64
      number and an element of a [torch.float32] tensor a binary32 number:
      every arithmetic operation on them rounds its exact result to the
      nearest number of the format, ties to even ([fl64], [fl32]).  The
      exponent range is not bounded: overflow to infinity, NaN and
      subnormal numbers are outside the embedding; a statement that
      depends on this is made for operations that stay within the range of
      their format ([normal], [within_range]).
    - A Python exception is a constructor of [exn]; code that may raise
      returns a [result], and code that mutates an object before it may
      raise runs in the monad [M], which keeps the state reached at the
      moment of the raise.
    - Calls into the framework (the model's forward pass, the loss, the
      clock, [torch.jit.trace], [dist.all_reduce]) are inputs of the
      embedding: each loop iteration receives an [observation] holding
      what those calls returned. *)

From Stdlib Require Import Ascii String.
From Stdlib Require Import ZArith QArith Qfield Lqa Lia.
From Stdlib Require Import Qround Qabs Qpower Qreduction.
From Stdlib Require Import Bool List Permutation Sorted.
Import ListNotations.

Local Open Scope Z_scope.
Local Open Scope Q_scope.

(** ** Exceptions and results *)

Inductive exn : Type :=
| ZeroDivisionError
| RuntimeError
| TypeError
| ValueError
| AssertionError
| NameError
| StopIteration.

Inductive result (A : Type) : Type :=
| Ok (a : A)
| Raise (e : exn).

Arguments Ok {A} a.
Arguments Raise {A} e.

(** State-and-exception monad: the state survives a raise, as the
    attributes of a Python object do. *)
Definition M (S A : Type) : Type := S -> result A * S.

Definition ret {S A : Type} (a : A) : M S A := fun s => (Ok a, s).

Definition bind {S A B : Type} (c : M S A) (k : A -> M S B) : M S B :=
  fun s =>
    match c s with
    | (Ok a, s') => k a s'
    | (Raise e, s') => (Raise e, s')
    end.

Definition raise {S A : Type} (e : exn) : M S A := fun s => (Raise e, s).

Definition get {S : Type} : M S S := fun s => (Ok s, s).

Definition modify {S : Type} (f : S -> S) : M S unit := fun s => (Ok tt, f s).

Definition when {S : Type} (b : bool) (c : M S unit) : M S unit :=
  if b then c else ret tt.

Declare Scope py_scope.
Delimit Scope py_scope with py.
Notation "x <- c ;; k" := (bind c (fun x => k))
  (at level 61, c at next level, right associativity) : py_scope.
Notation "c ;; k" := (bind c (fun _ => k))
  (at level 61, right associativity) : py_scope.

(** ** Floating-point rounding *)

(** The integer nearest to [x]; a tie goes to the even one. *)
Definition round_half_even (x : Q) : Z :=
  let f := Qfloor x in
  match Qcompare (x - inject_Z f) (1 # 2) with
  | Lt => f
  | Gt => (f + 1)%Z
  | Eq => if Z.even f then f else (f + 1)%Z
  end.

(** For [x > 0], the exponent [e] with [2 ^ e <= x < 2 ^ (e + 1)]. *)
Definition ilog2 (x : Q) : Z :=
  let k := (Z.log2 (Qnum x) - Z.log2 (Zpos (Qden x)))%Z in
  if Qle_bool (2 ^ k) x then k else (k - 1)%Z.

(** [x > 0] rounded to a significand of [prec] bits. *)
Definition round_pos (prec : Z) (x : Q) : Q :=
  let e := (ilog2 x - (prec - 1))%Z in
  inject_Z (round_half_even (x / 2 ^ e)) * 2 ^ e.

(** [x] rounded to the nearest binary floating-point number with a
    significand of [prec] bits, ties to even.  The exponent is not bounded:
    overflow to infinity and the subnormal range are outside the
    embedding. *)
Definition round_to (prec : Z) (x : Q) : Q :=
  match Qcompare x 0 with
  | Eq => 0
  | Gt => Qred (round_pos prec x)
  | Lt => Qred (- round_pos prec (- x))
  end.

(** Python's [float] (binary64) and the elements of a [torch.float32]
    tensor. *)
Definition fl64 : Q -> Q := round_to 53.
Definition fl32 : Q -> Q := round_to 24.

(** The largest relative error of one rounding. *)
Definition eps64 : Q := 2 ^ (-53).
Definition eps32 : Q := 2 ^ (-24).

(** The kinds of number the meters of [main.py] are fed: a Python [int], a
    Python [float], or a 0-d [float32] tensor.  An operation on numbers of a
    kind rounds to that kind; ints are exact. *)
Inductive kind : Type := PyInt | PyFloat | Tensor32.

Definition fl (k : kind) (x : Q) : Q :=
  match k with
  | PyInt => x
  | PyFloat => fl64 x
  | Tensor32 => fl32 x
  end.


(** The exponents of the numbers of a format lie below [emax]. *)
Definition emax (k : kind) : Z :=
  match k with
  | Tensor32 => 128
  | _ => 1024
  end.

(** The exact result [x] of an operation is zero, or is at least the
    smallest normal number of the format and rounds below [2 ^ emax]: the
    operation neither overflows nor falls into the subnormal range, and its
    result in the format is [round_to prec x]. *)
Definition normal (prec emax : Z) (x : Q) : bool :=
  Qeq_bool x 0
  || (Qle_bool (2 ^ (2 - emax)) (Qabs x)
      && negb (Qle_bool (2 ^ emax) (Qabs (round_to prec x)))).



(** Python's true division [a / b] of two floats. *)
Definition truediv {S : Type} (a b : Q) : M S Q :=
  if Qeq_bool b 0 then raise ZeroDivisionError else ret (fl64 (a / b)).

(** ** [params_dict] and [get_image_size] *)

(** [(width, depth, res, dropout)] *)
Definition coefficients : Type := (Q * Q * Z * Q)%type.

Definition params_dict : list (string * coefficients) :=
  [ ("efficientnet_b0"%string, (1, 1, 224%Z, 2 # 10));
    ("efficientnet_b1"%string, (1, 11 # 10, 240%Z, 2 # 10));
    ("efficientnet_b2"%string, (11 # 10, 12 # 10, 260%Z, 3 # 10));
    ("efficientnet_b3"%string, (12 # 10, 14 # 10, 300%Z, 3 # 10));
    ("efficientnet_b4"%string, (14 # 10, 18 # 10, 380%Z, 4 # 10));
    ("efficientnet_b5"%string, (16 # 10, 22 # 10, 456%Z, 4 # 10));
    ("efficientnet_b6"%string, (18 # 10, 26 # 10, 528%Z, 5 # 10));
    ("efficientnet_b7"%string, (2, 31 # 10, 600%Z, 5 # 10));
    ("efficientnet_b8"%string, (22 # 10, 36 # 10, 672%Z, 5 # 10));
    ("efficientnet_l2"%string, (43 # 10, 53 # 10, 800%Z, 5 # 10)) ].

(** [d[key]] / [key in d] on a dict literal with pairwise distinct keys. *)
Fixpoint dict_get {V : Type} (d : list (string * V)) (key : string) : option V :=
  match d with
  | [] => None
  | (k, v) :: d' => if String.eqb key k then Some v else dict_get d' key
  end.

Definition dict_keys {V : Type} (d : list (string * V)) : list string :=
  map fst d.

Definition get_image_size (model_name : string) : result Z :=
  match dict_get params_dict model_name with
  | Some (_, _, res, _) => Ok res
  | None => Raise AssertionError
  end.

(** ** [AverageMeter] *)

Inductive Summary : Type := NONE | AVERAGE | SUM | COUNT.

Module AverageMeter.

Record t : Type := mk {
  name : string;
  fmt : string;
  summary_type : Summary;
  val : Q;
  avg : Q;
  sum : Q;
  count : Q
}.

Definition set_val (v : Q) (self : t) : t :=
  mk (name self) (fmt self) (summary_type self) v (avg self) (sum self) (count self).
Definition set_avg (v : Q) (self : t) : t :=
  mk (name self) (fmt self) (summary_type self) (val self) v (sum self) (count self).
Definition set_sum (v : Q) (self : t) : t :=
  mk (name self) (fmt self) (summary_type self) (val self) (avg self) v (count self).
Definition set_count (v : Q) (self : t) : t :=
  mk (name self) (fmt self) (summary_type self) (val self) (avg self) (sum self) v.

Definition reset : M t unit :=
  (modify (set_val 0) ;;
   modify (set_avg 0) ;;
   modify (set_sum 0) ;;
   modify (set_count 0))%py.

(** [AverageMeter(name, fmt, summary_type)]: the constructor stores its
    arguments and calls [reset]. *)
Definition init (name_ fmt_ : string) (summary_type_ : Summary) : t :=
  snd (reset (mk name_ fmt_ summary_type_ 0 0 0 0)).

(** [self.sum / self.count] for a sum of kind [k] and a non-zero count.
    The count is an int: a float divides by its conversion to a float, a
    tensor by its conversion to [float32], and two ints give the correctly
    rounded quotient. *)
Definition quotient (k : kind) (s c : Q) : Q :=
  match k with
  | PyInt => fl64 (s / c)
  | PyFloat => fl64 (s / fl64 c)
  | Tensor32 => fl32 (s / fl32 c)
  end.

(** The division itself.  Python raises on a zero divisor; a tensor does
    not: its quotient is then inf or nan, for which the embedding, having
    no such value, writes 0. *)
Definition divide (k : kind) (s c : Q) : M t Q :=
  match k with
  | Tensor32 => ret (if Qeq_bool c 0 then 0 else quotient Tensor32 s c)
  | _ => if Qeq_bool c 0 then raise ZeroDivisionError else ret (quotient k s c)
  end.

(** [update(val, n)] for a value of kind [k] and an int [n].  A meter is
    fed values of one kind, as every meter of [main.py] is: [val * n] and
    the addition to [self.sum] are operations of that kind, and
    [self.count], fed ints, is exact. *)
Definition update (k : kind) (v : Q) (n : Z) : M t unit :=
  (modify (set_val v) ;;
   modify (fun self => set_sum (fl k (sum self + fl k (v * fl k (inject_Z n)))) self) ;;
   modify (fun self => set_count (count self + inject_Z n) self) ;;
   self <- get ;;
   a <- divide k (sum self) (count self) ;;
   modify (set_avg a))%py.

(** [dist.all_reduce(total, ReduceOp.SUM)]: every rank contributes a
    [float32] tensor of the same shape and receives the elementwise sum,
    the same on every rank.  [others] are the tensors contributed by the
    other ranks.  The order in which the backend adds the tensors is not
    visible in [main.py]; the sum is taken exactly and rounded once. *)
Definition dist_all_reduce_sum (total : Q * Q) (others : list (Q * Q)) : Q * Q :=
  (fl32 (fst total + fold_right (fun x acc => fst x + acc) 0 others),
   fl32 (snd total + fold_right (fun x acc => snd x + acc) 0 others)).

(** [all_reduce]: [sum] and [count] are packed into a [float32] tensor,
    reduced, and read back with [tolist()] as two Python floats. *)
Definition all_reduce (others : list (Q * Q)) : M t unit :=
  (self <- get ;;
   let total := dist_all_reduce_sum (fl32 (sum self), fl32 (count self)) others in
   modify (set_sum (fst total)) ;;
   modify (set_count (snd total)) ;;
   self <- get ;;
   a <- truediv (sum self) (count self) ;;
   modify (set_avg a))%py.

(** A run of [update] calls on values of kind [k], in order. *)
Fixpoint updates (k : kind) (calls : list (Q * Z)) : M t unit :=
  match calls with
  | [] => ret tt
  | (v, n) :: rest => (update k v n ;; updates k rest)%py
  end.

End AverageMeter.

(** ** Tensor operations used by [accuracy] *)

(** Error monad for code that raises without touching state. *)
Definition rbind {A B : Type} (r : result A) (k : A -> result B) : result B :=
  match r with
  | Ok a => k a
  | Raise e => Raise e
  end.

Declare Scope res_scope.
Delimit Scope res_scope with res.
Notation "x <- c ;; k" := (rbind c (fun x => k))
  (at level 61, c at next level, right associativity) : res_scope.

Fixpoint mapM {A B : Type} (f : A -> result B) (l : list A) : result (list B) :=
  match l with
  | [] => Ok []
  | a :: l' => (b <- f a ;; bs <- mapM f l' ;; Ok (b :: bs))%res
  end.

Fixpoint zip_with {A B C : Type} (f : A -> B -> C) (l1 : list A) (l2 : list B) : list C :=
  match l1, l2 with
  | a :: l1', b :: l2' => f a b :: zip_with f l1' l2'
  | _, _ => []
  end.

(** A 2-d tensor is the list of its rows; a 1-d tensor is a list.  A tensor
    with no rows carries no column count. *)
Definition tensor2 (A : Type) : Type := list (list A).

Definition score (row : list Q) (j : nat) : Q := nth j row 0.

(** The order in which [topk(..., largest=True, sorted=True)] lists the
    entries of a row: higher score first.  The framework does not say how
    entries of equal score are ordered; here the lower index comes first. *)
Definition before (row : list Q) (j i : nat) : bool :=
  match score row j ?= score row i with
  | Gt => true
  | Eq => (j <? i)%nat
  | Lt => false
  end.

Fixpoint insert_idx (row : list Q) (i : nat) (l : list nat) : list nat :=
  match l with
  | [] => [i]
  | j :: l' => if before row i j then i :: l else j :: insert_idx row i l'
  end.

Definition argsort_desc (row : list Q) : list nat :=
  fold_right (insert_idx row) [] (seq 0 (length row)).

(** Indices returned by [row.topk(k)]; [k] larger than the row raises. *)
Definition topk_row (k : nat) (row : list Q) : result (list nat) :=
  if (k <=? length row)%nat then Ok (firstn k (argsort_desc row))
  else Raise RuntimeError.

(** [_, pred = output.topk(k, 1, True, True)]: one row of indices per sample. *)
Definition topk_indices (k : nat) (output : tensor2 Q) : result (tensor2 nat) :=
  mapM (topk_row k) output.

(** [m.t()] for a tensor of shape [(length m, ncols)]. *)
Definition transpose {A : Type} (ncols : nat) (m : tensor2 A) : tensor2 A :=
  fold_right (zip_with cons) (repeat [] ncols) m.

(** [target.view(1, -1).expand_as(pred)] for [pred] of shape [(nrows, ncols)]:
    the single row is repeated; its length must be [ncols], or 1 (broadcast). *)
Definition expand_as (target : list Z) (nrows ncols : nat) : result (tensor2 Z) :=
  if (length target =? ncols)%nat then Ok (repeat target nrows)
  else match target with
       | [t] => Ok (repeat (repeat t ncols) nrows)
       | _ => Raise RuntimeError
       end.

(** [pred.eq(other)], elementwise. *)
Definition tensor_eq (pred : tensor2 nat) (other : tensor2 Z) : tensor2 bool :=
  zip_with (zip_with (fun p t => (Z.of_nat p =? t)%Z)) pred other.

(** [c.reshape(-1).float().sum(0, keepdim=True)] on a boolean tensor: the
    number of its [True] entries, as a [float32].  Up to [2 ^ 24] entries
    every partial sum is a [float32] number, whatever the order of the
    additions; beyond that the embedding rounds the count once. *)
Definition sum_flat (c : tensor2 bool) : Q :=
  fl32 (inject_Z (Z.of_nat (length (filter (fun b => b) (concat c))))).

(** [max(topk)]; an empty tuple raises. *)
Definition py_max (l : list nat) : result nat :=
  match l with
  | [] => Raise ValueError
  | k :: l' => Ok (fold_left Nat.max l' k)
  end.

(** [a / b] on Python floats. *)
Definition py_truediv (a b : Q) : result Q :=
  if Qeq_bool b 0 then Raise ZeroDivisionError else Ok (fl64 (a / b)).

(** ** [accuracy] *)

(** [100.0 / batch_size] is a division of Python floats; [mul_] multiplies
    the [float32] tensor [correct_k] by that scalar, converted to
    [float32].  The values returned are the elements of the one-element
    tensors of [res]. *)
Definition accuracy (output : tensor2 Q) (target : list Z) (topk : list nat)
  : result (list Q) :=
  (maxk <- py_max topk ;;
   let batch_size := length target in
   pred <- topk_indices maxk output ;;
   let pred := transpose maxk pred in
   expanded <- expand_as target maxk (length output) ;;
   let correct := tensor_eq pred expanded in
   mapM (fun k =>
           let correct_k := sum_flat (firstn k correct) in
           scale <- py_truediv 100 (fl64 (inject_Z (Z.of_nat batch_size))) ;;
           Ok (fl32 (correct_k * fl32 scale)))
        topk)%res.

(** *** The property [accuracy] is meant to compute *)

(** Number of classes that [row] ranks ahead of class [i]. *)
Definition rank (row : list Q) (i : nat) : nat :=
  length (filter (fun j => before row j i) (seq 0 (length row))).

(** Number of classes of [row] whose score is strictly higher than that of
    class [i]. *)
Definition higher_count (row : list Q) (i : nat) : nat :=
  length (filter (fun j => match score row j ?= score row i with
                           | Gt => true
                           | _ => false
                           end)
                 (seq 0 (length row))).

(** The label [t] is among the first [k] classes of the listing of [row]. *)
Definition among_k_highest (k : nat) (row : list Q) (t : Z) : bool :=
  (0 <=? t)%Z && (t <? Z.of_nat (length row))%Z && (rank row (Z.to_nat t) <? k)%nat.

(** Number of samples whose label is among the first [k] classes listed. *)
Definition topk_hits (k : nat) (output : tensor2 Q) (target : list Z) : nat :=
  length (filter (fun st => among_k_highest k (fst st) (snd st)) (combine output target)).

(** The label [t] is among the [k] highest-scored classes of [row]: it is a
    class of [row], and fewer than [k] classes score strictly higher. *)
Definition in_top (k : nat) (row : list Q) (t : Z) : bool :=
  (0 <=? t)%Z && (t <? Z.of_nat (length row))%Z
  && (higher_count row (Z.to_nat t) <? k)%nat.

(** Number of samples whose label is among the [k] highest-scored classes. *)
Definition top_hits (k : nat) (output : tensor2 Q) (target : list Z) : nat :=
  length (filter (fun st => in_top k (fst st) (snd st)) (combine output target)).

(** Fraction of samples whose label is among the [k] highest-scored classes. *)
Definition topk_fraction (k : nat) (output : tensor2 Q) (target : list Z) : Q :=
  inject_Z (Z.of_nat (top_hits k output target)) / inject_Z (Z.of_nat (length target)).

(** No other class of [row] has the score of the class [t]. *)
Definition untied (row : list Q) (t : Z) : bool :=
  forallb (fun j => (j =? Z.to_nat t)%nat
                    || negb (Qeq_bool (score row j) (score row (Z.to_nat t))))
          (seq 0 (length row)).

(** [hits] samples out of [batch] as the percentage [accuracy] computes:
    the count as a [float32], times the [float32] of the Python float
    [100.0 / batch], as a [float32]. *)
Definition float32_percentage (hits batch : nat) : Q :=
  fl32 (fl32 (inject_Z (Z.of_nat hits))
        * fl32 (fl64 (100 / fl64 (inject_Z (Z.of_nat batch))))).

(** ** The benchmarking loops *)

(** Run configuration: the fields of [args] read by [train] and [validate]. *)
Record Args : Type := mk_args {
  num_iter : Z;
  num_warmup : Z;
  print_freq : Z;
  batch_size : Z;
  jit : bool;
  bn_folding : bool;
  nv_fuser : bool;
  distributed : bool;
  world_size : Z;
  device : string
}.

(** What one loop iteration observes: the batch drawn from the loader and
    the values returned by the framework calls made on it. *)
Record observation : Type := mk_obs {
  n_images : Z;          (* images.size(0) *)
  output : tensor2 Q;    (* model(images) *)
  target : list Z;
  loss_item : Q;         (* criterion(output, target).item() *)
  duration : Q           (* time.time() - start_time *)
}.

(** The number [%.<digits>f] writes for the float [x]: [x] rounded to
    [digits] decimals, ties to even. *)
Definition printf_f (digits : nat) (x : Q) : Q :=
  inject_Z (round_half_even (x * 10 ^ Z.of_nat digits)) / 10 ^ Z.of_nat digits.

(** Lines written to standard output.  A line holds the numbers it shows:
    [str] of a float (the iteration lines) shows the float itself, [%f]
    (the closing report) a rounded decimal. *)
Inductive message : Type :=
| IterationTime (i : Z) (d : Q)
| Progress (batch : Z)
| Latency (ms : Q)
| Throughput (fps : Q)
| FuserMode (mode : string)
| UseTraceModel
| JitTraceDisable
| JitFailedDueTo (e : exn)
| ConvBnFolding.

Definition zoom {S T A : Type} (proj : S -> T) (upd : T -> S -> S) (c : M T A) : M S A :=
  fun s => let (r, t') := c (proj s) in (r, upd t' s).

Definition lift_result {S A : Type} (r : result A) : M S A := fun s => (r, s).

(** Python's [a % b] on ints. *)
Definition py_mod {S : Type} (a b : Z) : M S Z :=
  if (b =? 0)%Z then raise ZeroDivisionError else ret (a mod b)%Z.

(** The loop header shared by [train] and [run_validate],
    [for i, (images, target) in enumerate(loader): if i == args.num_iter: break],
    resumed at index [i] on the batches still to come. *)
Fixpoint for_enumerate {S : Type} (num_iter : Z) (body : Z -> observation -> M S unit)
    (i : Z) (loader : list observation) : M S unit :=
  match loader with
  | [] => ret tt
  | b :: rest =>
      if (i =? num_iter)%Z then ret tt
      else (body i b ;; for_enumerate num_iter body (i + 1)%Z rest)%py
  end.

Section Loops.

(** The model objects of the framework, and the outcome of the two
    compilation steps [validate] attempts on them:
    [torch.jit.trace(model, sample_input, check_trace=False)] and
    [wrap_cpp_module(torch._C._jit_pass_fold_convbn(model._c))].
    [main.py] neither defines nor imports [wrap_cpp_module], so as the file
    stands the second step raises [NameError]; the embedding does not fix
    its outcome. *)
Variable Model : Type.
Variable jit_trace : Model -> observation -> result Model.
Variable fold_convbn : Model -> result Model.

(** Observable events: a forward pass of a model on the batch of index [i],
    or a printed line. *)
Inductive event : Type :=
| Forward (m : Model) (i : Z)
| Printed (line : message).

(** *** [train] *)

Record train_state : Type := mk_train {
  tr_batch_time : AverageMeter.t;
  tr_data_time : AverageMeter.t;
  tr_losses : AverageMeter.t;
  tr_top1 : AverageMeter.t;
  tr_top5 : AverageMeter.t;
  tr_out : list event
}.

Definition tr_set_batch_time (m : AverageMeter.t) (s : train_state) : train_state :=
  mk_train m (tr_data_time s) (tr_losses s) (tr_top1 s) (tr_top5 s) (tr_out s).
Definition tr_set_losses (m : AverageMeter.t) (s : train_state) : train_state :=
  mk_train (tr_batch_time s) (tr_data_time s) m (tr_top1 s) (tr_top5 s) (tr_out s).
Definition tr_set_top1 (m : AverageMeter.t) (s : train_state) : train_state :=
  mk_train (tr_batch_time s) (tr_data_time s) (tr_losses s) m (tr_top5 s) (tr_out s).
Definition tr_set_top5 (m : AverageMeter.t) (s : train_state) : train_state :=
  mk_train (tr_batch_time s) (tr_data_time s) (tr_losses s) (tr_top1 s) m (tr_out s).
Definition tr_emit (e : event) : M train_state unit :=
  modify (fun s => mk_train (tr_batch_time s) (tr_data_time s) (tr_losses s)
                            (tr_top1 s) (tr_top5 s) (tr_out s ++ [e])).

Definition train_init : train_state :=
  mk_train (AverageMeter.init "Time" ":6.3f" AVERAGE)
           (AverageMeter.init "Data" ":6.3f" AVERAGE)
           (AverageMeter.init "Loss" ":.4e" AVERAGE)
           (AverageMeter.init "Acc@1" ":6.2f" AVERAGE)
           (AverageMeter.init "Acc@5" ":6.2f" AVERAGE)
           [].

(** One pass through the body of the [for] loop of [train], at index [i].
    Moving tensors between devices, the optimizer step, device
    synchronisation and the profiling context [context_func] leave the
    meters and the output alone and are not represented.  [accuracy] returns
    one value per entry of [topk], so the unpacking into [acc1, acc5] cannot
    fail.  [loss.item()] and [duration] are Python floats; [acc1[0]] and
    [acc5[0]] are [float32] tensors. *)
Definition train_step (args : Args) (model : Model) (i : Z) (b : observation)
  : M train_state unit :=
  (tr_emit (Forward model i) ;;
   acc <- lift_result (accuracy (output b) (target b) [1; 5]%nat) ;;
   let acc1 := nth 0 acc 0 in
   let acc5 := nth 1 acc 0 in
   zoom tr_losses tr_set_losses (AverageMeter.update PyFloat (loss_item b) (n_images b)) ;;
   zoom tr_top1 tr_set_top1 (AverageMeter.update Tensor32 acc1 (n_images b)) ;;
   zoom tr_top5 tr_set_top5 (AverageMeter.update Tensor32 acc5 (n_images b)) ;;
   tr_emit (Printed (IterationTime i (duration b))) ;;
   when (num_warmup args <=? i)%Z
        (zoom tr_batch_time tr_set_batch_time
              (AverageMeter.update PyFloat (duration b) 1)) ;;
   r <- py_mod i (print_freq args) ;;
   when (r =? 0)%Z (tr_emit (Printed (Progress (i + 1)%Z))))%py.

Definition train_loop (args : Args) (model : Model) (i : Z) (loader : list observation)
  : M train_state unit :=
  for_enumerate (num_iter args) (train_step args model) i loader.

(** [train(train_loader, model, ...)]; [loader_batch_size] is
    [train_loader.batch_size].  The two closing lines are written with
    [%3.0f]. *)
Definition train (args : Args) (model : Model)
    (train_loader : list observation) (loader_batch_size : Z)
  : result unit * train_state :=
  (train_loop args model 0%Z train_loader ;;
   s <- get ;;
   q <- truediv (AverageMeter.avg (tr_batch_time s)) (fl64 (inject_Z loader_batch_size)) ;;
   let latency := fl64 (q * 1000) in
   perf <- truediv (fl64 (inject_Z loader_batch_size)) (AverageMeter.avg (tr_batch_time s)) ;;
   tr_emit (Printed (Latency (printf_f 0 latency))) ;;
   tr_emit (Printed (Throughput (printf_f 0 perf))))%py train_init.

(** *** [validate] *)

Record validate_state : Type := mk_validate {
  va_model : Model;
  va_batch_time : AverageMeter.t;
  va_losses : AverageMeter.t;
  va_top1 : AverageMeter.t;
  va_top5 : AverageMeter.t;
  va_out : list event
}.

Definition va_set_model (m : Model) (s : validate_state) : validate_state :=
  mk_validate m (va_batch_time s) (va_losses s) (va_top1 s) (va_top5 s) (va_out s).
Definition va_set_batch_time (m : AverageMeter.t) (s : validate_state) : validate_state :=
  mk_validate (va_model s) m (va_losses s) (va_top1 s) (va_top5 s) (va_out s).
Definition va_set_top1 (m : AverageMeter.t) (s : validate_state) : validate_state :=
  mk_validate (va_model s) (va_batch_time s) (va_losses s) m (va_top5 s) (va_out s).
Definition va_set_top5 (m : AverageMeter.t) (s : validate_state) : validate_state :=
  mk_validate (va_model s) (va_batch_time s) (va_losses s) (va_top1 s) m (va_out s).
Definition va_emit (e : event) : M validate_state unit :=
  modify (fun s => mk_validate (va_model s) (va_batch_time s) (va_losses s)
                               (va_top1 s) (va_top5 s) (va_out s ++ [e])).

(** The local variables of [validate].  The four meters are created after
    the [jit] block in the source; their constructors neither print nor
    raise, so the state holds them from the start. *)
Definition validate_init (model : Model) : validate_state :=
  mk_validate model
              (AverageMeter.init "Time" ":6.3f" NONE)
              (AverageMeter.init "Loss" ":.4e" NONE)
              (AverageMeter.init "Acc@1" ":6.2f" AVERAGE)
              (AverageMeter.init "Acc@5" ":6.2f" AVERAGE)
              [].

(** The [if args.jit:] block at the head of [validate]. *)
Definition validate_jit (args : Args) (val_loader : list observation)
  : M validate_state unit :=
  when (jit args)
    (sample_input <- match val_loader with
                     | [] => raise StopIteration
                     | b :: _ => ret b
                     end ;;
     s <- get ;;
     match jit_trace (va_model s) sample_input with
     | Ok modelJit =>
         va_emit (Printed UseTraceModel) ;;
         modify (va_set_model modelJit)
     | Raise RuntimeError =>
         va_emit (Printed JitTraceDisable) ;;
         va_emit (Printed (JitFailedDueTo RuntimeError))
     | Raise TypeError =>
         va_emit (Printed JitTraceDisable) ;;
         va_emit (Printed (JitFailedDueTo TypeError))
     | Raise e => raise e
     end ;;
     when (bn_folding args && String.eqb (device args) "cuda")
       (s <- get ;;
        folded <- lift_result (fold_convbn (va_model s)) ;;
        modify (va_set_model folded) ;;
        va_emit (Printed ConvBnFolding)))%py.

(** One pass through the body of the [for] loop of [run_validate]. *)
Definition run_validate_step (args : Args) (i : Z) (b : observation)
  : M validate_state unit :=
  (s <- get ;;
   va_emit (Forward (va_model s) i) ;;
   va_emit (Printed (IterationTime i (duration b))) ;;
   when (num_warmup args <=? i)%Z
        (zoom va_batch_time va_set_batch_time
              (AverageMeter.update PyFloat (duration b) 1)))%py.

Definition run_validate_loop (args : Args) (i : Z) (loader : list observation)
  : M validate_state unit :=
  for_enumerate (num_iter args) (run_validate_step args) i loader.

(** [run_validate(loader, base_progress)]; [base_progress] is not used by
    the body.  The two closing lines are written with [%3.3f]. *)
Definition run_validate (args : Args) (loader : list observation) (base_progress : Z)
  : M validate_state unit :=
  (run_validate_loop args 0%Z loader ;;
   s <- get ;;
   q <- truediv (AverageMeter.avg (va_batch_time s)) (fl64 (inject_Z (batch_size args))) ;;
   let latency := fl64 (q * 1000) in
   perf <- truediv (fl64 (inject_Z (batch_size args))) (AverageMeter.avg (va_batch_time s)) ;;
   va_emit (Printed (Latency (printf_f 3 latency))) ;;
   va_emit (Printed (Throughput (printf_f 3 perf))))%py.

(** [validate] from [model.eval()] on.  [sampler_len] and [dataset_len] are
    [len(val_loader.sampler)] and [len(val_loader.dataset)]; [aux_loader]
    holds the batches of the loader built over the remaining samples;
    [others1] and [others5] are the [[sum, count]] tensors the other ranks
    contribute to the two reductions. *)
Definition validate_main (args : Args) (val_loader : list observation)
    (sampler_len dataset_len : Z) (aux_loader : list observation)
    (others1 others5 : list (Q * Q))
  : M validate_state Q :=
  (run_validate args val_loader 0%Z ;;
   when (distributed args)
     (zoom va_top1 va_set_top1 (AverageMeter.all_reduce others1) ;;
      zoom va_top5 va_set_top5 (AverageMeter.all_reduce others5)) ;;
   when (distributed args && (sampler_len * world_size args <? dataset_len)%Z)
     (run_validate args aux_loader (Z.of_nat (length val_loader))) ;;
   s <- get ;;
   ret (AverageMeter.avg (va_top1 s)))%py.

(** [validate(val_loader, model, criterion, args)]. *)
Definition validate (args : Args) (model : Model) (val_loader : list observation)
    (sampler_len dataset_len : Z) (aux_loader : list observation)
    (others1 others5 : list (Q * Q))
  : result Q * validate_state :=
  (va_emit (Printed (FuserMode (if nv_fuser args then "fuser2" else "none"))) ;;
   validate_jit args val_loader ;;
   validate_main args val_loader sampler_len dataset_len aux_loader others1 others5)%py
    (validate_init model).

End Loops.

Arguments Forward {Model} m i.
Arguments Printed {Model} line.
Arguments mk_train {Model}.
Arguments tr_batch_time {Model}.
Arguments tr_data_time {Model}.
Arguments tr_losses {Model}.
Arguments tr_top1 {Model}.
Arguments tr_top5 {Model}.
Arguments tr_out {Model}.
Arguments tr_set_batch_time {Model}.
Arguments tr_set_losses {Model}.
Arguments tr_set_top1 {Model}.
Arguments tr_set_top5 {Model}.
Arguments tr_emit {Model}.
Arguments train_init {Model}.
Arguments train_step {Model}.
Arguments train_loop {Model}.
Arguments train {Model}.
Arguments mk_validate {Model}.
Arguments va_model {Model}.
Arguments va_batch_time {Model}.
Arguments va_losses {Model}.
Arguments va_top1 {Model}.
Arguments va_top5 {Model}.
Arguments va_out {Model}.
Arguments va_set_model {Model}.
Arguments va_set_batch_time {Model}.
Arguments va_set_top1 {Model}.
Arguments va_set_top5 {Model}.
Arguments va_emit {Model}.
Arguments validate_init {Model}.
Arguments validate_jit {Model}.
Arguments run_validate_step {Model}.
Arguments run_validate_loop {Model}.
Arguments run_validate {Model}.
Arguments validate_main {Model}.
Arguments validate {Model}.

(** ** Quantities the statements refer to *)


Definition total_count (calls : list (Q * Z)) : Z :=
  fold_right (fun c acc => (snd c + acc)%Z) 0%Z calls.

(** The sum of [val_i * n_i] in the arithmetic of kind [k], call by call,
    starting from the sum [s]: each weight is converted, each product and
    each partial sum rounded. *)
Definition accumulate (k : kind) (s : Q) (calls : list (Q * Z)) : Q :=
  fold_left (fun s c => fl k (s + fl k (fst c * fl k (inject_Z (snd c))))) calls s.




(** A meter built by [AverageMeter(name, fmt, summary_type)] and fed the
    [update] calls [calls] with values of kind [k]. *)
Definition meter_after (name fmt : string) (st : Summary) (k : kind)
    (calls : list (Q * Z)) : AverageMeter.t :=
  snd (AverageMeter.updates k calls (AverageMeter.init name fmt st)).

(** Sums and counts of all ranks, given the local pair and the others'. *)
Definition global_sum (local : Q * Q) (others : list (Q * Q)) : Q :=
  fst local + fold_right (fun x acc => fst x + acc) 0 others.

Definition global_count (local : Q * Q) (others : list (Q * Q)) : Q :=
  snd local + fold_right (fun x acc => snd x + acc) 0 others.

(** [a] comes ahead of [b] in the listing [topk] makes of [row]. *)
Definition listed_before (row : list Q) (a b : nat) : Prop := before row a b = true.

(** Number of [True] entries of a boolean vector, and number of entries of
    an index vector equal to the label [t]. *)
Definition count_true (l : list bool) : nat := length (filter (fun b => b) l).

Definition matches (t : Z) (l : list nat) : nat :=
  length (filter (fun p => (Z.of_nat p =? t)%Z) l).

(** The ten EfficientNet variants. *)
Definition efficientnet_variants : list string :=
  [ "efficientnet_b0"; "efficientnet_b1"; "efficientnet_b2"; "efficientnet_b3";
    "efficientnet_b4"; "efficientnet_b5"; "efficientnet_b6"; "efficientnet_b7";
    "efficientnet_b8"; "efficientnet_l2" ]%string.

(** *** Readings of the output log *)

Definition is_forward {Model : Type} (e : event Model) : bool :=
  match e with Forward _ _ => true | Printed _ => false end.

(** Number of forward passes recorded in a log. *)
Definition forward_count {Model : Type} (out : list (event Model)) : nat :=
  length (filter is_forward out).

(** The duration an event contributes to the measurement window: that of an
    iteration line whose index is at least [warmup]. *)
Definition measured_of {Model : Type} (warmup : Z) (e : event Model) : list Q :=
  match e with
  | Printed (IterationTime i d) => if (warmup <=? i)%Z then [d] else []
  | _ => []
  end.

(** Durations, in order, of the iterations of a log with index at least
    [warmup]. *)
Definition measured {Model : Type} (warmup : Z) (out : list (event Model)) : list Q :=
  flat_map (measured_of warmup) out.

(** Indices of the iterations whose duration a log reports. *)
Definition timed_indices {Model : Type} (out : list (event Model)) : list Z :=
  flat_map (fun e => match e with Printed (IterationTime i _) => [i] | _ => [] end) out.

Definition Qsum (l : list Q) : Q := fold_right Qplus 0 l.

(** Every sum of some of the numbers of [l] is a [float32] number within
    the range of the format: adding them up in [float32], in whatever
    order, rounds nowhere. *)
Fixpoint sublists {A : Type} (l : list A) : list (list A) :=
  match l with
  | [] => [[]]
  | a :: rest => map (cons a) (sublists rest) ++ sublists rest
  end.

Definition float32_sums (l : list Q) : bool :=
  forallb (fun l' => Qeq_bool (fl32 (Qsum l')) (Qsum l') && normal 24 128 (Qsum l'))
          (sublists l).

(** The meter [batch_time] holds the durations [l] and nothing else: it is
    the meter its constructor built, fed the durations of [l] in order,
    each as a Python float with weight 1. *)
Definition tracks (m : AverageMeter.t) (l : list Q) : Prop :=
  m = meter_after (AverageMeter.name m) (AverageMeter.fmt m)
                  (AverageMeter.summary_type m) PyFloat
                  (map (fun d => (d, 1%Z)) l).

(** Latency and throughput as [train] and [run_validate] compute them from
    the average batch time [a] and the batch size [bs], in Python floats. *)
Definition latency_ms (a : Q) (bs : Z) : Q :=
  fl64 (fl64 (a / fl64 (inject_Z bs)) * 1000).

Definition throughput_fps (a : Q) (bs : Z) : Q :=
  fl64 (fl64 (inject_Z bs) / a).

(** The two lines that close [train] and [run_validate], appended to the
    log [before], for an average batch time [a] and a batch size [bs],
    written with [digits] decimals. *)
Definition reports {Model : Type} (digits : nat) (before after : list (event Model))
    (a : Q) (bs : Z) : Prop :=
  after = before ++ [Printed (Latency (printf_f digits (latency_ms a bs)));
                     Printed (Throughput (printf_f digits (throughput_fps a bs)))].

(** [x] is within the relative distance [e] of [y]. *)
Definition within (e x y : Q) : Prop := Qabs (x - y) <= y * e.

(** How close the closing report is to the quotients it stands for: the
    computed latency and throughput against [a / bs * 1000] and [bs / a],
    their product against 1000, and the numbers written with [digits]
    decimals against the computed ones. *)
Definition report_accuracy (digits : nat) (a : Q) (bs : Z) : Prop :=
  within (2 ^ (-51)) (latency_ms a bs) (a / inject_Z bs * 1000) /\
  within (2 ^ (-51)) (throughput_fps a bs) (inject_Z bs / a) /\
  within (2 ^ (-51)) (latency_ms a bs * throughput_fps a bs) 1000 /\
  Qabs (printf_f digits (latency_ms a bs) - latency_ms a bs)
  <= (1 # 2) / 10 ^ Z.of_nat digits /\
  Qabs (printf_f digits (throughput_fps a bs) - throughput_fps a bs)
  <= (1 # 2) / 10 ^ Z.of_nat digits.

(** Models on which a log records a forward pass. *)
Definition forward_models {Model : Type} (out : list (event Model)) : list Model :=
  flat_map (fun e => match e with Forward m _ => [m] | Printed _ => [] end) out.

(** *** The effect of one iteration on the log and on [batch_time]

    An iteration that runs the model [m] on batch [i] always logs the
    forward pass.  Either it stops there (a raise before the time is taken),
    or it logs the iteration line with duration [d], feeds [batch_time]
    when [i] is past the warmup, and possibly logs a progress line. *)
Definition iteration_effect {Model : Type} (warmup : Z) (m : Model) (i : Z) (d : Q)
    (out out' : list (event Model)) (bt bt' : AverageMeter.t) : Prop :=
  (out' = out ++ [Forward m i] /\ bt' = bt)
  \/
  (exists tail,
      out' = out ++ [Forward m i; Printed (IterationTime i d)] ++ tail /\
      (tail = [] \/ tail = [Printed (Progress (i + 1)%Z)]) /\
      bt' = if (warmup <=? i)%Z then snd (AverageMeter.update PyFloat d 1 bt) else bt).

(** *** Sample inputs *)

(** A batch of one image whose six class scores put class 0 first, then
    class 1, and so on, with label [label]; the iteration takes [d]. *)
Definition sample_batch (label : Z) (d : Q) : observation :=
  mk_obs 1 [[6; 5; 4; 3; 2; 1]] [label] (1 # 2) d.

Definition sample_args (num_iter num_warmup : Z) : Args :=
  mk_args num_iter num_warmup 10 1 false false false false (-1) "cpu".

(** [--jit --bn_folding --device cuda] *)
Definition sample_args_jit_folding : Args :=
  mk_args 200 20 10 1 true true false false (-1) "cuda".

(** [--jit] on the default device. *)
Definition sample_args_jit : Args :=
  mk_args 2 0 10 1 true false false false (-1) "cpu".

(** ** Further quantities, for the properties beyond the loops *)

(** The [float32] tensor [[sum, count]] a rank contributes to
    [all_reduce]. *)
Definition contribution (m : AverageMeter.t) : Q * Q :=
  (fl32 (AverageMeter.sum m), fl32 (AverageMeter.count m)).

(** The contributions of all ranks but rank [r]. *)
Definition others_of {A : Type} (r : nat) (world : list A) : list A :=
  firstn r world ++ skipn (S r) world.

(** Sum of the first, and of the second, components over all ranks. *)
Definition world_sum (world : list (Q * Q)) : Q :=
  fold_right (fun x acc => fst x + acc) 0 world.

Definition world_count (world : list (Q * Q)) : Q :=
  fold_right (fun x acc => snd x + acc) 0 world.

(** Every [k] of [topk] is at most the number of classes of every row. *)
Definition topk_fits (output : tensor2 Q) (topk : list nat) : Prop :=
  Forall (fun row => Forall (fun k => (k <= length row)%nat) topk) output.

(** Some [k] of [topk] exceeds the number of classes of some row. *)
Definition topk_overflows (output : tensor2 Q) (topk : list nat) : Prop :=
  Exists (fun row => Exists (fun k => (length row < k)%nat) topk) output.

(** The batches on which a loop with header
    [for i, ... in enumerate(loader): if i == num_iter: break] runs its
    body: all of them when [num_iter] is negative, the first [num_iter]
    otherwise. *)
Definition executed (num_iter : Z) (loader : list observation) : list observation :=
  if (num_iter <? 0)%Z then loader else firstn (Z.to_nat num_iter) loader.

(** The same for a loop resumed at index [i]. *)
Definition executed_from (num_iter i : Z) (loader : list observation)
  : list observation :=
  if (num_iter <? i)%Z then loader else firstn (Z.to_nat (num_iter - i)) loader.

(** What the iterations of [run_validate] on the batches [bs], numbered
    from [i], write to the log when the model is [m]. *)
Fixpoint loop_log {Model : Type} (m : Model) (i : Z) (bs : list observation)
  : list (event Model) :=
  match bs with
  | [] => []
  | b :: rest =>
      Forward m i :: Printed (IterationTime i (duration b)) :: loop_log m (i + 1)%Z rest
  end.

(** The values [acc1[0]] and [acc5[0]] that [train] feeds to [top1] and
    [top5] for a batch. *)
Definition acc_of (j : nat) (b : observation) : Q :=
  match accuracy (output b) (target b) [1; 5]%nat with
  | Ok acc => nth j acc 0
  | Raise _ => 0
  end.

(** [profile_iter = (args.num_iter + args.num_warmup) // 2] and the flag
    [args.profile and i == profile_iter] handed to [context_func]. *)
Definition profile_iter (args : Args) : Z := ((num_iter args + num_warmup args) / 2)%Z.

Definition profiled (profile : bool) (args : Args) (i : Z) : bool :=
  profile && (i =? profile_iter args)%Z.

(** The top-1 meter is below the top-5 meter: same count, and no larger a
    sum or average. *)
Definition meters_ordered (t1 t5 : AverageMeter.t) : Prop :=
  AverageMeter.count t1 == AverageMeter.count t5 /\
  0 <= AverageMeter.count t1 /\
  AverageMeter.sum t1 <= AverageMeter.sum t5 /\
  AverageMeter.avg t1 <= AverageMeter.avg t5.


(** The model the [try]/[except] around [torch.jit.trace] leaves in the
    variable [model]: the traced one, or the one passed in when the tracer
    raised a [RuntimeError] or a [TypeError]; nothing when another exception
    escapes the block. *)
Definition model_after_trace {Model : Type}
    (jit_trace : Model -> observation -> result Model)
    (model : Model) (sample_input : observation) : option Model :=
  match jit_trace model sample_input with
  | Ok modelJit => Some modelJit
  | Raise RuntimeError | Raise TypeError => Some model
  | Raise _ => None
  end.


(** The batch numbers of the progress lines of a log, in order. *)
Definition progress_batches {Model : Type} (out : list (event Model)) : list Z :=
  flat_map (fun e => match e with Printed (Progress b) => [b] | _ => [] end) out.


(** ** [ProgressMeter] *)

(** [str(n)] for an int [n]: the decimal digits, most significant first,
    after a minus sign when [n] is negative.  [str_digits] produces the
    digits of a non-negative [n] from the last one on; [fuel] bounds their
    number. *)
Definition digit_char (d : Z) : ascii := ascii_of_nat (48 + Z.to_nat d).

Fixpoint str_digits (fuel : nat) (n : Z) (acc : string) : string :=
  match fuel with
  | O => acc
  | S fuel' =>
      let acc' := String (digit_char (n mod 10)) acc in
      if (n <? 10)%Z then acc' else str_digits fuel' (n / 10) acc'
  end.

Definition py_str_int (n : Z) : string :=
  if (n <? 0)%Z
  then String "-" (str_digits (S (Z.to_nat (Z.log2 (- n)))) (- n) "")
  else str_digits (S (Z.to_nat (Z.log2 n))) n "".

Definition is_digit (c : ascii) : bool :=
  (48 <=? nat_of_ascii c)%nat && (nat_of_ascii c <=? 57)%nat.

Definition digit_value (c : ascii) : Z := Z.of_nat (nat_of_ascii c - 48).

Fixpoint repeat_char (c : ascii) (n : nat) : string :=
  match n with
  | O => ""
  | S n' => String c (repeat_char c n')
  end.

(** [format(x, spec)] for an int [x] and a format spec [[0][width]d]:
    right-justified with spaces, or filled with zeros after the sign when
    the width is written with a leading [0]. *)
Definition format_int (zero : bool) (width : Z) (x : Z) : string :=
  let s := py_str_int x in
  let pad := Z.to_nat (width - Z.of_nat (String.length s)) in
  if zero
  then if (x <? 0)%Z
       then String "-" (repeat_char "0" pad ++ py_str_int (- x))
       else repeat_char "0" pad ++ s
  else repeat_char " " pad ++ s.

(** [fmtstr.format(...)] for int arguments, on the format strings made
    of text without braces and of replacement fields [{}] and
    [{:[0][width]d}], which take the arguments in turn.  Every string
    [_get_batch_fmtstr] builds is of this kind.  [None] stands for a format
    string outside this fragment or one that Python rejects, and for
    missing arguments.  The five functions follow the scan of the string:
    in text, after [{], after [{:], inside the width, and at the end of a
    field. *)
Fixpoint format_text (s : string) (args : list Z) {struct s} : option string :=
  match s with
  | EmptyString => Some EmptyString
  | String c rest =>
      if (c =? "{")%char then format_open rest args
      else if (c =? "}")%char then None
      else option_map (String c) (format_text rest args)
  end
with format_open (s : string) (args : list Z) {struct s} : option string :=
  match s with
  | EmptyString => None
  | String c rest =>
      if (c =? ":")%char then format_flag rest args
      else if (c =? "}")%char
           then match args with
                | x :: args' =>
                    option_map (append (py_str_int x)) (format_text rest args')
                | [] => None
                end
           else None
  end
with format_flag (s : string) (args : list Z) {struct s} : option string :=
  match s with
  | EmptyString => None
  | String c rest =>
      if (c =? "0")%char then format_width rest args true 0%Z
      else if is_digit c then format_width rest args false (digit_value c)
      else if (c =? "d")%char then format_close rest args false 0%Z
      else None
  end
with format_width (s : string) (args : list Z) (zero : bool) (width : Z) {struct s}
  : option string :=
  match s with
  | EmptyString => None
  | String c rest =>
      if is_digit c then format_width rest args zero (10 * width + digit_value c)%Z
      else if (c =? "d")%char then format_close rest args zero width
      else None
  end
with format_close (s : string) (args : list Z) (zero : bool) (width : Z) {struct s}
  : option string :=
  match s with
  | EmptyString => None
  | String c rest =>
      if (c =? "}")%char
      then match args with
           | x :: args' =>
               option_map (append (format_int zero width x)) (format_text rest args')
           | [] => None
           end
      else None
  end.

Definition py_format (fmtstr : string) (args : list Z) : option string :=
  format_text fmtstr args.

(** [ProgressMeter._get_batch_fmtstr(num_batches)]; [num_batches // 1] is
    floor division of an int by 1. *)
Definition _get_batch_fmtstr (num_batches : Z) : option string :=
  let num_digits := Z.of_nat (String.length (py_str_int (num_batches / 1))) in
  let fmt := ("{:" ++ py_str_int num_digits ++ "d}")%string in
  match py_format fmt [num_batches] with
  | Some total => Some ("[" ++ fmt ++ "/" ++ total ++ "]")%string
  | None => None
  end.

Module ProgressMeter.

(** The attributes [display] formats by itself.  The meters are held by
    reference and shared with the loop that updates them; [display] receives
    the strings [str(meter)] they give at the time of the call
    ([AverageMeter.__str__] formats floats, which is not modelled). *)
Record t : Type := mk {
  batch_fmtstr : string;
  prefix : string
}.

Definition init (num_batches : Z) (prefix_ : string) : option t :=
  match _get_batch_fmtstr num_batches with
  | Some f => Some (mk f prefix_)
  | None => None
  end.

(** The line [display(batch)] prints. *)
Definition display (self : t) (meter_strs : list string) (batch : Z) : option string :=
  match py_format (batch_fmtstr self) [batch] with
  | Some counter =>
      let entries := (prefix self ++ counter)%string :: meter_strs in
      Some (String.concat (String (ascii_of_nat 9) "") entries)
  | None => None
  end.

End ProgressMeter.

(** [s.rjust(width)]. *)
Definition rjust (width : nat) (s : string) : string :=
  (repeat_char " " (width - String.length s) ++ s)%string.


(** ** Launching the workers *)

(** [main]: [args.distributed = args.world_size > 1 or
    args.multiprocessing_distributed], computed from the world size given
    on the command line (or read from [WORLD_SIZE]). *)
Definition main_distributed (world_size : Z) (multiprocessing_distributed : bool)
  : bool :=
  (1 <? world_size)%Z || multiprocessing_distributed.

(** The pairs [(rank, world_size)] with which the processes started by one
    call of [main] join the process group.  With
    [--multiprocessing-distributed], [main] multiplies the world size by
    [ngpus_per_node] and [mp.spawn] calls [main_worker(gpu, ...)] for every
    [gpu] of [range(ngpus_per_node)], each of which takes
    [rank * ngpus_per_node + gpu] for its rank; otherwise there is one
    worker, which keeps the rank it was given.  A run that is not
    distributed joins no group. *)
Definition main_process_group (multiprocessing_distributed : bool)
    (ngpus_per_node : nat) (world_size rank : Z) : list (Z * Z) :=
  if main_distributed world_size multiprocessing_distributed
  then if multiprocessing_distributed
       then map (fun gpu => ((rank * Z.of_nat ngpus_per_node + Z.of_nat gpu)%Z,
                             (Z.of_nat ngpus_per_node * world_size)%Z))
                (seq 0 ngpus_per_node)
       else [(rank, world_size)]
  else [].

(** All processes of a job on [nnodes] machines, where machine [node] runs
    [main] with [--world-size nnodes --rank node]. *)
Definition job_process_group (multiprocessing_distributed : bool)
    (ngpus_per_node nnodes : nat) : list (Z * Z) :=
  flat_map (fun node => main_process_group multiprocessing_distributed ngpus_per_node
                                           (Z.of_nat nnodes) (Z.of_nat node))
           (seq 0 nnodes).

(** * Properties *)

(** ** Rounding *)

Module Rounding.

Lemma two_pow_pos (e : Z) : 0 < 2 ^ e.
Proof. apply Qpower_0_lt. reflexivity. Qed.

Lemma two_pow_succ (e : Z) : 2 ^ (e + 1) == 2 * 2 ^ e.
Proof. rewrite Qpower_plus by discriminate. change (2 ^ 1) with 2. ring. Qed.

Lemma two_pow_le (a b : Z) : (a <= b)%Z -> 2 ^ a <= 2 ^ b.
Proof. intros H. apply Qpower_le_compat_l; [exact H | discriminate]. Qed.

Lemma two_pow_lt_inv (a b : Z) : 2 ^ a < 2 ^ b -> (a < b)%Z.
Proof. intros H. apply (Qpower_lt_compat_l_inv 2); [exact H | reflexivity]. Qed.

Lemma two_pow_Z (n : Z) : (0 <= n)%Z -> inject_Z (2 ^ n) == 2 ^ n.
Proof. intros H. now rewrite Zpower_Qpower. Qed.

(** *** Nearest integer *)

Lemma round_half_even_floor (x : Q) :
  (round_half_even x = Qfloor x /\ x - inject_Z (Qfloor x) <= 1 # 2) \/
  (round_half_even x = (Qfloor x + 1)%Z /\ 1 # 2 <= x - inject_Z (Qfloor x)).
Proof.
  unfold round_half_even.
  destruct (Qcompare_spec (x - inject_Z (Qfloor x)) (1 # 2)) as [E | L | G].
  - destruct (Z.even (Qfloor x)); [left | right]; (split; [reflexivity |]);
      rewrite E; apply Qle_refl.
  - left. split; [reflexivity | now apply Qlt_le_weak].
  - right. split; [reflexivity | now apply Qlt_le_weak].
Qed.

Lemma round_half_even_near (x : Q) :
  x - (1 # 2) <= inject_Z (round_half_even x) <= x + (1 # 2).
Proof.
  pose proof (Qfloor_le x) as Hf. pose proof (Qlt_floor x) as Hc.
  rewrite inject_Z_plus in Hc. change (inject_Z 1) with 1 in Hc.
  destruct (round_half_even_floor x) as [[-> H] | [-> H]].
  - split; lra.
  - rewrite inject_Z_plus. change (inject_Z 1) with 1. split; lra.
Qed.

Lemma round_half_even_comp (x y : Q) : x == y -> round_half_even x = round_half_even y.
Proof.
  intros E. unfold round_half_even. rewrite (Qfloor_comp x y E).
  assert (E' : x - inject_Z (Qfloor y) == y - inject_Z (Qfloor y)) by (rewrite E; reflexivity).
  now rewrite (Qcompare_comp _ _ E' (1 # 2) (1 # 2) (Qeq_refl _)).
Qed.

Lemma round_half_even_Z (n : Z) : round_half_even (inject_Z n) = n.
Proof.
  unfold round_half_even. rewrite Qfloor_Z.
  assert (E : inject_Z n - inject_Z n == 0) by ring.
  now rewrite (Qcompare_comp _ _ E (1 # 2) (1 # 2) (Qeq_refl _)).
Qed.

Lemma round_half_even_mono (x y : Q) :
  x <= y -> (round_half_even x <= round_half_even y)%Z.
Proof.
  intros Hxy. pose proof (Qfloor_resp_le x y Hxy) as Hfl.
  destruct (Z.eq_dec (Qfloor x) (Qfloor y)) as [E | N].
  - unfold round_half_even. rewrite E.
    destruct (Qcompare_spec (x - inject_Z (Qfloor y)) (1 # 2)) as [Ex | Lx | Gx];
      destruct (Qcompare_spec (y - inject_Z (Qfloor y)) (1 # 2)) as [Ey | Ly | Gy];
      try destruct (Z.even (Qfloor y)); try lia; exfalso; lra.
  - destruct (round_half_even_floor x) as [[-> _] | [-> _]];
      destruct (round_half_even_floor y) as [[-> _] | [-> _]]; lia.
Qed.

(** *** The exponent *)

Lemma Zlog2_Q (n : Z) :
  (0 < n)%Z -> 2 ^ Z.log2 n <= inject_Z n /\ inject_Z n < 2 ^ (Z.log2 n + 1).
Proof.
  intros Hn. destruct (Z.log2_spec n Hn) as [Hlo Hhi].
  pose proof (Z.log2_nonneg n) as H0.
  rewrite <- !two_pow_Z by lia. rewrite <- Zle_Qle, <- Zlt_Qlt.
  split; [exact Hlo |]. now rewrite <- Z.add_1_r in Hhi.
Qed.

Lemma ilog2_spec (x : Q) : 0 < x -> 2 ^ ilog2 x <= x /\ x < 2 ^ (ilog2 x + 1).
Proof.
  intros Hx. unfold ilog2.
  set (a := Z.log2 (Qnum x)). set (b := Z.log2 (Zpos (Qden x))).
  assert (Hn : (0 < Qnum x)%Z).
  { destruct x as [n d]. unfold Qlt in Hx. cbn in *. lia. }
  destruct (Zlog2_Q _ Hn) as [Hnl Hnh]. fold a in Hnl, Hnh.
  destruct (Zlog2_Q (Zpos (Qden x)) eq_refl) as [Hdl Hdh]. fold b in Hdl, Hdh.
  assert (Ex : x == inject_Z (Qnum x) / inject_Z (Zpos (Qden x))).
  { destruct x as [n d]. cbn [Qnum Qden]. rewrite Qmake_Qdiv. reflexivity. }
  set (N := inject_Z (Qnum x)) in *. set (D := inject_Z (Zpos (Qden x))) in *.
  assert (HD : 0 < D) by (unfold D; rewrite <- (Zlt_Qlt 0); reflexivity).
  assert (HxD : x * D == N).
  { rewrite Ex. field. intros H. rewrite H in HD. now apply Qlt_irrefl in HD. }
  pose proof (two_pow_pos a) as Pa. pose proof (two_pow_pos b) as Pb.
  pose proof (two_pow_pos (a - b)) as Pab.
  assert (Eab : 2 ^ a == 2 ^ (a - b) * 2 ^ b).
  { rewrite <- Qpower_plus by discriminate. now replace (a - b + b)%Z with a by ring. }
  rewrite (two_pow_succ a) in Hnh. rewrite (two_pow_succ b) in Hdh.
  destruct (Qle_bool (2 ^ (a - b)) x) eqn:Hle.
  - apply Qle_bool_iff in Hle. split; [exact Hle |].
    rewrite two_pow_succ.
    apply (Qmult_lt_r _ _ D HD). rewrite HxD.
    apply (Qlt_le_trans _ (2 * 2 ^ a)); [exact Hnh |].
    rewrite Eab. 
    assert (H : 2 ^ (a - b) * 2 ^ b <= 2 ^ (a - b) * D)
      by (apply Qmult_le_l; assumption).
    lra.
  - assert (Hlt : x < 2 ^ (a - b)).
    { apply Qnot_le_lt. intros H. apply Qle_bool_iff in H. congruence. }
    replace (a - b - 1 + 1)%Z with (a - b)%Z by ring. split; [| exact Hlt].
    assert (E1 : 2 ^ (a - b) == 2 * 2 ^ (a - b - 1)).
    { rewrite <- two_pow_succ. now replace (a - b - 1 + 1)%Z with (a - b)%Z by ring. }
    pose proof (two_pow_pos (a - b - 1)) as P1.
    apply (Qmult_le_r _ _ D HD). rewrite HxD.
    apply (Qle_trans _ (2 ^ a)); [| exact Hnl].
    rewrite Eab, E1.
    assert (H : 2 ^ (a - b - 1) * D <= 2 ^ (a - b - 1) * (2 * 2 ^ b)).
    { apply Qmult_le_l; [assumption | now apply Qlt_le_weak]. }
    lra.
Qed.

Lemma ilog2_unique (x : Q) (e : Z) : 2 ^ e <= x -> x < 2 ^ (e + 1) -> ilog2 x = e.
Proof.
  intros Hlo Hhi.
  assert (Hx : 0 < x) by (apply (Qlt_le_trans _ (2 ^ e)); [apply two_pow_pos | exact Hlo]).
  destruct (ilog2_spec x Hx) as [Slo Shi].
  assert (H1 : (e < ilog2 x + 1)%Z)
    by (apply two_pow_lt_inv; apply (Qle_lt_trans _ x); assumption).
  assert (H2 : (ilog2 x < e + 1)%Z)
    by (apply two_pow_lt_inv; apply (Qle_lt_trans _ x); assumption).
  lia.
Qed.

Lemma ilog2_comp (x y : Q) : 0 < x -> x == y -> ilog2 x = ilog2 y.
Proof.
  intros Hx E. destruct (ilog2_spec x Hx) as [Slo Shi].
  symmetry. apply ilog2_unique; rewrite <- E; assumption.
Qed.

Lemma ilog2_mono (x y : Q) : 0 < x -> x <= y -> (ilog2 x <= ilog2 y)%Z.
Proof.
  intros Hx Hxy.
  assert (Hy : 0 < y) by (apply (Qlt_le_trans _ x); assumption).
  destruct (ilog2_spec x Hx) as [Slo _]. destruct (ilog2_spec y Hy) as [_ Shi].
  assert (H : (ilog2 x < ilog2 y + 1)%Z).
  { apply two_pow_lt_inv. apply (Qle_lt_trans _ x); [exact Slo |].
    apply (Qle_lt_trans _ y); assumption. }
  lia.
Qed.

(** *** Rounding a positive number *)

Section RoundPos.

Variable prec : Z.
Hypothesis prec_pos : (1 <= prec)%Z.

(** The scaled value [x / 2 ^ e] lies in [[2^(prec-1), 2^prec)]. *)
Lemma scaled_range (x : Q) :
  0 < x ->
  let e := (ilog2 x - (prec - 1))%Z in
  2 ^ (prec - 1) <= x / 2 ^ e /\ x / 2 ^ e < 2 ^ prec.
Proof.
  intros Hx e. destruct (ilog2_spec x Hx) as [Slo Shi].
  pose proof (two_pow_pos e) as Pe.
  assert (E1 : 2 ^ ilog2 x == 2 ^ (prec - 1) * 2 ^ e).
  { rewrite <- Qpower_plus by discriminate. unfold e.
    now replace (prec - 1 + (ilog2 x - (prec - 1)))%Z with (ilog2 x) by ring. }
  assert (E2 : 2 ^ (ilog2 x + 1) == 2 ^ prec * 2 ^ e).
  { rewrite <- Qpower_plus by discriminate. unfold e.
    now replace (prec + (ilog2 x - (prec - 1)))%Z with (ilog2 x + 1)%Z by ring. }
  assert (Ne : ~ 2 ^ e == 0) by (intros H; rewrite H in Pe; now apply Qlt_irrefl in Pe).
  split.
  - apply (Qmult_le_r _ _ (2 ^ e) Pe).
    rewrite <- E1. unfold Qdiv. rewrite <- Qmult_assoc, (Qmult_comm (/ _)), Qmult_inv_r by exact Ne.
    now rewrite Qmult_1_r.
  - apply (Qmult_lt_r _ _ (2 ^ e) Pe).
    rewrite <- E2. unfold Qdiv. rewrite <- Qmult_assoc, (Qmult_comm (/ _)), Qmult_inv_r by exact Ne.
    now rewrite Qmult_1_r.
Qed.

(** The significand is an integer of [[2^(prec-1), 2^prec]]. *)
Lemma significand_range (x : Q) :
  0 < x ->
  let e := (ilog2 x - (prec - 1))%Z in
  (2 ^ (prec - 1) <= round_half_even (x / 2 ^ e) <= 2 ^ prec)%Z.
Proof.
  intros Hx e. destruct (scaled_range x Hx) as [Hlo Hhi]. fold e in Hlo, Hhi.
  split.
  - rewrite <- (round_half_even_Z (2 ^ (prec - 1))).
    apply round_half_even_mono. rewrite two_pow_Z by lia. exact Hlo.
  - rewrite <- (round_half_even_Z (2 ^ prec)).
    apply round_half_even_mono. rewrite two_pow_Z by lia. now apply Qlt_le_weak.
Qed.

Lemma round_pos_range (x : Q) :
  0 < x -> 2 ^ ilog2 x <= round_pos prec x /\ round_pos prec x <= 2 ^ (ilog2 x + 1).
Proof.
  intros Hx. unfold round_pos. set (e := (ilog2 x - (prec - 1))%Z).
  destruct (significand_range x Hx) as [Hlo Hhi]. fold e in Hlo, Hhi.
  pose proof (two_pow_pos e) as Pe.
  assert (E1 : 2 ^ ilog2 x == 2 ^ (prec - 1) * 2 ^ e).
  { rewrite <- Qpower_plus by discriminate. unfold e.
    now replace (prec - 1 + (ilog2 x - (prec - 1)))%Z with (ilog2 x) by ring. }
  assert (E2 : 2 ^ (ilog2 x + 1) == 2 ^ prec * 2 ^ e).
  { rewrite <- Qpower_plus by discriminate. unfold e.
    now replace (prec + (ilog2 x - (prec - 1)))%Z with (ilog2 x + 1)%Z by ring. }
  rewrite E1, E2. rewrite <- (two_pow_Z (prec - 1)), <- (two_pow_Z prec) by lia.
  split; (apply Qmult_le_compat_r; [| now apply Qlt_le_weak]);
    unfold Qle; cbn [Qnum Qden inject_Z]; rewrite !Z.mul_1_r; assumption.
Qed.

Lemma round_pos_pos (x : Q) : 0 < x -> 0 < round_pos prec x.
Proof.
  intros Hx. destruct (round_pos_range x Hx) as [Hlo _].
  apply (Qlt_le_trans _ (2 ^ ilog2 x)); [apply two_pow_pos | exact Hlo].
Qed.

Lemma round_pos_comp (x y : Q) : 0 < x -> x == y -> round_pos prec x == round_pos prec y.
Proof.
  intros Hx E. unfold round_pos. rewrite <- (ilog2_comp x y Hx E).
  set (e := (ilog2 x - (prec - 1))%Z).
  assert (E' : x / 2 ^ e == y / 2 ^ e) by (rewrite E; reflexivity).
  now rewrite (round_half_even_comp _ _ E').
Qed.

Lemma round_pos_mono (x y : Q) : 0 < x -> x <= y -> round_pos prec x <= round_pos prec y.
Proof.
  intros Hx Hxy.
  assert (Hy : 0 < y) by (apply (Qlt_le_trans _ x); assumption).
  pose proof (ilog2_mono x y Hx Hxy) as He.
  destruct (Z.eq_dec (ilog2 x) (ilog2 y)) as [E | N].
  - unfold round_pos. rewrite E. set (e := (ilog2 y - (prec - 1))%Z).
    pose proof (two_pow_pos e) as Pe.
    apply Qmult_le_compat_r; [| now apply Qlt_le_weak].
    assert (Hz : forall a b : Z, (a <= b)%Z -> inject_Z a <= inject_Z b)
      by (intros a b H; unfold Qle; cbn [Qnum Qden inject_Z]; now rewrite !Z.mul_1_r).
    apply Hz. apply round_half_even_mono.
    apply Qmult_le_compat_r; [exact Hxy |].
    apply Qlt_le_weak, Qinv_lt_0_compat, Pe.
  - destruct (round_pos_range x Hx) as [_ Hhi]. destruct (round_pos_range y Hy) as [Hlo _].
    apply (Qle_trans _ (2 ^ (ilog2 x + 1))); [exact Hhi |].
    apply (Qle_trans _ (2 ^ ilog2 y)); [| exact Hlo].
    apply two_pow_le. lia.
Qed.

(** The error is at most half a unit in the last place, hence at most
    [2 ^ (- prec)] relative to [x]. *)
Lemma round_pos_error (x : Q) :
  0 < x -> Qabs (round_pos prec x - x) <= x * 2 ^ (- prec).
Proof.
  intros Hx. unfold round_pos. set (e := (ilog2 x - (prec - 1))%Z).
  pose proof (two_pow_pos e) as Pe.
  assert (Ne : ~ 2 ^ e == 0) by (intros H; rewrite H in Pe; now apply Qlt_irrefl in Pe).
  destruct (round_half_even_near (x / 2 ^ e)) as [Hlo Hhi].
  set (m := inject_Z (round_half_even (x / 2 ^ e))) in *.
  assert (Ex : x == x / 2 ^ e * 2 ^ e) by (field; exact Ne).
  set (y := x / 2 ^ e) in *.
  destruct (ilog2_spec x Hx) as [Slo _].
  assert (E1 : 2 ^ e == 2 * (2 ^ ilog2 x * 2 ^ (- prec))).
  { rewrite <- Qpower_plus by discriminate. rewrite <- two_pow_succ. unfold e.
    now replace (ilog2 x + - prec + 1)%Z with (ilog2 x - (prec - 1))%Z by ring. }
  pose proof (two_pow_pos (- prec)) as Pp.
  assert (Hb : 2 ^ ilog2 x * 2 ^ (- prec) <= x * 2 ^ (- prec)).
  { apply Qmult_le_compat_r; [exact Slo | now apply Qlt_le_weak]. }
  apply Qabs_Qle_condition.
  assert (H1 : (m - y) * 2 ^ e <= (1 # 2) * 2 ^ e).
  { apply Qmult_le_compat_r; [lra | now apply Qlt_le_weak]. }
  assert (H2 : - (1 # 2) * 2 ^ e <= (m - y) * 2 ^ e).
  { apply Qmult_le_compat_r; [lra | now apply Qlt_le_weak]. }
  assert (E2 : m * 2 ^ e - x == (m - y) * 2 ^ e) by (rewrite Ex at 1; ring).
  rewrite E2. split; lra.
Qed.

End RoundPos.

(** *** Rounding *)

Section RoundTo.

Variable prec : Z.
Hypothesis prec_pos : (1 <= prec)%Z.

Lemma round_to_0 : round_to prec 0 = 0.
Proof. reflexivity. Qed.

Lemma round_to_pos (x : Q) : 0 < x -> round_to prec x == round_pos prec x.
Proof.
  intros Hx. unfold round_to. rewrite (proj1 (Qgt_alt x 0) Hx). apply Qred_correct.
Qed.

Lemma round_to_neg (x : Q) : x < 0 -> round_to prec x == - round_pos prec (- x).
Proof.
  intros Hx. unfold round_to. rewrite (proj1 (Qlt_alt x 0) Hx). apply Qred_correct.
Qed.

Lemma round_to_zero (x : Q) : x == 0 -> round_to prec x = 0.
Proof. intros Hx. unfold round_to. now rewrite (proj1 (Qeq_alt x 0) Hx). Qed.

(** Equal numbers have the same rounding, as the same fraction. *)
Lemma round_to_comp (x y : Q) : x == y -> round_to prec x = round_to prec y.
Proof.
  intros E. unfold round_to.
  rewrite (Qcompare_comp x y E 0 0 (Qeq_refl 0)).
  destruct (Qcompare_spec y 0) as [E0 | L | G]; [reflexivity | |].
  - apply Qred_complete.
    assert (Hx : 0 < - x) by (rewrite E; lra).
    assert (E' : - x == - y) by (rewrite E; reflexivity).
    now rewrite (round_pos_comp prec (- x) (- y) Hx E').
  - apply Qred_complete.
    assert (Hx : 0 < x) by (rewrite E; exact G).
    apply (round_pos_comp prec x y Hx E).
Qed.

Lemma round_to_opp (x : Q) : round_to prec (- x) == - round_to prec x.
Proof.
  destruct (Q_dec x 0) as [[L | G] | E].
  - rewrite (round_to_pos (- x)) by lra. rewrite (round_to_neg x L). ring.
  - rewrite (round_to_neg (- x)) by lra. rewrite (round_to_pos x G).
    assert (E : - - x == x) by ring.
    now rewrite (round_pos_comp prec (- - x) x ltac:(lra) E).
  - rewrite (round_to_zero x E), (round_to_zero (- x)) by (rewrite E; reflexivity).
    reflexivity.
Qed.

Lemma round_to_nonneg (x : Q) : 0 <= x -> 0 <= round_to prec x.
Proof.
  intros Hx. destruct (Qle_lt_or_eq _ _ Hx) as [L | E].
  - rewrite (round_to_pos x L). apply Qlt_le_weak, round_pos_pos; assumption.
  - rewrite (round_to_zero x) by (symmetry; exact E). apply Qle_refl.
Qed.

Lemma round_to_positive (x : Q) : 0 < x -> 0 < round_to prec x.
Proof.
  intros Hx. rewrite (round_to_pos x Hx). apply round_pos_pos; assumption.
Qed.

Lemma round_to_nonpos (x : Q) : x <= 0 -> round_to prec x <= 0.
Proof.
  intros Hx. destruct (Qle_lt_or_eq _ _ Hx) as [L | E].
  - rewrite (round_to_neg x L).
    pose proof (round_pos_pos prec prec_pos (- x) ltac:(lra)). lra.
  - rewrite (round_to_zero x E). apply Qle_refl.
Qed.

(** Rounding is monotone. *)
Lemma round_to_mono (x y : Q) : x <= y -> round_to prec x <= round_to prec y.
Proof.
  intros Hxy. destruct (Qlt_le_dec 0 x) as [Px | Nx].
  - rewrite (round_to_pos x Px), (round_to_pos y) by lra.
    now apply round_pos_mono.
  - destruct (Qlt_le_dec 0 y) as [Py | Ny].
    + apply (Qle_trans _ 0); [now apply round_to_nonpos |].
      apply round_to_nonneg; lra.
    + destruct (Qle_lt_or_eq _ _ Ny) as [Ly | Ey].
      * rewrite (round_to_neg y Ly), (round_to_neg x) by lra.
        pose proof (round_pos_mono prec prec_pos (- y) (- x) ltac:(lra) ltac:(lra)).
        lra.
      * rewrite (round_to_zero y Ey). now apply round_to_nonpos.
Qed.

Lemma round_to_eq_0 (x : Q) : round_to prec x == 0 -> x == 0.
Proof.
  intros H. destruct (Q_dec x 0) as [[L | G] | E]; [| | exact E]; exfalso.
  - rewrite (round_to_neg x L) in H.
    pose proof (round_pos_pos prec prec_pos (- x) ltac:(lra)). lra.
  - pose proof (round_to_positive x G). lra.
Qed.

(** The relative error of rounding is at most [2 ^ (- prec)]. *)
Lemma round_to_error (x : Q) :
  Qabs (round_to prec x - x) <= Qabs x * 2 ^ (- prec).
Proof.
  destruct (Q_dec x 0) as [[L | G] | E].
  - rewrite (round_to_neg x L), (Qabs_neg x) by lra.
    pose proof (round_pos_error prec (- x) ltac:(lra)) as H.
    assert (E : - round_pos prec (- x) - x == - (round_pos prec (- x) - - x)) by ring.
    now rewrite E, Qabs_opp.
  - rewrite (round_to_pos x G), (Qabs_pos x) by lra.
    now apply round_pos_error.
  - rewrite (round_to_zero x E).
    assert (E0 : 0 - x == 0) by (rewrite E; reflexivity).
    rewrite E0, E. cbn. rewrite Qmult_0_l. apply Qle_refl.
Qed.

Lemma round_to_upper (x : Q) : 0 <= x -> round_to prec x <= x * (1 + 2 ^ (- prec)).
Proof.
  intros Hx. pose proof (round_to_error x) as H.
  rewrite (Qabs_pos x Hx) in H. apply Qabs_Qle_condition in H. lra.
Qed.

Lemma round_to_lower (x : Q) : 0 <= x -> x * (1 - 2 ^ (- prec)) <= round_to prec x.
Proof.
  intros Hx. pose proof (round_to_error x) as H.
  rewrite (Qabs_pos x Hx) in H. apply Qabs_Qle_condition in H. lra.
Qed.

End RoundTo.

End Rounding.

(** ** [get_image_size] *)

Lemma dict_get_In {V : Type} (d : list (string * V)) (key : string) (v : V) :
  dict_get d key = Some v -> In (key, v) d.
Proof.
  induction d as [| [k w] d IH]; simpl; [discriminate |].
  destruct (String.eqb_spec key k) as [-> | _].
  - intros [= ->]. now left.
  - intros H. right. now apply IH.
Qed.

Lemma dict_get_None {V : Type} (d : list (string * V)) (key : string) :
  ~ In key (dict_keys d) -> dict_get d key = None.
Proof.
  induction d as [| [k w] d IH]; simpl; [reflexivity |].
  intros H. destruct (String.eqb_spec key k) as [-> | _].
  - exfalso. apply H. now left.
  - apply IH. intros Hin. apply H. now right.
Qed.

Lemma dict_get_Some {V : Type} (d : list (string * V)) (key : string) :
  In key (dict_keys d) -> exists v, dict_get d key = Some v.
Proof.
  induction d as [| [k w] d IH]; simpl; [tauto |].
  intros [-> | Hin].
  - rewrite String.eqb_refl. now exists w.
  - destruct (String.eqb key k); [now exists w | now apply IH].
Qed.

Lemma params_dict_keys : dict_keys params_dict = efficientnet_variants.
Proof. reflexivity. Qed.

(** C10. For a model name that is a key of [params_dict] (one of the ten
    EfficientNet variants b0-b8 and l2), [get_image_size] returns the
    resolution, the third component of the entry stored under that name;
    for every other name it fails with an assertion error. *)
Theorem get_image_size_spec (model_name : string) :
  (In model_name efficientnet_variants /\
   exists width depth res dropout,
     In (model_name, (width, depth, res, dropout)) params_dict /\
     dict_get params_dict model_name = Some (width, depth, res, dropout) /\
     get_image_size model_name = Ok res)
  \/
  (~ In model_name efficientnet_variants /\
   get_image_size model_name = Raise AssertionError).
Proof.
  rewrite <- params_dict_keys.
  destruct (in_dec string_dec model_name (dict_keys params_dict)) as [Hin | Hout].
  - left. split; [assumption |].
    destruct (dict_get_Some _ _ Hin) as [[[[w d] r] p] Hget].
    exists w, d, r, p. split; [now apply dict_get_In | split; [assumption |]].
    unfold get_image_size. now rewrite Hget.
  - right. split; [assumption |].
    unfold get_image_size. now rewrite (dict_get_None _ _ Hout).
Qed.

Example get_image_size_b3 : get_image_size "efficientnet_b3" = Ok 300%Z.
Proof. reflexivity. Qed.

Example get_image_size_resnet : get_image_size "resnet18" = Raise AssertionError.
Proof. reflexivity. Qed.

(** ** [AverageMeter] *)

(** *** The arithmetic of a kind *)

Lemma fl64_comp (x y : Q) : x == y -> fl64 x = fl64 y.
Proof. apply Rounding.round_to_comp. Qed.

Lemma fl32_comp (x y : Q) : x == y -> fl32 x = fl32 y.
Proof. apply Rounding.round_to_comp. Qed.

#[global] Instance fl64_proper : Proper (Qeq ==> Qeq) fl64.
Proof. intros x y E. now rewrite (fl64_comp x y E). Qed.

#[global] Instance fl32_proper : Proper (Qeq ==> Qeq) fl32.
Proof. intros x y E. now rewrite (fl32_comp x y E). Qed.

#[global] Instance fl_proper (k : kind) : Proper (Qeq ==> Qeq) (fl k).
Proof. intros x y E. destruct k; cbn [fl]; now rewrite E. Qed.

Lemma fl64_mono (x y : Q) : x <= y -> fl64 x <= fl64 y.
Proof. apply Rounding.round_to_mono. lia. Qed.

Lemma fl32_mono (x y : Q) : x <= y -> fl32 x <= fl32 y.
Proof. apply Rounding.round_to_mono. lia. Qed.

Lemma fl_mono (k : kind) (x y : Q) : x <= y -> fl k x <= fl k y.
Proof. destruct k; cbn [fl]; [trivial | apply fl64_mono | apply fl32_mono]. Qed.

Lemma fl_0 (k : kind) : fl k 0 == 0.
Proof. now destruct k. Qed.

Lemma fl_nonneg (k : kind) (x : Q) : 0 <= x -> 0 <= fl k x.
Proof. intros H. rewrite <- (fl_0 k). now apply fl_mono. Qed.

Lemma fl_pos (k : kind) (x : Q) : 0 < x -> 0 < fl k x.
Proof.
  destruct k; cbn [fl]; [trivial | |]; apply Rounding.round_to_positive; lia.
Qed.

Lemma fl_eq_0 (k : kind) (x : Q) : fl k x == 0 -> x == 0.
Proof.
  destruct k; cbn [fl]; [trivial | |]; apply Rounding.round_to_eq_0; lia.
Qed.

Lemma fl64_pos (x : Q) : 0 < x -> 0 < fl64 x.
Proof. apply (fl_pos PyFloat). Qed.

Lemma fl64_eq_0 (x : Q) : fl64 x == 0 -> x == 0.
Proof. apply (fl_eq_0 PyFloat). Qed.

Lemma inject_Z_le (a b : Z) : (a <= b)%Z -> inject_Z a <= inject_Z b.
Proof. intros H. unfold Qle. cbn [Qnum Qden inject_Z]. lia. Qed.

Module AverageMeterFacts.
Import AverageMeter.


Lemma Qeq_bool_false_of_pos (q : Q) : 0 < q -> Qeq_bool q 0 = false.
Proof.
  intros H. destruct (Qeq_bool q 0) eqn:E; [| reflexivity].
  apply Qeq_bool_eq in E. lra.
Qed.

Lemma Qeq_bool_false_of_neq (q : Q) : ~ q == 0 -> Qeq_bool q 0 = false.
Proof.
  intros H. destruct (Qeq_bool q 0) eqn:E; [| reflexivity].
  apply Qeq_bool_eq in E. contradiction.
Qed.

Lemma inject_Z_pos (n : Z) : (1 <= n)%Z -> 1 <= inject_Z n.
Proof. intros H. change 1 with (inject_Z 1). now apply inject_Z_le. Qed.

(** [update] spelled out: the three assignments always happen; the
    division raises on a zero count, unless the sum is a tensor. *)
Lemma update_run (k : kind) (v : Q) (n : Z) (m : t) :
  update k v n m =
  let s := fl k (sum m + fl k (v * fl k (inject_Z n))) in
  let c := count m + inject_Z n in
  if Qeq_bool c 0
  then match k with
       | Tensor32 => (Ok tt, mk (name m) (fmt m) (summary_type m) v 0 s c)
       | _ => (Raise ZeroDivisionError,
               mk (name m) (fmt m) (summary_type m) v (avg m) s c)
       end
  else (Ok tt, mk (name m) (fmt m) (summary_type m) v (quotient k s c) s c).
Proof.
  unfold update, divide, bind, modify, get, raise, ret; simpl.
  destruct k; destruct (Qeq_bool (count m + inject_Z n) 0); reflexivity.
Qed.

Lemma update_ok (k : kind) (v : Q) (n : Z) (m : t) :
  ~ count m + inject_Z n == 0 ->
  update k v n m =
  (Ok tt,
   mk (name m) (fmt m) (summary_type m) v
      (quotient k (fl k (sum m + fl k (v * fl k (inject_Z n)))) (count m + inject_Z n))
      (fl k (sum m + fl k (v * fl k (inject_Z n)))) (count m + inject_Z n)).
Proof.
  intros H. rewrite update_run. cbv zeta. now rewrite (Qeq_bool_false_of_neq _ H).
Qed.

(** The only exception of [update] is [ZeroDivisionError]. *)
Lemma update_raises (k : kind) (v : Q) (n : Z) (m : t) (e : exn) :
  fst (update k v n m) = Raise e -> e = ZeroDivisionError.
Proof.
  rewrite update_run. cbv zeta.
  destruct (Qeq_bool _ 0); [destruct k |]; cbn [fst]; congruence.
Qed.

(** [update] leaves the constructor's arguments alone, and adds [n] to the
    count whether it raises or not. *)
Lemma update_state (k : kind) (v : Q) (n : Z) (m : t) :
  let m' := snd (update k v n m) in
  name m' = name m /\ fmt m' = fmt m /\ summary_type m' = summary_type m /\
  count m' = count m + inject_Z n /\
  sum m' = fl k (sum m + fl k (v * fl k (inject_Z n))).
Proof.
  rewrite update_run. cbv zeta.
  destruct (Qeq_bool _ 0); [destruct k |]; repeat split.
Qed.

Lemma all_reduce_run (others : list (Q * Q)) (m : t) :
  all_reduce others m =
  let total := dist_all_reduce_sum (fl32 (sum m), fl32 (count m)) others in
  if Qeq_bool (snd total) 0
  then (Raise ZeroDivisionError,
        mk (name m) (fmt m) (summary_type m) (val m) (avg m) (fst total) (snd total))
  else (Ok tt,
        mk (name m) (fmt m) (summary_type m) (val m) (fl64 (fst total / snd total))
           (fst total) (snd total)).
Proof.
  unfold all_reduce, bind, modify, get, truediv, raise, ret; simpl.
  destruct (Qeq_bool _ 0); reflexivity.
Qed.



(** Running [updates] from any meter with a non-negative count. *)
Lemma updates_from (k : kind) (calls : list (Q * Z)) :
  Forall (fun c => (1 <= snd c)%Z) calls ->
  forall m, 0 <= count m ->
  let m' := snd (updates k calls m) in
  fst (updates k calls m) = Ok tt /\
  sum m' = accumulate k (sum m) calls /\
  count m' == count m + inject_Z (total_count calls) /\
  (calls <> [] -> 0 < count m' /\ avg m' = quotient k (sum m') (count m')) /\
  (calls = [] -> m' = m).
Proof.
  induction 1 as [| [v n] rest Hn _ IH]; intros m Hm.
  - cbv zeta. simpl. change (inject_Z 0) with 0.
    split; [reflexivity |]. split; [reflexivity |]. split; [lra |].
    split; [intros E; now contradiction E | reflexivity].
  - simpl in Hn. apply inject_Z_pos in Hn.
    assert (Hpos : 0 < count m + inject_Z n) by lra.
    assert (Hnz : ~ count m + inject_Z n == 0) by lra.
    assert (E : updates k ((v, n) :: rest) m
                = updates k rest (snd (update k v n m))).
    { cbn [updates]. unfold bind. now rewrite (update_ok k v n m Hnz). }
    cbv zeta. rewrite E. clear E. rewrite (update_ok k v n m Hnz). cbn [snd].
    set (m1 := mk _ _ _ _ _ _ _).
    assert (Hm1 : 0 <= count m1) by (subst m1; cbn [count]; lra).
    destruct (IH m1 Hm1) as (Hr & Hs & Hc & Hne & He).
    split; [exact Hr |].
    change (total_count ((v, n) :: rest)) with (n + total_count rest)%Z.
    split; [rewrite Hs; reflexivity |].
    split; [rewrite Hc; subst m1; cbn [count]; rewrite inject_Z_plus; lra |].
    split; [| discriminate].
    intros _. destruct rest as [| c rest'].
    + rewrite (He eq_refl). subst m1; cbn [count sum avg]. split; [lra | reflexivity].
    + apply Hne. discriminate.
Qed.

End AverageMeterFacts.





(** *** [all_reduce] *)

Lemma In_sublists_all {A : Type} (l : list A) : In l (sublists l).
Proof.
  induction l as [| a l IH]; [now left |].
  cbn [sublists]. apply in_or_app. left. now apply in_map.
Qed.

Lemma In_sublists_nil {A : Type} (l : list A) : In [] (sublists l).
Proof.
  induction l as [| a l IH]; [now left |].
  cbn [sublists]. apply in_or_app. now right.
Qed.

Lemma In_sublists_head {A : Type} (a : A) (l : list A) : In [a] (sublists (a :: l)).
Proof.
  cbn [sublists]. apply in_or_app. left. apply in_map, In_sublists_nil.
Qed.

Lemma float32_sums_spec (l l' : list Q) :
  float32_sums l = true -> In l' (sublists l) -> fl32 (Qsum l') == Qsum l'.
Proof.
  unfold float32_sums. rewrite forallb_forall. intros H Hin.
  specialize (H l' Hin). apply andb_true_iff in H. now apply Qeq_bool_eq.
Qed.

Lemma Qsum_map_fst (x : Q) (others : list (Q * Q)) :
  Qsum (x :: map fst others) = x + fold_right (fun y acc => fst y + acc) 0 others.
Proof.
  cbn [Qsum fold_right]. f_equal. induction others as [| y others IH]; [reflexivity |].
  cbn [map fold_right]. now rewrite IH.
Qed.

Lemma Qsum_map_snd (x : Q) (others : list (Q * Q)) :
  Qsum (x :: map snd others) = x + fold_right (fun y acc => snd y + acc) 0 others.
Proof.
  cbn [Qsum fold_right]. f_equal. induction others as [| y others IH]; [reflexivity |].
  cbn [map fold_right]. now rewrite IH.
Qed.

(** When the counts the ranks contribute add up to zero, [all_reduce]
    stores the reduced sum and count and then raises on the division;
    [avg] keeps its old value. *)
Lemma all_reduce_zero_count (others : list (Q * Q)) (m : AverageMeter.t) :
  global_count (contribution m) others == 0 ->
  let run := AverageMeter.all_reduce others m in
  fst run = Raise ZeroDivisionError /\
  AverageMeter.avg (snd run) = AverageMeter.avg m /\
  AverageMeter.count (snd run) == 0.
Proof.
  intros Hz run. subst run. rewrite AverageMeterFacts.all_reduce_run. cbv zeta.
  unfold AverageMeter.dist_all_reduce_sum. cbn [fst snd].
  unfold global_count, contribution in Hz. cbn [snd] in Hz.
  assert (E : fl32 (fl32 (AverageMeter.count m)
                    + fold_right (fun x acc => snd x + acc) 0 others) == 0).
  { rewrite Hz. reflexivity. }
  rewrite (Qeq_eq_bool _ _ E). cbn [fst snd AverageMeter.avg AverageMeter.count].
  repeat split. exact E.
Qed.

(** C3 (as the code has it). Let the local state of the meter be
    [(sum, count)] and let [others] be the [float32] pairs the other ranks
    contribute.  Provided the counts of all ranks do not add up to zero and
    the sums, the counts and their partial sums are [float32] numbers,
    [all_reduce] completes and leaves [sum] equal to the sum of all ranks'
    sums, [count] equal to the sum of all ranks' counts, and [avg] equal to
    the global sum divided by the global count, as a Python float. *)
Theorem all_reduce_global_average (others : list (Q * Q)) (m : AverageMeter.t) :
  ~ global_count (AverageMeter.sum m, AverageMeter.count m) others == 0 ->
  float32_sums (AverageMeter.sum m :: map fst others) = true ->
  float32_sums (AverageMeter.count m :: map snd others) = true ->
  let run := AverageMeter.all_reduce others m in
  let gs := global_sum (AverageMeter.sum m, AverageMeter.count m) others in
  let gc := global_count (AverageMeter.sum m, AverageMeter.count m) others in
  fst run = Ok tt /\
  AverageMeter.sum (snd run) == gs /\
  AverageMeter.count (snd run) == gc /\
  AverageMeter.avg (snd run) == fl64 (gs / gc).
Proof.
  intros Hnz Hfs Hfc run gs gc. subst run gs gc.
  rewrite AverageMeterFacts.all_reduce_run. cbv zeta.
  unfold AverageMeter.dist_all_reduce_sum, global_sum, global_count in *.
  cbn [fst snd] in *.
  pose proof (float32_sums_spec _ _ Hfs (In_sublists_head _ _)) as Hs1.
  pose proof (float32_sums_spec _ _ Hfs (In_sublists_all _)) as Hs2.
  pose proof (float32_sums_spec _ _ Hfc (In_sublists_head _ _)) as Hc1.
  pose proof (float32_sums_spec _ _ Hfc (In_sublists_all _)) as Hc2.
  rewrite Qsum_map_fst in Hs2. rewrite Qsum_map_snd in Hc2.
  assert (Hx : forall x : Q, Qsum [x] == x) by (intros x; cbn; ring).
  rewrite Hx in Hs1, Hc1.
  set (S0 := fold_right (fun x acc => fst x + acc) 0 others) in *.
  set (C0 := fold_right (fun x acc => snd x + acc) 0 others) in *.
  assert (Es : fl32 (fl32 (AverageMeter.sum m) + S0) == AverageMeter.sum m + S0)
    by (rewrite Hs1; exact Hs2).
  assert (Ec : fl32 (fl32 (AverageMeter.count m) + C0) == AverageMeter.count m + C0)
    by (rewrite Hc1; exact Hc2).
  rewrite AverageMeterFacts.Qeq_bool_false_of_neq by (rewrite Ec; exact Hnz).
  cbn [fst snd AverageMeter.sum AverageMeter.count AverageMeter.avg].
  split; [reflexivity |]. split; [exact Es |]. split; [exact Ec |].
  now rewrite Es, Ec.
Qed.

Lemma all_reduce_global_average_witness :
  let m := snd (AverageMeter.update Tensor32 80 4
                  (AverageMeter.init "Acc@1" ":6.2f" AVERAGE)) in
  let run := AverageMeter.all_reduce [(100, 2); (60, 2)] m in
  fst run = Ok tt /\ AverageMeter.avg (snd run) == 60.
Proof.
  pose proof (all_reduce_global_average [(100, 2); (60, 2)]
                (snd (AverageMeter.update Tensor32 80 4
                        (AverageMeter.init "Acc@1" ":6.2f" AVERAGE))))
    as H.
  assert (Hnz : ~ global_count
                  (AverageMeter.sum
                     (snd (AverageMeter.update Tensor32 80 4
                             (AverageMeter.init "Acc@1" ":6.2f" AVERAGE))),
                   AverageMeter.count
                     (snd (AverageMeter.update Tensor32 80 4
                             (AverageMeter.init "Acc@1" ":6.2f" AVERAGE))))
                  [(100, 2); (60, 2)] == 0).
  { vm_compute. discriminate. }
  specialize (H Hnz eq_refl eq_refl). cbv zeta in H. destruct H as (Hr & _ & _ & Ha).
  split; [exact Hr |]. rewrite Ha. vm_compute. reflexivity.
Defined.

(** C3, as stated, fails in two ways.  When no rank has recorded anything
    (the state of [top1] and [top5] of [validate] when [all_reduce] is
    called on them) the call raises instead of producing an average.  And
    the values travel as [float32]: a lone rank holding the sum and count
    16777217 reads back 16777216. *)
Lemma all_reduce_all_ranks_empty_raises :
  (let m := AverageMeter.init "Acc@1" ":6.2f" AVERAGE in
   let run := AverageMeter.all_reduce [(0, 0); (0, 0); (0, 0)] m in
   fst run = Raise ZeroDivisionError /\ fst run <> Ok tt) /\
  (let m := snd (AverageMeter.update PyInt 1 16777217
                   (AverageMeter.init "Acc@1" ":6.2f" AVERAGE)) in
   let run := AverageMeter.all_reduce [] m in
   AverageMeter.sum m == 16777217 /\
   ~ AverageMeter.sum (snd run) == global_sum (AverageMeter.sum m, AverageMeter.count m) [] /\
   ~ AverageMeter.count (snd run)
     == global_count (AverageMeter.sum m, AverageMeter.count m) []).
Proof.
  split; [split; [reflexivity | discriminate] |].
  split; [reflexivity |]. split; apply Qeq_bool_neq; vm_compute; reflexivity.
Qed.

(** ** [accuracy] *)

(** *** The order in which [topk] lists the classes of a row *)

Section TopkOrder.

Variable row : list Q.

Lemma before_spec (j i : nat) :
  before row j i = true <->
  score row i < score row j \/ (score row j == score row i /\ (j < i)%nat).
Proof.
  unfold before. destruct (Qcompare_spec (score row j) (score row i)) as [E | L | G].
  - rewrite Nat.ltb_lt. split; [intros H; right; now split |].
    intros [H | [_ H]]; [rewrite E in H; now apply Qlt_irrefl in H | exact H].
  - split; [discriminate |].
    intros [H | [H _]]; [exfalso; lra | rewrite H in L; now apply Qlt_irrefl in L].
  - split; [intros _; now left | reflexivity].
Qed.

Lemma before_irrefl (i : nat) : before row i i = false.
Proof.
  destruct (before row i i) eqn:E; [| reflexivity].
  apply before_spec in E. destruct E as [H | [_ H]]; [lra | lia].
Qed.

Lemma before_asym (j i : nat) : before row j i = true -> before row i j = false.
Proof.
  intros H. destruct (before row i j) eqn:E; [| reflexivity].
  apply before_spec in H. apply before_spec in E.
  destruct H as [H | [H1 H2]], E as [E | [E1 E2]]; try lra. lia.
Qed.

Lemma before_total (j i : nat) :
  j <> i -> before row j i = false -> before row i j = true.
Proof.
  intros Hne H. apply before_spec.
  destruct (Qcompare_spec (score row j) (score row i)) as [E | L | G].
  - right. split; [now symmetry |].
    destruct (Nat.lt_trichotomy j i) as [Hl | [He | Hg]];
      [| contradiction | exact Hg].
    assert (before row j i = true) by (apply before_spec; right; now split).
    congruence.
  - now left.
  - assert (before row j i = true) by (apply before_spec; now left).
    congruence.
Qed.

Lemma before_trans (a b c : nat) :
  before row a b = true -> before row b c = true -> before row a c = true.
Proof.
  rewrite !before_spec.
  intros [H | [H1 H2]] [K | [K1 K2]].
  - left; lra.
  - left; lra.
  - left; lra.
  - right. split; [lra | lia].
Qed.

Lemma insert_idx_perm (i : nat) (l : list nat) :
  Permutation (insert_idx row i l) (i :: l).
Proof.
  induction l as [| j l IH]; simpl; [reflexivity |].
  destruct (before row i j); [reflexivity |].
  rewrite IH. apply perm_swap.
Qed.

Lemma insert_idx_sorted (i : nat) (l : list nat) :
  ~ In i l ->
  StronglySorted (listed_before row) l ->
  StronglySorted (listed_before row) (insert_idx row i l).
Proof.
  intros Hni Hs. induction Hs as [| j l Hs IH Hj]; simpl.
  - constructor; constructor.
  - destruct (before row i j) eqn:E.
    + constructor; [now constructor |].
      constructor; [exact E |].
      rewrite Forall_forall in *. intros x Hx.
      apply (before_trans i j x E). now apply Hj.
    + assert (Hji : before row j i = true).
      { apply before_total; [| exact E]. intros ->. apply Hni. now left. }
      constructor.
      * apply IH. intros Hin. apply Hni. now right.
      * rewrite Forall_forall in *. intros x Hx.
        apply (Permutation_in _ (insert_idx_perm i l)) in Hx.
        destruct Hx as [<- | Hx]; [exact Hji | now apply Hj].
Qed.

Lemma argsort_desc_perm : Permutation (argsort_desc row) (seq 0 (length row)).
Proof.
  unfold argsort_desc. induction (seq 0 (length row)) as [| i l IH]; simpl.
  - reflexivity.
  - rewrite insert_idx_perm. now constructor.
Qed.

Lemma argsort_desc_NoDup : NoDup (argsort_desc row).
Proof.
  apply (Permutation_NoDup (Permutation_sym argsort_desc_perm)), seq_NoDup.
Qed.

Lemma argsort_desc_length : length (argsort_desc row) = length row.
Proof. rewrite (Permutation_length argsort_desc_perm). apply length_seq. Qed.

Lemma argsort_desc_In (i : nat) : In i (argsort_desc row) <-> (i < length row)%nat.
Proof.
  split; intros H.
  - apply (Permutation_in _ argsort_desc_perm), in_seq in H. lia.
  - apply (Permutation_in _ (Permutation_sym argsort_desc_perm)), in_seq. lia.
Qed.

Lemma fold_insert_sorted (l : list nat) :
  NoDup l -> StronglySorted (listed_before row) (fold_right (insert_idx row) [] l).
Proof.
  induction 1 as [| i l Hni Hnd IH]; simpl; [constructor |].
  apply insert_idx_sorted; [| exact IH].
  intros Hin. apply Hni.
  clear - Hin. induction l as [| j l IHl]; simpl in *; [contradiction |].
  apply (Permutation_in _ (insert_idx_perm j _)) in Hin.
  destruct Hin as [-> | Hin]; [now left | right; now apply IHl].
Qed.

Lemma argsort_desc_sorted : StronglySorted (listed_before row) (argsort_desc row).
Proof. apply fold_insert_sorted, seq_NoDup. Qed.

End TopkOrder.

(** *** Position in a sorted listing *)

Lemma matches_not_In (t : Z) (l : list nat) :
  ~ In (Z.to_nat t) l -> matches t l = 0%nat.
Proof.
  unfold matches. induction l as [| p l IH]; simpl; [reflexivity |].
  intros H. destruct (Z.eqb_spec (Z.of_nat p) t) as [E | _].
  - exfalso. apply H. left. subst t. symmetry. apply Nat2Z.id.
  - apply IH. intros Hin. apply H. now right.
Qed.

Lemma matches_negative (t : Z) (l : list nat) : (t < 0)%Z -> matches t l = 0%nat.
Proof.
  unfold matches. intros Ht. induction l as [| p l IH]; simpl; [reflexivity |].
  destruct (Z.eqb_spec (Z.of_nat p) t) as [E | _]; [lia | exact IH].
Qed.

Lemma filter_none {A : Type} (f : A -> bool) (l : list A) :
  (forall x, In x l -> f x = false) -> filter f l = [].
Proof.
  induction l as [| a l IH]; simpl; intros H; [reflexivity |].
  rewrite (H a (or_introl eq_refl)). apply IH. intros x Hx. apply H. now right.
Qed.

Lemma filter_length_perm {A : Type} (f : A -> bool) (l l' : list A) :
  Permutation l l' -> length (filter f l) = length (filter f l').
Proof.
  induction 1 as [| x l l' _ IH | x y l | l l' l'' _ IH1 _ IH2]; simpl.
  - reflexivity.
  - destruct (f x); simpl; now rewrite IH.
  - destruct (f x), (f y); reflexivity.
  - now rewrite IH1.
Qed.

(** In a duplicate-free listing sorted by [before], the label [x] occurs
    among the first [k] entries exactly when it is listed at all and fewer
    than [k] entries come ahead of it. *)
Lemma matches_firstn_sorted (row : list Q) (x : nat) (l : list nat) :
  StronglySorted (listed_before row) l -> NoDup l ->
  forall k,
    matches (Z.of_nat x) (firstn k l) =
    if (if in_dec Nat.eq_dec x l then true else false)
       && (length (filter (fun j => before row j x) l) <? k)%nat
    then 1%nat else 0%nat.
Proof.
  induction 1 as [| a l Hs IH Ha]; intros Hnd k.
  - rewrite firstn_nil. reflexivity.
  - inversion Hnd as [| a' l' Hni Hnd']; subst.
    destruct k as [| k].
    + simpl. now rewrite andb_false_r.
    + cbn [firstn]. unfold matches in *. cbn [filter].
      rewrite Forall_forall in Ha.
      destruct (Nat.eq_dec a x) as [-> | Hne].
      * rewrite Z.eqb_refl. cbn [length].
        fold (matches (Z.of_nat x) (firstn k l)).
        rewrite matches_not_In.
        2:{ rewrite Nat2Z.id. intros Hin. apply Hni.
            rewrite <- (firstn_skipn k l). apply in_or_app. now left. }
        destruct (in_dec Nat.eq_dec x (x :: l)) as [_ | Hout];
          [| exfalso; apply Hout; now left].
        rewrite before_irrefl.
        rewrite filter_none.
        2:{ intros y Hy. apply before_asym. now apply Ha. }
        reflexivity.
      * destruct (Z.eqb_spec (Z.of_nat a) (Z.of_nat x)) as [E | _]; [lia |].
        rewrite (IH Hnd' k).
        destruct (in_dec Nat.eq_dec x l) as [Hin | Hout].
        -- destruct (in_dec Nat.eq_dec x (a :: l)) as [_ | Hout'];
             [| exfalso; apply Hout'; now right].
           rewrite (Ha x Hin). cbn [length andb].
           reflexivity.
        -- destruct (in_dec Nat.eq_dec x (a :: l)) as [[E | Hin] | _];
             [contradiction | contradiction | reflexivity].
Qed.

(** The label [t] occurs among the first [k] indices listed by [topk] for
    [row] exactly when it is among the [k] highest-scored classes. *)
Lemma matches_topk (row : list Q) (t : Z) (k maxk : nat) :
  (k <= maxk)%nat ->
  matches t (firstn k (firstn maxk (argsort_desc row))) =
  if among_k_highest k row t then 1%nat else 0%nat.
Proof.
  intros Hk. rewrite firstn_firstn, Nat.min_l by exact Hk.
  unfold among_k_highest.
  destruct (Z.leb_spec 0 t) as [Hpos | Hneg]; cbn [andb].
  2:{ now apply matches_negative. }
  rewrite <- (Z2Nat.id t Hpos) at 1.
  rewrite (matches_firstn_sorted row (Z.to_nat t) _
             (argsort_desc_sorted row) (argsort_desc_NoDup row) k).
  rewrite (filter_length_perm _ _ _ (argsort_desc_perm row)).
  fold (rank row (Z.to_nat t)).
  destruct (in_dec Nat.eq_dec (Z.to_nat t) (argsort_desc row)) as [Hin | Hout].
  - apply argsort_desc_In in Hin.
    destruct (Z.ltb_spec t (Z.of_nat (length row))); [reflexivity | lia].
  - rewrite argsort_desc_In in Hout.
    destruct (Z.ltb_spec t (Z.of_nat (length row))); [lia | reflexivity].
Qed.

(** When no other class has the score of class [i], the classes ranked
    ahead of [i] are those with a strictly higher score. *)
Lemma rank_without_ties (row : list Q) (i : nat) :
  (forall j, (j < length row)%nat -> j <> i -> ~ score row j == score row i) ->
  rank row i = higher_count row i.
Proof.
  intros Hties. unfold rank, higher_count. f_equal.
  apply filter_ext_in. intros j Hj. apply in_seq in Hj. unfold before.
  destruct (Qcompare_spec (score row j) (score row i)) as [E | L | G];
    try reflexivity.
  destruct (Nat.eq_dec j i) as [-> | Hne]; [apply Nat.ltb_irrefl |].
  exfalso. apply (Hties j); [lia | exact Hne | exact E].
Qed.

(** *** Tensor bookkeeping *)

Lemma mapM_ok {A B : Type} (f : A -> result B) (g : A -> B) (l : list A) :
  (forall a, In a l -> f a = Ok (g a)) -> mapM f l = Ok (map g l).
Proof.
  induction l as [| a l IH]; intros H; simpl; [reflexivity |].
  rewrite (H a (or_introl eq_refl)). simpl.
  rewrite IH; [reflexivity |]. intros x Hx. apply H. now right.
Qed.

Lemma mapM_length {A B : Type} (f : A -> result B) (l : list A) (r : list B) :
  mapM f l = Ok r -> length r = length l.
Proof.
  revert r. induction l as [| a l IH]; simpl; intros r.
  - now intros [= <-].
  - destruct (f a) as [b | e]; simpl; [| discriminate].
    destruct (mapM f l) as [bs | e]; simpl; [| discriminate].
    intros [= <-]. simpl. f_equal. now apply IH.
Qed.

Lemma mapM_nth_error {A B : Type} (f : A -> result B) (l : list A) (r : list B)
    (i : nat) (a : A) :
  mapM f l = Ok r -> nth_error l i = Some a ->
  exists b, nth_error r i = Some b /\ f a = Ok b.
Proof.
  revert r i. induction l as [| x l IH]; simpl; intros r i.
  - intros _. destruct i; discriminate.
  - destruct (f x) as [b | e] eqn:Ef; simpl; [| discriminate].
    destruct (mapM f l) as [bs | e]; simpl; [| discriminate].
    intros [= <-]. destruct i as [| i]; simpl.
    + intros [= <-]. now exists b.
    + intros Hi. now apply IH.
Qed.

Lemma zip_with_repeat {A B C : Type} (f : A -> B -> C) (a : list A) (x : B) :
  zip_with f a (repeat x (length a)) = map (fun r => f r x) a.
Proof. induction a as [| r a IH]; simpl; [reflexivity | now rewrite IH]. Qed.

Lemma zip_with_length {A B C : Type} (f : A -> B -> C) (a : list A) (b : list B) :
  length (zip_with f a b) = Nat.min (length a) (length b).
Proof.
  revert b. induction a as [| x a IH]; intros [| y b]; simpl; try reflexivity.
  now rewrite IH.
Qed.

Lemma zip_with_firstn {A B C : Type} (f : A -> B -> C) (k : nat)
    (a : list A) (b : list B) :
  firstn k (zip_with f a b) = zip_with f (firstn k a) (firstn k b).
Proof.
  revert a b. induction k as [| k IH]; intros a b; [reflexivity |].
  destruct a as [| x a], b as [| y b]; simpl; try reflexivity.
  now rewrite IH.
Qed.

Lemma firstn_repeat {A : Type} (x : A) (k n : nat) :
  firstn k (repeat x n) = repeat x (Nat.min k n).
Proof.
  revert n. induction k as [| k IH]; intros [| n]; simpl; try reflexivity.
  now rewrite IH.
Qed.

Lemma transpose_length {A : Type} (n : nat) (m : tensor2 A) :
  Forall (fun row => length row = n) m -> length (transpose n m) = n.
Proof.
  unfold transpose. induction 1 as [| row m Hrow _ IH]; simpl.
  - apply repeat_length.
  - rewrite zip_with_length, IH, Hrow. apply Nat.min_id.
Qed.

Lemma firstn_transpose {A : Type} (k n : nat) (m : tensor2 A) :
  firstn k (transpose n m) = transpose (Nat.min k n) (map (firstn k) m).
Proof.
  unfold transpose. induction m as [| row m IH]; simpl.
  - apply firstn_repeat.
  - now rewrite zip_with_firstn, IH.
Qed.

Lemma count_true_app (a b : list bool) :
  count_true (a ++ b) = (count_true a + count_true b)%nat.
Proof. unfold count_true. now rewrite filter_app, length_app. Qed.

Lemma count_true_cons (b : bool) (l : list bool) :
  count_true (b :: l) = ((if b then 1 else 0) + count_true l)%nat.
Proof. unfold count_true. simpl. now destruct b. Qed.

Lemma matches_cons (t : Z) (p : nat) (l : list nat) :
  matches t (p :: l) = ((if (Z.of_nat p =? t)%Z then 1 else 0) + matches t l)%nat.
Proof. unfold matches. simpl. now destruct (Z.of_nat p =? t)%Z. Qed.

(** Comparing a transposed index tensor with the label row, column by
    column, counts for each sample the entries equal to its label. *)
Lemma count_true_columns (t : Z) (ts : list Z) (row : list nat) (T : tensor2 nat) :
  length row = length T ->
  count_true (concat (map (fun prow => zip_with (fun p t => (Z.of_nat p =? t)%Z) prow (t :: ts))
                          (zip_with cons row T)))
  = (matches t row
     + count_true (concat (map (fun prow => zip_with (fun p t => (Z.of_nat p =? t)%Z) prow ts)
                               T)))%nat.
Proof.
  revert T. induction row as [| x row IH]; intros [| c T]; simpl; try discriminate.
  - reflexivity.
  - intros [= Hlen].
    rewrite count_true_cons, !count_true_app, (IH T Hlen), matches_cons. lia.
Qed.

Lemma count_true_transpose (n : nat) (m : tensor2 nat) (target : list Z) :
  Forall (fun row => length row = n) m ->
  count_true (concat (map (fun prow => zip_with (fun p t => (Z.of_nat p =? t)%Z) prow target)
                          (transpose n m)))
  = list_sum (map (fun rt => matches (snd rt) (fst rt)) (combine m target)).
Proof.
  intros Hm. revert target. induction Hm as [| row m Hrow Hm IH]; intros target.
  - simpl. unfold transpose. simpl.
    induction n as [| n IHn]; simpl; [reflexivity | exact IHn].
  - destruct target as [| t ts].
    + cbn [combine map list_sum]. generalize (transpose n (row :: m)). intros l.
      induction l as [| prow l IHl]; simpl; [reflexivity |].
      rewrite count_true_app, IHl. now destruct prow.
    + change (transpose n (row :: m)) with (zip_with cons row (transpose n m)).
      rewrite count_true_columns by (now rewrite transpose_length).
      simpl. now rewrite IH.
Qed.

Lemma combine_map_l {A A' B : Type} (f : A -> A') (l : list A) (l' : list B) :
  combine (map f l) l' = map (fun p => (f (fst p), snd p)) (combine l l').
Proof.
  revert l'. induction l as [| a l IH]; intros [| b l']; simpl; try reflexivity.
  now rewrite IH.
Qed.

Lemma list_sum_indicator {A : Type} (f : A -> bool) (l : list A) :
  list_sum (map (fun a => if f a then 1%nat else 0%nat) l) = length (filter f l).
Proof.
  induction l as [| a l IH]; simpl; [reflexivity |].
  destruct (f a); simpl; now rewrite IH.
Qed.

(** *** What [accuracy] returns *)

Lemma fold_max_spec (l : list nat) (k : nat) :
  let m := fold_left Nat.max l k in
  (m = k \/ In m l) /\ (k <= m)%nat /\ Forall (fun x => (x <= m)%nat) l.
Proof.
  revert k. induction l as [| x l IH]; intros k; cbn [fold_left]; cbv zeta.
  - split; [now left | split; [lia | constructor]].
  - destruct (IH (Nat.max k x)) as ([E | Hin] & Hle & Hall).
    + split; [| split; [lia | constructor; [lia | exact Hall]]].
      destruct (Nat.max_spec k x) as [[_ Hm] | [_ Hm]]; rewrite Hm in *.
      * right. left. now symmetry.
      * now left.
    + split; [right; now right | split; [lia | constructor; [lia | exact Hall]]].
Qed.

Lemma py_max_spec (topk : list nat) (maxk : nat) :
  py_max topk = Ok maxk -> In maxk topk /\ Forall (fun k => (k <= maxk)%nat) topk.
Proof.
  destruct topk as [| k l]; simpl; [discriminate |].
  intros [= <-]. destruct (fold_max_spec l k) as ([E | Hin] & Hle & Hall).
  - split; [left; now symmetry | constructor; assumption].
  - split; [now right | constructor; assumption].
Qed.

Lemma py_max_ok (topk : list nat) : topk <> [] -> exists maxk, py_max topk = Ok maxk.
Proof. destruct topk as [| k l]; [congruence | intros _; now eexists]. Qed.

Lemma topk_indices_ok (maxk : nat) (output : tensor2 Q) :
  Forall (fun row => (maxk <= length row)%nat) output ->
  topk_indices maxk output = Ok (map (fun row => firstn maxk (argsort_desc row)) output).
Proof.
  intros H. apply mapM_ok. intros row Hrow.
  rewrite Forall_forall in H. unfold topk_row.
  now rewrite (proj2 (Nat.leb_le _ _) (H row Hrow)).
Qed.

(** The sum over the first [k] rows of [correct] is the number of samples
    whose label is among the first [k] classes listed, as a [float32]. *)
Lemma correct_k_hits (output : tensor2 Q) (target : list Z) (k maxk : nat) :
  (k <= maxk)%nat ->
  Forall (fun row => (maxk <= length row)%nat) output ->
  sum_flat (firstn k (tensor_eq
                        (transpose maxk (map (fun row => firstn maxk (argsort_desc row)) output))
                        (repeat target maxk)))
  = fl32 (inject_Z (Z.of_nat (topk_hits k output target))).
Proof.
  intros Hk Hrows.
  set (P := map (fun row => firstn maxk (argsort_desc row)) output).
  assert (HP : Forall (fun prow => length prow = maxk) P).
  { subst P. rewrite Forall_map. revert Hrows. apply Forall_impl. intros row Hrow.
    rewrite length_firstn, argsort_desc_length. lia. }
  unfold sum_flat, tensor_eq. do 3 f_equal.
  rewrite <- (transpose_length maxk P HP) at 2.
  rewrite zip_with_repeat, firstn_map, firstn_transpose, Nat.min_l by exact Hk.
  fold (count_true
          (concat (map (fun r => zip_with (fun p t => (Z.of_nat p =? t)%Z) r target)
                       (transpose k (map (firstn k) P))))).
  rewrite count_true_transpose.
  2:{ rewrite Forall_map. revert HP. apply Forall_impl. intros prow Hp.
      rewrite length_firstn. lia. }
  subst P. rewrite !combine_map_l, !map_map. cbn [fst snd].
  unfold topk_hits. rewrite <- list_sum_indicator. f_equal.
  apply map_ext. intros [row t]. cbn [fst snd]. now apply matches_topk.
Qed.

Lemma expand_as_same (target : list Z) (nrows : nat) :
  expand_as target nrows (length target) = Ok (repeat target nrows).
Proof. unfold expand_as. now rewrite Nat.eqb_refl. Qed.

Lemma py_truediv_ok (a b : Q) : ~ b == 0 -> py_truediv a b = Ok (fl64 (a / b)).
Proof.
  intros H. unfold py_truediv. now rewrite AverageMeterFacts.Qeq_bool_false_of_neq.
Qed.

Lemma inject_length_nonzero {A : Type} (l : list A) :
  l <> [] -> ~ inject_Z (Z.of_nat (length l)) == 0.
Proof.
  intros Hl. destruct l as [| a l]; [congruence |].
  change 0 with (inject_Z 0). rewrite inject_Z_injective. simpl. lia.
Qed.

Lemma batch_size_nonzero {A : Type} (l : list A) :
  l <> [] -> ~ fl64 (inject_Z (Z.of_nat (length l))) == 0.
Proof.
  intros Hl E. apply fl64_eq_0 in E. revert E. now apply inject_length_nonzero.
Qed.

(** With one label per sample, a non-empty batch, and every [k] at most the
    number of classes, [accuracy] returns, for each [k], the number of
    samples whose label is among the first [k] classes listed, as the
    percentage of the batch computed in [float32]. *)
Lemma accuracy_value (output : tensor2 Q) (target : list Z) (topk : list nat) :
  topk <> [] -> target <> [] -> length target = length output ->
  Forall (fun row => Forall (fun k => (k <= length row)%nat) topk) output ->
  accuracy output target topk =
  Ok (map (fun k => float32_percentage (topk_hits k output target) (length target))
          topk).
Proof.
  intros Htopk Htarget Hlen Hrows. unfold accuracy.
  destruct (py_max_ok topk Htopk) as [maxk Hmax]. rewrite Hmax. cbn [rbind].
  destruct (py_max_spec topk maxk Hmax) as [Hin Hle].
  assert (Hmaxk : Forall (fun row => (maxk <= length row)%nat) output).
  { revert Hrows. apply Forall_impl. intros row Hrow.
    rewrite Forall_forall in Hrow. now apply Hrow. }
  rewrite (topk_indices_ok maxk output Hmaxk). cbn [rbind].
  rewrite <- Hlen, expand_as_same. cbn [rbind].
  apply mapM_ok. intros k Hk.
  rewrite py_truediv_ok by (now apply batch_size_nonzero). cbn [rbind].
  rewrite correct_k_hits; [reflexivity | | exact Hmaxk].
  rewrite Forall_forall in Hle. now apply Hle.
Qed.

(** *** Labels whose score is not shared *)

Lemma untied_spec (row : list Q) (t : Z) :
  untied row t = true ->
  forall j, (j < length row)%nat -> j <> Z.to_nat t ->
            ~ score row j == score row (Z.to_nat t).
Proof.
  unfold untied. rewrite forallb_forall. intros H j Hj Hne E.
  specialize (H j ltac:(apply in_seq; lia)).
  apply orb_true_iff in H. destruct H as [H | H].
  - apply Nat.eqb_eq in H. contradiction.
  - apply negb_true_iff in H. apply Qeq_eq_bool in E. congruence.
Qed.

Lemma among_k_highest_untied (k : nat) (row : list Q) (t : Z) :
  untied row t = true -> among_k_highest k row t = in_top k row t.
Proof.
  intros H. unfold among_k_highest, in_top.
  now rewrite (rank_without_ties row (Z.to_nat t) (untied_spec row t H)).
Qed.

(** When no label shares its score with another class of its row, the
    labels among the first [k] classes listed are those among the [k]
    highest-scored classes, however equal scores are ordered. *)
Lemma topk_hits_untied (k : nat) (output : tensor2 Q) (target : list Z) :
  forallb (fun st => untied (fst st) (snd st)) (combine output target) = true ->
  topk_hits k output target = top_hits k output target.
Proof.
  unfold topk_hits, top_hits. rewrite forallb_forall. intros H. f_equal.
  apply filter_ext_in. intros [row t] Hin. cbn [fst snd].
  apply among_k_highest_untied. exact (H (row, t) Hin).
Qed.

(** *** The percentage in [float32] *)

Lemma within_compose (x y z a b c d : Q) :
  0 <= c -> 0 <= d ->
  x * a <= y <= x * b -> y * c <= z <= y * d ->
  x * (a * c) <= z <= x * (b * d).
Proof.
  intros Hc Hd [Hl Hu] [Hl' Hu']. split.
  - apply (Qle_trans _ (y * c)); [| exact Hl'].
    rewrite Qmult_assoc. now apply Qmult_le_compat_r.
  - apply (Qle_trans _ (y * d)); [exact Hu' |].
    rewrite Qmult_assoc. now apply Qmult_le_compat_r.
Qed.

Lemma within_product (x y a b x' y' a' b' : Q) :
  0 <= x -> 0 <= a -> 0 <= x' -> 0 <= a' ->
  x * a <= y <= x * b -> x' * a' <= y' <= x' * b' ->
  (x * x') * (a * a') <= y * y' <= (x * x') * (b * b').
Proof.
  intros Hx Ha Hx' Ha' [Hl Hu] [Hl' Hu'].
  assert (Hxa : 0 <= x * a) by now apply Qmult_le_0_compat.
  assert (Hxa' : 0 <= x' * a') by now apply Qmult_le_0_compat.
  assert (Hy : 0 <= y) by lra.
  assert (Hy' : 0 <= y') by lra.
  split.
  - apply (Qle_trans _ ((x * a) * (x' * a'))); [apply Qle_lteq; right; ring |].
    apply (Qle_trans _ (y * (x' * a'))).
    + now apply Qmult_le_compat_r.
    + rewrite !(Qmult_comm y). now apply Qmult_le_compat_r.
  - apply (Qle_trans _ ((x * b) * (x' * b'))); [| apply Qle_lteq; right; ring].
    apply (Qle_trans _ (y * (x' * b'))).
    + rewrite !(Qmult_comm y). now apply Qmult_le_compat_r.
    + apply Qmult_le_compat_r; [exact Hu | lra].
Qed.

Lemma fl32_within (x : Q) : 0 <= x -> x * (1 - eps32) <= fl32 x <= x * (1 + eps32).
Proof.
  intros Hx. unfold eps32, fl32. split.
  - exact (Rounding.round_to_lower 24 x Hx).
  - exact (Rounding.round_to_upper 24 x Hx).
Qed.

Lemma fl64_within (x : Q) : 0 <= x -> x * (1 - eps64) <= fl64 x <= x * (1 + eps64).
Proof.
  intros Hx. unfold eps64, fl64. split.
  - exact (Rounding.round_to_lower 53 x Hx).
  - exact (Rounding.round_to_upper 53 x Hx).
Qed.

Lemma inv_within (x y a b : Q) :
  0 < x -> 0 < a -> x * a <= y <= x * b ->
  / x * / b <= / y <= / x * / a.
Proof.
  intros Hx Ha [Hl Hu].
  assert (Hy : 0 < y) by nra.
  assert (Hb : 0 < b) by nra.
  assert (Hxa : 0 < x * a) by nra.
  assert (Hxb : 0 < x * b) by nra.
  rewrite <- !Qinv_mult_distr. split.
  - apply Qle_shift_inv_l; [exact Hy |]. 
    assert (E : / (x * b) * y == y / (x * b)) by (field; lra).
    rewrite E. apply Qle_shift_div_r; [exact Hxb | lra].
  - apply Qle_shift_inv_r; [exact Hy |].
    assert (E : / (x * a) * y == y / (x * a)) by (field; lra).
    rewrite E. apply Qle_shift_div_l; [exact Hxa | lra].
Qed.

(** The percentage [accuracy] computes is within a relative [2 ^ (-22)] of
    the exact one. *)
Lemma float32_percentage_within (hits batch : nat) :
  (0 < batch)%nat ->
  let x := 100 * (inject_Z (Z.of_nat hits) / inject_Z (Z.of_nat batch)) in
  x * (1 - 2 ^ (-22)) <= float32_percentage hits batch <= x * (1 + 2 ^ (-22)).
Proof.
  intros Hb x. subst x. unfold float32_percentage.
  set (H := inject_Z (Z.of_nat hits)). set (B := inject_Z (Z.of_nat batch)).
  assert (HH : 0 <= H).
  { subst H. change 0 with (inject_Z 0). rewrite <- Zle_Qle. lia. }
  assert (HB : 0 < B).
  { subst B. change 0 with (inject_Z 0). rewrite <- Zlt_Qlt. lia. }
  pose proof (fl64_within B (Qlt_le_weak _ _ HB)) as WB.
  assert (HB' : 0 < fl64 B) by (apply Rounding.round_to_positive; [lia | exact HB]).
  assert (Wq : / B * / (1 + eps64) <= / fl64 B <= / B * / (1 - eps64)).
  { apply inv_within; [exact HB | reflexivity | exact WB]. }
  assert (Wq' : (100 * / B) * / (1 + eps64) <= 100 / fl64 B <= (100 * / B) * / (1 - eps64)).
  { unfold Qdiv. destruct Wq as [L U]. split.
    - rewrite <- Qmult_assoc. rewrite !(Qmult_comm 100).
      apply Qmult_le_compat_r; [exact L | discriminate].
    - rewrite <- Qmult_assoc. rewrite !(Qmult_comm 100).
      apply Qmult_le_compat_r; [exact U | discriminate]. }
  assert (Hq : 0 <= 100 / fl64 B).
  { apply Qlt_le_weak, Qlt_shift_div_l; [exact HB' | lra]. }
  pose proof (fl64_within _ Hq) as W1.
  assert (Hq1 : 0 <= fl64 (100 / fl64 B)) by (apply Rounding.round_to_nonneg; [lia | exact Hq]).
  pose proof (fl32_within _ Hq1) as W2.
  assert (Hq2 : 0 <= fl32 (fl64 (100 / fl64 B))) by (apply Rounding.round_to_nonneg; [lia | exact Hq1]).
  pose proof (fl32_within H HH) as WH.
  assert (HH' : 0 <= fl32 H) by (apply Rounding.round_to_nonneg; [lia | exact HH]).
  assert (Hp : 0 <= fl32 H * fl32 (fl64 (100 / fl64 B))) by now apply Qmult_le_0_compat.
  pose proof (fl32_within _ Hp) as W3.
  pose proof (fun Hc Hd => within_compose _ _ _ _ _ _ _ Hc Hd Wq' W1) as W4.
  specialize (W4 ltac:(vm_compute; discriminate) ltac:(vm_compute; discriminate)).
  pose proof (fun Hc Hd => within_compose _ _ _ _ _ _ _ Hc Hd W4 W2) as W5.
  specialize (W5 ltac:(vm_compute; discriminate) ltac:(vm_compute; discriminate)).
  assert (HiB : 0 <= 100 * / B).
  { apply Qmult_le_0_compat; [discriminate |]. apply Qinv_le_0_compat. lra. }
  pose proof (fun Ha Ha' => within_product _ _ _ _ _ _ _ _ HH Ha HiB Ha' WH W5) as W6.
  specialize (W6 ltac:(vm_compute; discriminate) ltac:(vm_compute; discriminate)).
  pose proof (fun Hc Hd => within_compose _ _ _ _ _ _ _ Hc Hd W6 W3) as W7.
  specialize (W7 ltac:(vm_compute; discriminate) ltac:(vm_compute; discriminate)).
  clear - W7 HH HB.
  assert (Hx : 0 <= H * (100 * / B)).
  { apply Qmult_le_0_compat; [exact HH |].
    apply Qmult_le_0_compat; [discriminate |]. apply Qinv_le_0_compat. lra. }
  assert (E : 100 * (H / B) == H * (100 * / B)) by (field; lra).
  rewrite !E. destruct W7 as [L U]. split.
  - eapply Qle_trans; [| exact L].
    rewrite !(Qmult_comm (H * (100 * / B))). apply Qmult_le_compat_r; [| exact Hx].
    vm_compute. discriminate.
  - eapply Qle_trans; [exact U |].
    rewrite !(Qmult_comm (H * (100 * / B))). apply Qmult_le_compat_r; [| exact Hx].
    vm_compute. discriminate.
Qed.

Lemma float32_percentage_error (hits batch : nat) :
  (0 < batch)%nat ->
  let x := 100 * (inject_Z (Z.of_nat hits) / inject_Z (Z.of_nat batch)) in
  Qabs (float32_percentage hits batch - x) <= x * 2 ^ (-22).
Proof.
  intros Hb x. destruct (float32_percentage_within hits batch Hb) as [L U].
  fold x in L, U. apply Qabs_Qle_condition. split; lra.
Qed.

Lemma float32_percentage_nonneg (hits batch : nat) : 0 <= float32_percentage hits batch.
Proof.
  unfold float32_percentage. apply (fl_nonneg Tensor32).
  apply Qmult_le_0_compat; apply (fl_nonneg Tensor32).
  - change 0 with (inject_Z 0). rewrite <- Zle_Qle. lia.
  - apply (fl_nonneg PyFloat).
    apply Qmult_le_0_compat; [discriminate |]. apply Qinv_le_0_compat.
    apply (fl_nonneg PyFloat). change 0 with (inject_Z 0). rewrite <- Zle_Qle. lia.
Qed.

Lemma float32_percentage_mono (hits hits' batch : nat) :
  (hits <= hits')%nat ->
  float32_percentage hits batch <= float32_percentage hits' batch.
Proof.
  intros H. unfold float32_percentage. apply fl32_mono.
  apply Qmult_le_compat_r.
  - apply fl32_mono. rewrite <- Zle_Qle. lia.
  - apply (fl_nonneg Tensor32), (fl_nonneg PyFloat).
    apply Qmult_le_0_compat; [discriminate |]. apply Qinv_le_0_compat.
    apply (fl_nonneg PyFloat). change 0 with (inject_Z 0). rewrite <- Zle_Qle. lia.
Qed.

(** C1 (as the code has it). For an output with one row of scores per
    sample, a non-empty target with one label per sample, at most [2^24]
    samples, a non-empty [topk] whose entries are at most the number of
    classes, and no label sharing its score with another class of its row,
    [accuracy] returns one value per entry of [topk].  The value at the position of [k] is the
    number of samples whose true label is among the [k] highest-scored
    predictions for that sample, as a percentage of the batch computed in
    [float32]; it is within a relative [2^-22] of 100 times the fraction of
    such samples: a percentage, not a fraction. *)
Theorem accuracy_is_topk_percentage
    (output : tensor2 Q) (target : list Z) (topk : list nat) :
  topk <> [] -> target <> [] -> length target = length output ->
  (Z.of_nat (length target) <= 2 ^ 24)%Z ->
  Forall (fun row => Forall (fun k => (k <= length row)%nat) topk) output ->
  forallb (fun st => untied (fst st) (snd st)) (combine output target) = true ->
  exists res,
    accuracy output target topk = Ok res /\
    Forall2 (fun k v =>
               v = float32_percentage (top_hits k output target) (length target) /\
               Qabs (v - 100 * topk_fraction k output target)
               <= 100 * topk_fraction k output target * 2 ^ (-22))
            topk res.
Proof.
  intros Htopk Htarget Hlen _ Hrows Hties.
  eexists. split; [now apply accuracy_value |].
  assert (Hb : (0 < length target)%nat).
  { destruct target; [congruence | simpl; lia]. }
  clear - Hb Hties. induction topk as [| k topk IH]; simpl; constructor; [| exact IH].
  rewrite (topk_hits_untied k output target Hties).
  split; [reflexivity |]. unfold topk_fraction.
  exact (float32_percentage_error (top_hits k output target) (length target) Hb).
Qed.

Lemma accuracy_is_topk_percentage_witness :
  exists res,
    accuracy [[1 # 10; 7 # 10; 2 # 10]; [5 # 10; 3 # 10; 2 # 10]] [2%Z; 0%Z] [1; 2]%nat
    = Ok res /\
    Forall2 (fun k v =>
               v = float32_percentage
                     (top_hits k [[1 # 10; 7 # 10; 2 # 10]; [5 # 10; 3 # 10; 2 # 10]]
                               [2%Z; 0%Z])
                     (length [2%Z; 0%Z]) /\
               Qabs (v - 100 * topk_fraction k
                                 [[1 # 10; 7 # 10; 2 # 10]; [5 # 10; 3 # 10; 2 # 10]]
                                 [2%Z; 0%Z])
               <= 100 * topk_fraction k
                          [[1 # 10; 7 # 10; 2 # 10]; [5 # 10; 3 # 10; 2 # 10]]
                          [2%Z; 0%Z] * 2 ^ (-22))
            [1; 2]%nat res.
Proof.
  apply (accuracy_is_topk_percentage
           [[1 # 10; 7 # 10; 2 # 10]; [5 # 10; 3 # 10; 2 # 10]] [2%Z; 0%Z] [1; 2]%nat).
  - discriminate.
  - discriminate.
  - reflexivity.
  - vm_compute. discriminate.
  - repeat constructor.
  - reflexivity.
Defined.

(** C1, as stated, fails: with one sample whose label is the top-scored
    class, the fraction is 1 but [accuracy] returns 100.  Nor is the value
    100 times the fraction in general: with one sample out of three
    classified correctly it is the [float32] number [33.33333206...], not
    [100 / 3]. *)
Lemma accuracy_returns_percent_not_fraction :
  (exists v,
      accuracy [[1 # 10; 9 # 10]] [1%Z] [1%nat] = Ok [v] /\
      v == 100 /\
      topk_fraction 1 [[1 # 10; 9 # 10]] [1%Z] == 1 /\
      ~ v == topk_fraction 1 [[1 # 10; 9 # 10]] [1%Z]) /\
  (exists v,
      accuracy [[2; 1]; [2; 1]; [2; 1]] [0%Z; 1%Z; 1%Z] [1%nat] = Ok [v] /\
      topk_fraction 1 [[2; 1]; [2; 1]; [2; 1]] [0%Z; 1%Z; 1%Z] == 1 # 3 /\
      ~ v == 100 * topk_fraction 1 [[2; 1]; [2; 1]; [2; 1]] [0%Z; 1%Z; 1%Z]).
Proof.
  split.
  - eexists. split; [vm_compute; reflexivity |].
    split; [reflexivity |]. split; [reflexivity |].
    vm_compute. discriminate.
  - eexists. split; [vm_compute; reflexivity |].
    split; [reflexivity |]. apply Qeq_bool_neq. vm_compute. reflexivity.
Qed.

(** *** Monotonicity in [k] *)

Lemma among_k_highest_mono (k k' : nat) (row : list Q) (t : Z) :
  (k <= k')%nat -> among_k_highest k row t = true -> among_k_highest k' row t = true.
Proof.
  unfold among_k_highest. intros Hk.
  rewrite !andb_true_iff, !Nat.ltb_lt. intros [H1 H2]. split; [exact H1 | lia].
Qed.

Lemma sum_flat_firstn_mono (c : tensor2 bool) (k k' : nat) :
  (k <= k')%nat -> sum_flat (firstn k c) <= sum_flat (firstn k' c).
Proof.
  intros Hk. unfold sum_flat. apply fl32_mono. rewrite <- Zle_Qle. apply Nat2Z.inj_le.
  rewrite <- (firstn_skipn k (firstn k' c)).
  rewrite firstn_firstn, Nat.min_l by exact Hk.
  rewrite concat_app, filter_app, length_app. lia.
Qed.

Lemma scale_nonneg (n : nat) : 0 <= fl32 (fl64 (100 / fl64 (inject_Z (Z.of_nat n)))).
Proof.
  apply (fl_nonneg Tensor32), (fl_nonneg PyFloat).
  apply Qmult_le_0_compat; [discriminate |].
  apply Qinv_le_0_compat, (fl_nonneg PyFloat).
  change 0 with (inject_Z 0). rewrite <- Zle_Qle. lia.
Qed.

(** Whenever [accuracy] returns, its values are ordered as the entries of
    [topk] are. *)
Lemma accuracy_result_monotone (output : tensor2 Q) (target : list Z) (topk : list nat)
    (res : list Q) :
  accuracy output target topk = Ok res ->
  forall i j k k' v v',
    nth_error topk i = Some k -> nth_error topk j = Some k' ->
    nth_error res i = Some v -> nth_error res j = Some v' ->
    (k <= k')%nat -> v <= v'.
Proof.
  unfold accuracy. destruct (py_max topk) as [maxk | e]; cbn [rbind]; [| discriminate].
  destruct (topk_indices maxk output) as [pred | e]; cbn [rbind]; [| discriminate].
  destruct (expand_as target maxk (length output)) as [expanded | e];
    cbn [rbind]; [| discriminate].
  intros Hres i j k k' v v' Hi Hj Hv Hv' Hk.
  destruct (mapM_nth_error _ _ _ _ _ Hres Hi) as (b & Hb & Hfk).
  destruct (mapM_nth_error _ _ _ _ _ Hres Hj) as (b' & Hb' & Hfk').
  rewrite Hv in Hb. rewrite Hv' in Hb'. injection Hb as <-. injection Hb' as <-.
  unfold py_truediv in Hfk, Hfk'.
  destruct (Qeq_bool (fl64 (inject_Z (Z.of_nat (length target)))) 0); [discriminate |].
  cbn [rbind] in Hfk, Hfk'. injection Hfk as <-. injection Hfk' as <-.
  apply fl32_mono.
  apply Qmult_le_compat_r; [now apply sum_flat_firstn_mono | apply scale_nonneg].
Qed.

(** C8. Top-k accuracy as computed by [accuracy] is monotone in [k].  For an
    output with one row per sample, a non-empty target with one label per
    sample and a non-empty [topk] whose entries are at most the number of
    classes, [accuracy] returns; and whenever it returns, the value at the
    position of [k] is at most the value at the position of [k'] for every
    [k <= k'] in [topk]. *)
Theorem accuracy_monotone_in_k
    (output : tensor2 Q) (target : list Z) (topk : list nat) :
  topk <> [] -> target <> [] -> length target = length output ->
  Forall (fun row => Forall (fun k => (k <= length row)%nat) topk) output ->
  exists res,
    accuracy output target topk = Ok res /\
    forall i j k k' v v',
      nth_error topk i = Some k -> nth_error topk j = Some k' ->
      nth_error res i = Some v -> nth_error res j = Some v' ->
      (k <= k')%nat -> v <= v'.
Proof.
  intros Htopk Htarget Hlen Hrows.
  eexists. split; [now apply accuracy_value |].
  apply (accuracy_result_monotone output target topk).
  now apply accuracy_value.
Qed.

Lemma accuracy_monotone_in_k_witness :
  exists acc1 acc5,
    accuracy [[1; 5; 3; 2; 4; 0]; [6; 5; 4; 3; 2; 1]] [2%Z; 0%Z] [1; 5]%nat
    = Ok [acc1; acc5] /\ acc1 <= acc5.
Proof.
  destruct (accuracy_monotone_in_k
              [[1; 5; 3; 2; 4; 0]; [6; 5; 4; 3; 2; 1]] [2%Z; 0%Z] [1; 5]%nat)
    as (res & Hres & Hmono).
  - discriminate.
  - discriminate.
  - reflexivity.
  - repeat constructor.
  - vm_compute in Hres. injection Hres as <-.
    do 2 eexists. split; [reflexivity |].
    apply (Hmono 0%nat 1%nat 1%nat 5%nat); try reflexivity. lia.
Defined.

(** ** The benchmarking loops *)

(** [updates] on a run that is split in two. *)
Lemma updates_app (k : kind) (calls calls' : list (Q * Z)) :
  forall m,
    fst (AverageMeter.updates k calls m) = Ok tt ->
    AverageMeter.updates k (calls ++ calls') m
    = AverageMeter.updates k calls' (snd (AverageMeter.updates k calls m)).
Proof.
  induction calls as [| [v n] rest IH]; intros m Hok; [reflexivity |].
  cbn [app AverageMeter.updates] in *. unfold bind in *.
  destruct (AverageMeter.update k v n m) as [[[] | e] m1]; [| discriminate].
  now apply IH.
Qed.

Lemma durations_weight_1 (l : list Q) :
  Forall (fun c : Q * Z => (1 <= snd c)%Z) (map (fun d => (d, 1%Z)) l).
Proof. rewrite Forall_map. apply Forall_forall. intros d _. simpl. lia. Qed.

Lemma total_count_durations (l : list Q) :
  total_count (map (fun d => (d, 1%Z)) l) = Z.of_nat (length l).
Proof.
  induction l as [| d l IH]; [reflexivity |].
  cbn [map total_count fold_right snd length] in *. unfold total_count in IH.
  rewrite IH. lia.
Qed.

(** Feeding durations to a freshly built meter does not raise. *)
Lemma meter_after_durations (name fmt : string) (st : Summary) (l : list Q) :
  fst (AverageMeter.updates PyFloat (map (fun d => (d, 1%Z)) l)
                            (AverageMeter.init name fmt st)) = Ok tt /\
  AverageMeter.count (meter_after name fmt st PyFloat (map (fun d => (d, 1%Z)) l))
  == inject_Z (Z.of_nat (length l)).
Proof.
  destruct (AverageMeterFacts.updates_from PyFloat _ (durations_weight_1 l)
              (AverageMeter.init name fmt st))
    as (Hok & _ & Hc & _); [cbn; lra |].
  split; [exact Hok |]. unfold meter_after. cbv zeta in Hc. rewrite Hc.
  rewrite total_count_durations. cbn. lra.
Qed.

Lemma tracks_init (name fmt : string) (st : Summary) :
  tracks (AverageMeter.init name fmt st) [].
Proof. reflexivity. Qed.

Lemma tracks_count (m : AverageMeter.t) (l : list Q) :
  tracks m l -> AverageMeter.count m == inject_Z (Z.of_nat (length l)).
Proof. intros Ht. rewrite Ht at 1. apply meter_after_durations. Qed.

(** Feeding a duration to a meter that tracks [l] succeeds and makes it
    track [l ++ [d]]. *)
Lemma tracks_update (m : AverageMeter.t) (l : list Q) (d : Q) :
  tracks m l ->
  fst (AverageMeter.update PyFloat d 1 m) = Ok tt /\
  tracks (snd (AverageMeter.update PyFloat d 1 m)) (l ++ [d]).
Proof.
  intros Ht. pose proof (tracks_count m l Ht) as Hc.
  assert (Hn : 0 <= inject_Z (Z.of_nat (length l))).
  { change 0 with (inject_Z 0). rewrite <- Zle_Qle. lia. }
  assert (Hnz : ~ AverageMeter.count m + inject_Z 1 == 0).
  { rewrite Hc. change (inject_Z 1) with 1. lra. }
  pose proof (AverageMeterFacts.update_ok PyFloat d 1 m Hnz) as Hu.
  split; [now rewrite Hu |].
  destruct (AverageMeterFacts.update_state PyFloat d 1 m) as (En & Ef & Es & _).
  cbv zeta in En, Ef, Es.
  unfold tracks. rewrite En, Ef, Es. unfold meter_after.
  rewrite map_app, updates_app by apply meter_after_durations.
  fold (meter_after (AverageMeter.name m) (AverageMeter.fmt m)
                    (AverageMeter.summary_type m) PyFloat (map (fun d => (d, 1%Z)) l)).
  rewrite <- Ht. cbn [map AverageMeter.updates]. unfold bind.
  rewrite Hu. reflexivity.
Qed.

Section LoopFacts.

Variable Model : Type.
Variable jit_trace : Model -> observation -> result Model.
Variable fold_convbn : Model -> result Model.

(** *** One iteration *)

Lemma zoom_update_run {S : Type} (proj : S -> AverageMeter.t)
    (upd : AverageMeter.t -> S -> S) (k : kind) (v : Q) (n : Z) (s : S) :
  zoom proj upd (AverageMeter.update k v n) s =
  (fst (AverageMeter.update k v n (proj s)),
   upd (snd (AverageMeter.update k v n (proj s))) s).
Proof. unfold zoom. now destruct (AverageMeter.update k v n (proj s)). Qed.

(** The progress line at the end of an iteration of [train]. *)
Lemma progress_effect (args : Args) (i : Z) (s : train_state Model) :
  let r := (r <- py_mod i (print_freq args) ;;
            when (r =? 0)%Z (tr_emit (Printed (Progress (i + 1)%Z))))%py s in
  exists tail,
    tr_out (snd r) = tr_out s ++ tail /\
    (tail = [] \/ tail = [Printed (Progress (i + 1)%Z)]) /\
    tr_batch_time (snd r) = tr_batch_time s.
Proof.
  cbv zeta. unfold bind, py_mod, when, tr_emit, modify, ret, raise.
  destruct (print_freq args =? 0)%Z.
  - exists []. cbn. rewrite app_nil_r. repeat split. now left.
  - destruct (i mod print_freq args =? 0)%Z; cbn.
    + eexists. repeat split. now right.
    + exists []. rewrite app_nil_r. repeat split. now left.
Qed.

Lemma train_step_effect (args : Args) (model : Model) (i : Z) (b : observation)
    (s : train_state Model) :
  let r := train_step args model i b s in
  iteration_effect (num_warmup args) model i (duration b)
                   (tr_out s) (tr_out (snd r))
                   (tr_batch_time s) (tr_batch_time (snd r)).
Proof.
  cbv zeta. unfold iteration_effect. destruct s as [bt dt lo t1 t5 out].
  unfold train_step.
  set (progress := (r <- py_mod i (print_freq args) ;;
                    when (r =? 0)%Z (tr_emit (Printed (Progress (i + 1)%Z))))%py).
  cbv [bind tr_emit modify lift_result when py_mod ret raise get zoom
       tr_losses tr_top1 tr_top5 tr_batch_time tr_out tr_data_time
       tr_set_losses tr_set_top1 tr_set_top5 tr_set_batch_time].
  destruct (accuracy (output b) (target b) [1%nat; 5%nat]) as [acc | e];
    [| left; split; reflexivity].
  destruct (AverageMeter.update PyFloat (loss_item b) (n_images b) lo) as [[[] | e1] lo'];
    [| left; split; reflexivity].
  destruct (AverageMeter.update Tensor32 (nth 0 acc 0) (n_images b) t1) as [[[] | e1] t1'];
    [| left; split; reflexivity].
  destruct (AverageMeter.update Tensor32 (nth 1 acc 0) (n_images b) t5) as [[[] | e1] t5'];
    [| left; split; reflexivity].
  right.
  assert (Htail : forall bt' : AverageMeter.t,
             exists tail,
               tr_out (snd (progress (mk_train bt' dt lo' t1' t5'
                              ((out ++ [Forward model i])
                                 ++ [Printed (IterationTime i (duration b))]))))
               = out ++ [Forward model i; Printed (IterationTime i (duration b))] ++ tail /\
               (tail = [] \/ tail = [Printed (Progress (i + 1)%Z)]) /\
               tr_batch_time
                 (snd (progress (mk_train bt' dt lo' t1' t5'
                                   ((out ++ [Forward model i])
                                      ++ [Printed (IterationTime i (duration b))]))))
               = bt').
  { intros bt'.
    destruct (progress_effect args i
                (mk_train bt' dt lo' t1' t5'
                   ((out ++ [Forward model i]) ++ [Printed (IterationTime i (duration b))])))
      as (tail & Ho & Ht & Hb).
    exists tail. fold progress in Ho, Hb. rewrite Ho, Hb. cbn [tr_out tr_batch_time].
    rewrite <- !app_assoc. repeat split. exact Ht. }
  destruct (num_warmup args <=? i)%Z.
  - destruct (AverageMeter.update PyFloat (duration b) 1 bt) as [[[] | e1] bt'].
    + apply Htail.
    + exists []. cbn. rewrite <- app_assoc. repeat split. now left.
  - apply Htail.
Qed.

(** *** Consequences of [iteration_effect] *)

Lemma forward_count_app (out out' : list (event Model)) :
  forward_count (out ++ out') = (forward_count out + forward_count out')%nat.
Proof. unfold forward_count. now rewrite filter_app, length_app. Qed.

Lemma measured_app (w : Z) (out out' : list (event Model)) :
  measured w (out ++ out') = measured w out ++ measured w out'.
Proof. apply flat_map_app. Qed.

Lemma timed_indices_app (out out' : list (event Model)) :
  timed_indices (out ++ out') = timed_indices out ++ timed_indices out'.
Proof. apply flat_map_app. Qed.

Lemma forward_models_app (out out' : list (event Model)) :
  forward_models (out ++ out') = forward_models out ++ forward_models out'.
Proof. apply flat_map_app. Qed.

Section IterationEffect.

Variables (w : Z) (m : Model) (i : Z) (d : Q).
Variables (out out' : list (event Model)) (bt bt' : AverageMeter.t).
Hypothesis Heffect : iteration_effect w m i d out out' bt bt'.

Lemma effect_forward_count : forward_count out' = S (forward_count out).
Proof.
  destruct Heffect as [[-> _] | (tail & -> & [-> | ->] & _)];
    rewrite forward_count_app; cbn; lia.
Qed.

Lemma effect_forward_models : forward_models out' = forward_models out ++ [m].
Proof.
  destruct Heffect as [[-> _] | (tail & -> & [-> | ->] & _)];
    now rewrite forward_models_app.
Qed.

Lemma effect_timed_indices :
  timed_indices out' = timed_indices out \/ timed_indices out' = timed_indices out ++ [i].
Proof.
  destruct Heffect as [[-> _] | (tail & -> & [-> | ->] & _)];
    rewrite timed_indices_app; cbn; [left; apply app_nil_r | now right | now right].
Qed.

Lemma effect_tracks : tracks bt (measured w out) -> tracks bt' (measured w out').
Proof.
  intros Ht.
  destruct Heffect as [[-> ->] | (tail & -> & Htail & ->)].
  - rewrite measured_app. cbn. now rewrite app_nil_r.
  - assert (E : measured w (out ++ [Forward m i; Printed (IterationTime i d)] ++ tail)
                = measured w out ++ (if (w <=? i)%Z then [d] else [])).
    { rewrite measured_app. f_equal.
      destruct Htail as [-> | ->]; cbn; now rewrite ?app_nil_r. }
    rewrite E. destruct (w <=? i)%Z.
    + now apply tracks_update.
    + now rewrite app_nil_r.
Qed.

End IterationEffect.

(** *** The loop header *)

Lemma measured_nil_iff (w : Z) (out : list (event Model)) :
  measured w out = [] <-> forall j, In j (timed_indices out) -> (j < w)%Z.
Proof.
  induction out as [| e out IH]; cbn.
  - split; [intros _ j [] | reflexivity].
  - destruct e as [m i | [i d | | | | | | | |]]; cbn; try exact IH.
    destruct (Z.leb_spec w i) as [Hle | Hlt]; cbn.
    + split; [discriminate |]. intros H. specialize (H i (or_introl eq_refl)). lia.
    + rewrite IH. split.
      * intros H j [<- | Hj]; [exact Hlt | now apply H].
      * intros H j Hj. apply H. now right.
Qed.

Section ForEnumerate.

Variables (S : Type) (n w : Z) (body : Z -> observation -> M S unit).
Variables (out : S -> list (event Model)) (bt : S -> AverageMeter.t).

Hypothesis Hbody : forall i b s, exists m,
  iteration_effect w m i (duration b)
                   (out s) (out (snd (body i b s)))
                   (bt s) (bt (snd (body i b s))).

Lemma for_enumerate_cons (i : Z) (b : observation) (rest : list observation) (s : S) :
  for_enumerate n body i (b :: rest) s =
  if (i =? n)%Z then (Ok tt, s)
  else match body i b s with
       | (Ok _, s1) => for_enumerate n body (i + 1)%Z rest s1
       | (Raise e, s1) => (Raise e, s1)
       end.
Proof. cbn [for_enumerate]. unfold bind, ret. now destruct (i =? n)%Z. Qed.

(** Each pass through the loop runs the model once, and the loop is left at
    index [n]. *)
Lemma for_enumerate_forward_count (loader : list observation) :
  forall i s, (i <= n)%Z ->
    (Z.of_nat (forward_count (out (snd (for_enumerate n body i loader s))))
     <= Z.of_nat (forward_count (out s)) + Z.min (n - i) (Z.of_nat (length loader)))%Z.
Proof.
  induction loader as [| b rest IH]; intros i s Hi.
  - cbn. lia.
  - rewrite for_enumerate_cons. destruct (Z.eqb_spec i n) as [-> | Hne].
    + cbn [snd length]. lia.
    + destruct (Hbody i b s) as [m Hm]. apply effect_forward_count in Hm.
      destruct (body i b s) as [[[] | e] s1]; cbn [snd] in *.
      * specialize (IH (i + 1)%Z s1 ltac:(lia)). rewrite Hm in IH.
        cbn [length]. lia.
      * rewrite Hm. cbn [length]. lia.
Qed.

(** Without a bound on the index the model still runs at most once per
    batch. *)
Lemma for_enumerate_forward_count_loader (loader : list observation) :
  forall i s,
    (forward_count (out (snd (for_enumerate n body i loader s)))
     <= forward_count (out s) + length loader)%nat.
Proof.
  induction loader as [| b rest IH]; intros i s.
  - cbn. lia.
  - rewrite for_enumerate_cons. destruct (i =? n)%Z.
    + cbn [snd length]. lia.
    + destruct (Hbody i b s) as [m Hm]. apply effect_forward_count in Hm.
      destruct (body i b s) as [[[] | e] s1]; cbn [snd] in *.
      * specialize (IH (i + 1)%Z s1). rewrite Hm in IH. cbn [length]. lia.
      * rewrite Hm. cbn [length]. lia.
Qed.

Lemma for_enumerate_tracks (loader : list observation) :
  forall i s,
    tracks (bt s) (measured w (out s)) ->
    tracks (bt (snd (for_enumerate n body i loader s)))
           (measured w (out (snd (for_enumerate n body i loader s)))).
Proof.
  induction loader as [| b rest IH]; intros i s Ht.
  - exact Ht.
  - rewrite for_enumerate_cons. destruct (i =? n)%Z; [exact Ht |].
    destruct (Hbody i b s) as [m Hm]. apply effect_tracks in Hm; [| exact Ht].
    destruct (body i b s) as [[[] | e] s1]; cbn [snd] in *.
    + now apply IH.
    + exact Hm.
Qed.

(** The iterations timed by the loop started at index [i] have indices from
    [i] on, below [i] plus the number of batches, and below [n] when the
    loop started at or below [n]. *)
Lemma for_enumerate_timed_indices (loader : list observation) :
  forall i s j,
    In j (timed_indices (out (snd (for_enumerate n body i loader s)))) ->
    In j (timed_indices (out s)) \/
    ((i <= j < i + Z.of_nat (length loader))%Z /\ ((i <= n)%Z -> (j < n)%Z)).
Proof.
  induction loader as [| b rest IH]; intros i s j Hj.
  - now left.
  - rewrite for_enumerate_cons in Hj. destruct (Z.eqb_spec i n) as [-> | Hne].
    + now left.
    + destruct (Hbody i b s) as [m Hm]. apply effect_timed_indices in Hm.
      assert (Hstep : forall k, In k (timed_indices (out (snd (body i b s)))) ->
                                In k (timed_indices (out s)) \/ k = i).
      { intros k Hk. destruct Hm as [E | E]; rewrite E in Hk; [now left |].
        apply in_app_or in Hk. destruct Hk as [Hk | [<- | []]]; [now left | now right]. }
      cbn [length]. rewrite Nat2Z.inj_succ.
      destruct (body i b s) as [[[] | e] s1]; cbn [snd] in *.
      * destruct (IH (i + 1)%Z s1 j Hj) as [Hin | [Hr Hn]].
        -- destruct (Hstep j Hin) as [Hs | ->]; [now left | right; lia].
        -- right. lia.
      * destruct (Hstep j Hj) as [Hs | ->]; [now left | right; lia].
Qed.

(** No iteration is measured when the loop cannot reach the warmup index. *)
Lemma for_enumerate_nothing_measured (loader : list observation) (s : S) :
  measured w (out s) = [] ->
  (0 <= n <= w)%Z \/ (Z.of_nat (length loader) <= w)%Z ->
  measured w (out (snd (for_enumerate n body 0%Z loader s))) = [].
Proof.
  intros Hs Hcase. apply measured_nil_iff. intros j Hj.
  apply for_enumerate_timed_indices in Hj.
  destruct Hj as [Hj | [Hr Hn]].
  - now apply (proj1 (measured_nil_iff w (out s)) Hs).
  - destruct Hcase as [Hc | Hc]; lia.
Qed.

End ForEnumerate.

(** *** [run_validate] and [train], step by step *)

Lemma run_validate_step_run (args : Args) (i : Z) (b : observation)
    (s : validate_state Model) :
  run_validate_step args i b s =
  let u := AverageMeter.update PyFloat (duration b) 1 (va_batch_time s) in
  (if (num_warmup args <=? i)%Z then fst u else Ok tt,
   mk_validate (va_model s)
               (if (num_warmup args <=? i)%Z then snd u else va_batch_time s)
               (va_losses s) (va_top1 s) (va_top5 s)
               (va_out s ++ [Forward (va_model s) i;
                             Printed (IterationTime i (duration b))])).
Proof.
  destruct s as [m bt lo t1 t5 out]. unfold run_validate_step.
  cbv [bind va_emit modify when ret get zoom
       va_model va_batch_time va_losses va_top1 va_top5 va_out va_set_batch_time].
  rewrite <- app_assoc. cbn [app].
  destruct (num_warmup args <=? i)%Z; [| reflexivity].
  now destruct (AverageMeter.update PyFloat (duration b) 1 bt) as [[[] | e] bt'].
Qed.

Lemma run_validate_step_effect (args : Args) (i : Z) (b : observation)
    (s : validate_state Model) :
  iteration_effect (num_warmup args) (va_model s) i (duration b)
                   (va_out s) (va_out (snd (run_validate_step args i b s)))
                   (va_batch_time s) (va_batch_time (snd (run_validate_step args i b s))).
Proof.
  rewrite run_validate_step_run. cbv zeta. cbn [snd va_out va_batch_time].
  right. exists []. rewrite app_nil_r. repeat split. now left.
Qed.

Lemma run_validate_step_model (args : Args) (i : Z) (b : observation)
    (s : validate_state Model) :
  va_model (snd (run_validate_step args i b s)) = va_model s.
Proof. now rewrite run_validate_step_run. Qed.

(** With [batch_time] in step with the log, an iteration of [run_validate]
    does not raise. *)
Lemma run_validate_step_ok (args : Args) (i : Z) (b : observation)
    (s : validate_state Model) :
  tracks (va_batch_time s) (measured (num_warmup args) (va_out s)) ->
  fst (run_validate_step args i b s) = Ok tt.
Proof.
  intros Ht. rewrite run_validate_step_run. cbv zeta. cbn [fst].
  destruct (num_warmup args <=? i)%Z; [| reflexivity].
  now apply (tracks_update _ _ (duration b)) in Ht.
Qed.

Lemma run_validate_loop_ok (args : Args) (loader : list observation) :
  forall i (s : validate_state Model),
    tracks (va_batch_time s) (measured (num_warmup args) (va_out s)) ->
    fst (run_validate_loop args i loader s) = Ok tt.
Proof.
  induction loader as [| b rest IH]; intros i s Ht; [reflexivity |].
  unfold run_validate_loop in *. cbn [for_enumerate]. unfold bind, ret. destruct (i =? num_iter args)%Z; [reflexivity |].
  pose proof (run_validate_step_ok args i b s Ht) as Hok.
  pose proof (effect_tracks _ _ _ _ _ _ _ _ (run_validate_step_effect args i b s) Ht) as Ht'.
  destruct (run_validate_step args i b s) as [[[] | e] s1]; cbn [fst snd] in *;
    [now apply IH | discriminate].
Qed.

Lemma run_validate_loop_model (args : Args) (loader : list observation) :
  forall i (s : validate_state Model),
    va_model (snd (run_validate_loop args i loader s)) = va_model s.
Proof.
  induction loader as [| b rest IH]; intros i s; [reflexivity |].
  unfold run_validate_loop in *. cbn [for_enumerate]. unfold bind, ret. destruct (i =? num_iter args)%Z; [reflexivity |].
  pose proof (run_validate_step_model args i b s) as Hm.
  destruct (run_validate_step args i b s) as [[[] | e] s1]; cbn [snd] in *;
    [now rewrite IH | exact Hm].
Qed.

(** The lines that close [train]: nothing is printed unless both divisions
    succeed. *)
Lemma train_run (args : Args) (model : Model) (loader : list observation) (bs : Z) :
  train args model loader bs =
  match train_loop args model 0%Z loader train_init with
  | (Ok _, s) =>
      let a := AverageMeter.avg (tr_batch_time s) in
      if Qeq_bool (fl64 (inject_Z bs)) 0 then (Raise ZeroDivisionError, s)
      else if Qeq_bool a 0 then (Raise ZeroDivisionError, s)
      else (Ok tt,
            mk_train (tr_batch_time s) (tr_data_time s) (tr_losses s)
                     (tr_top1 s) (tr_top5 s)
                     (tr_out s ++ [Printed (Latency (printf_f 0 (latency_ms a bs)));
                                   Printed (Throughput (printf_f 0 (throughput_fps a bs)))]))
  | (Raise e, s) => (Raise e, s)
  end.
Proof.
  unfold train. unfold bind at 1.
  destruct (train_loop args model 0%Z loader train_init) as [[[] | e] s]; [| reflexivity].
  destruct s as [bt dt lo t1 t5 out].
  cbv [bind get truediv raise ret tr_emit modify
       tr_batch_time tr_data_time tr_losses tr_top1 tr_top5 tr_out].
  destruct (Qeq_bool (fl64 (inject_Z bs)) 0); [reflexivity |].
  destruct (Qeq_bool (AverageMeter.avg bt) 0); [reflexivity |].
  now rewrite <- app_assoc.
Qed.

Lemma run_validate_run (args : Args) (loader : list observation) (base : Z)
    (s0 : validate_state Model) :
  run_validate args loader base s0 =
  match run_validate_loop args 0%Z loader s0 with
  | (Ok _, s) =>
      let a := AverageMeter.avg (va_batch_time s) in
      if Qeq_bool (fl64 (inject_Z (batch_size args))) 0 then (Raise ZeroDivisionError, s)
      else if Qeq_bool a 0 then (Raise ZeroDivisionError, s)
      else (Ok tt,
            mk_validate (va_model s) (va_batch_time s) (va_losses s)
                        (va_top1 s) (va_top5 s)
                        (va_out s
                           ++ [Printed (Latency (printf_f 3 (latency_ms a (batch_size args))));
                               Printed (Throughput
                                          (printf_f 3 (throughput_fps a (batch_size args))))]))
  | (Raise e, s) => (Raise e, s)
  end.
Proof.
  unfold run_validate. unfold bind at 1.
  destruct (run_validate_loop args 0%Z loader s0) as [[[] | e] s]; [| reflexivity].
  destruct s as [m bt lo t1 t5 out].
  cbv [bind get truediv raise ret va_emit modify
       va_model va_batch_time va_losses va_top1 va_top5 va_out].
  destruct (Qeq_bool (fl64 (inject_Z (batch_size args))) 0); [reflexivity |].
  destruct (Qeq_bool (AverageMeter.avg bt) 0); [reflexivity |].
  now rewrite <- app_assoc.
Qed.

Lemma train_body_effect (args : Args) (model : Model) :
  forall i b (s : train_state Model), exists m,
    iteration_effect (num_warmup args) m i (duration b)
                     (tr_out s) (tr_out (snd (train_step args model i b s)))
                     (tr_batch_time s) (tr_batch_time (snd (train_step args model i b s))).
Proof. intros i b s. exists model. apply train_step_effect. Qed.

Lemma run_validate_body_effect (args : Args) :
  forall i b (s : validate_state Model), exists m,
    iteration_effect (num_warmup args) m i (duration b)
                     (va_out s) (va_out (snd (run_validate_step args i b s)))
                     (va_batch_time s) (va_batch_time (snd (run_validate_step args i b s))).
Proof. intros i b s. exists (va_model s). apply run_validate_step_effect. Qed.

(** *** Invariants of [run_validate], [validate_jit] and [validate_main] *)

(** [run_validate] changes the state as its loop does, and on success adds
    two lines that are neither forward passes nor iteration lines. *)
Lemma run_validate_state (args : Args) (loader : list observation) (base : Z)
    (s0 : validate_state Model) :
  let s := snd (run_validate_loop args 0%Z loader s0) in
  let s' := snd (run_validate args loader base s0) in
  va_model s' = va_model s /\ va_batch_time s' = va_batch_time s /\
  va_top1 s' = va_top1 s /\ va_top5 s' = va_top5 s /\
  (va_out s' = va_out s \/
   exists l p, va_out s' = va_out s ++ [Printed (Latency l); Printed (Throughput p)]).
Proof.
  cbv zeta. rewrite run_validate_run.
  destruct (run_validate_loop args 0%Z loader s0) as [[[] | e] s]; cbn [snd].
  - cbv zeta. destruct (Qeq_bool (fl64 (inject_Z (batch_size args))) 0);
      [repeat split; now left |].
    destruct (Qeq_bool (AverageMeter.avg (va_batch_time s)) 0);
      [repeat split; now left |].
    cbn. repeat split. right. now do 2 eexists.
  - repeat split. now left.
Qed.

Lemma run_validate_tracks (args : Args) (loader : list observation) (base : Z)
    (s0 : validate_state Model) :
  tracks (va_batch_time s0) (measured (num_warmup args) (va_out s0)) ->
  tracks (va_batch_time (snd (run_validate args loader base s0)))
         (measured (num_warmup args) (va_out (snd (run_validate args loader base s0)))).
Proof.
  intros Ht.
  destruct (run_validate_state args loader base s0) as (_ & Hb & _ & _ & Ho).
  rewrite Hb.
  assert (Hloop : tracks (va_batch_time (snd (run_validate_loop args 0%Z loader s0)))
                         (measured (num_warmup args)
                                   (va_out (snd (run_validate_loop args 0%Z loader s0))))).
  { apply (for_enumerate_tracks _ _ _ _ _ _ (run_validate_body_effect args)). exact Ht. }
  destruct Ho as [-> | (l & p & ->)]; [exact Hloop |].
  rewrite measured_app. cbn. now rewrite app_nil_r.
Qed.

Lemma run_validate_forward_models (args : Args) (loader : list observation) (base : Z)
    (m : Model) (s0 : validate_state Model) :
  va_model s0 = m /\ Forall (eq m) (forward_models (va_out s0)) ->
  va_model (snd (run_validate args loader base s0)) = m /\
  Forall (eq m) (forward_models (va_out (snd (run_validate args loader base s0)))).
Proof.
  intros Hs.
  destruct (run_validate_state args loader base s0) as (Hm & _ & _ & _ & Ho).
  rewrite Hm.
  assert (Hloop : va_model (snd (run_validate_loop args 0%Z loader s0)) = m /\
                  Forall (eq m)
                         (forward_models (va_out (snd (run_validate_loop args 0%Z loader s0))))).
  { clear Hm Ho. generalize 0%Z. revert s0 Hs. unfold run_validate_loop.
    induction loader as [| b rest IH]; intros s0 Hs i; [exact Hs |].
    cbn [for_enumerate]. unfold bind, ret.
    destruct (i =? num_iter args)%Z; [exact Hs |].
    pose proof (run_validate_step_model args i b s0) as Hm.
    pose proof (effect_forward_models _ _ _ _ _ _ _ _ (run_validate_step_effect args i b s0))
      as Hf.
    assert (Hs1 : va_model (snd (run_validate_step args i b s0)) = m /\
                  Forall (eq m)
                         (forward_models (va_out (snd (run_validate_step args i b s0))))).
    { destruct Hs as [Hm0 Hf0]. rewrite Hm, Hf, Hm0. split; [reflexivity |].
      apply Forall_app. split; [exact Hf0 | now constructor]. }
    destruct (run_validate_step args i b s0) as [[[] | e] s1]; cbn [snd] in *;
      [now apply IH | exact Hs1]. }
  destruct Hloop as [Hm' Hf']. split; [exact Hm' |].
  destruct Ho as [-> | (l & p & ->)]; [exact Hf' |].
  rewrite forward_models_app. cbn. now rewrite app_nil_r.
Qed.

(** Any property of the model, of [batch_time] and of the log that
    [run_validate] preserves is preserved by [validate_main]. *)
Lemma validate_main_invariant (I : validate_state Model -> Prop) (args : Args)
    (val_loader : list observation) (sampler_len dataset_len : Z)
    (aux_loader : list observation) (others1 others5 : list (Q * Q)) :
  (forall loader base s, I s -> I (snd (run_validate args loader base s))) ->
  (forall t s, I s -> I (va_set_top1 t s)) ->
  (forall t s, I s -> I (va_set_top5 t s)) ->
  forall s, I s ->
    I (snd (validate_main args val_loader sampler_len dataset_len aux_loader
                          others1 others5 s)).
Proof.
  intros Hrun H1 H5 s Hs. unfold validate_main.
  unfold bind at 1. specialize (Hrun val_loader 0%Z s Hs) as Hs1.
  destruct (run_validate args val_loader 0%Z s) as [[[] | e] s1]; cbn [snd] in *;
    [| exact Hs1].
  unfold bind at 1.
  assert (Hs2 : I (snd (when (distributed args)
                          (zoom va_top1 va_set_top1 (AverageMeter.all_reduce others1) ;;
                           zoom va_top5 va_set_top5 (AverageMeter.all_reduce others5))%py
                          s1))).
  { unfold when. destruct (distributed args); [| exact Hs1].
    unfold bind, zoom.
    destruct (AverageMeter.all_reduce others1 (va_top1 s1)) as [[[] | e] t1]; cbn [snd].
    - destruct (AverageMeter.all_reduce others5 (va_top5 (va_set_top1 t1 s1)))
        as [[[] | e] t5]; cbn [snd]; now apply H5, H1.
    - now apply H1. }
  destruct (when (distributed args) _ s1) as [[[] | e] s2]; cbn [snd] in *;
    [| exact Hs2].
  unfold bind at 1.
  assert (Hs3 : I (snd (when (distributed args
                              && (sampler_len * world_size args <? dataset_len)%Z)
                          (run_validate args aux_loader (Z.of_nat (length val_loader)))
                          s2))).
  { unfold when. destruct (distributed args && _); [now apply Hrun | exact Hs2]. }
  destruct (when (distributed args && _) _ s2) as [[[] | e] s3]; cbn [snd] in *;
    [exact Hs3 | exact Hs3].
Qed.

(** The [jit] block leaves the meters alone and prints only lines that are
    neither forward passes nor iteration lines. *)
Lemma validate_jit_quiet (args : Args) (val_loader : list observation)
    (s : validate_state Model) :
  let s' := snd (validate_jit jit_trace fold_convbn args val_loader s) in
  va_batch_time s' = va_batch_time s /\
  exists tail,
    va_out s' = va_out s ++ tail /\
    (forall w, measured w tail = []) /\ forward_models tail = [].
Proof.
  cbv zeta. destruct s as [m bt lo t1 t5 out]. unfold validate_jit, when.
  destruct (jit args).
  2:{ split; [reflexivity |]. exists []. cbn. now rewrite app_nil_r. }
  destruct val_loader as [| b rest].
  { split; [reflexivity |]. exists []. cbn. now rewrite app_nil_r. }
  cbv [bind ret get raise va_emit modify lift_result va_set_model
       va_model va_batch_time va_losses va_top1 va_top5 va_out].
  destruct (jit_trace m b) as [mj | []];
    destruct (bn_folding args && (device args =? "cuda")%string);
    try destruct (fold_convbn _) as [f | e];
    cbn [snd]; (split; [reflexivity |]); rewrite <- ?app_assoc;
    first [ eexists; split; [reflexivity | split; [intros w |]; reflexivity]
          | exists []; split; [now rewrite app_nil_r | split; [intros w |]; reflexivity] ].
Qed.

(** A [RuntimeError] or [TypeError] from the tracer is caught: two lines are
    printed and the model is kept, provided the folding step is not taken. *)
Lemma validate_jit_trace_fails (args : Args) (b : observation) (rest : list observation)
    (e : exn) (s : validate_state Model) :
  jit args = true ->
  (bn_folding args && (device args =? "cuda")%string) = false ->
  jit_trace (va_model s) b = Raise e ->
  e = RuntimeError \/ e = TypeError ->
  validate_jit jit_trace fold_convbn args (b :: rest) s =
  (Ok tt,
   mk_validate (va_model s) (va_batch_time s) (va_losses s) (va_top1 s) (va_top5 s)
               (va_out s ++ [Printed JitTraceDisable; Printed (JitFailedDueTo e)])).
Proof.
  intros Hjit Hfold Htrace He. destruct s as [m bt lo t1 t5 out].
  unfold validate_jit, when. rewrite Hjit, Hfold.
  cbv [bind ret get raise va_emit modify va_set_model
       va_model va_batch_time va_losses va_top1 va_top5 va_out] in *.
  rewrite Htrace. destruct He as [-> | ->]; now rewrite <- app_assoc.
Qed.

(** When tracing succeeds the traced model takes the place of the original,
    provided the folding step is not taken. *)
Lemma validate_jit_trace_succeeds (args : Args) (b : observation)
    (rest : list observation) (modelJit : Model) (s : validate_state Model) :
  jit args = true ->
  (bn_folding args && (device args =? "cuda")%string) = false ->
  jit_trace (va_model s) b = Ok modelJit ->
  validate_jit jit_trace fold_convbn args (b :: rest) s =
  (Ok tt,
   mk_validate modelJit (va_batch_time s) (va_losses s) (va_top1 s) (va_top5 s)
               (va_out s ++ [Printed UseTraceModel])).
Proof.
  intros Hjit Hfold Htrace. destruct s as [m bt lo t1 t5 out].
  unfold validate_jit, when. rewrite Hjit, Hfold.
  cbv [bind ret get raise va_emit modify va_set_model
       va_model va_batch_time va_losses va_top1 va_top5 va_out] in *.
  now rewrite Htrace.
Qed.

(** Every forward pass of [validate_main] uses the model it starts with. *)
Lemma validate_main_forward_models (args : Args)
    (val_loader : list observation) (sampler_len dataset_len : Z)
    (aux_loader : list observation) (others1 others5 : list (Q * Q))
    (m : Model) (s : validate_state Model) :
  va_model s = m -> Forall (eq m) (forward_models (va_out s)) ->
  Forall (eq m)
         (forward_models
            (va_out (snd (validate_main args val_loader sampler_len dataset_len
                                        aux_loader others1 others5 s)))).
Proof.
  intros Hm Hf.
  apply (validate_main_invariant
           (fun s => va_model s = m /\ Forall (eq m) (forward_models (va_out s))));
    [| | | now split].
  - intros loader base s0. apply run_validate_forward_models.
  - intros t s0 H. exact H.
  - intros t s0 H. exact H.
Qed.


Lemma train_state_after (args : Args) (model : Model) (loader : list observation)
    (bs : Z) :
  let s := snd (train_loop args model 0%Z loader train_init) in
  let s' := snd (train args model loader bs) in
  tr_batch_time s' = tr_batch_time s /\
  (tr_out s' = tr_out s \/
   exists l p, tr_out s' = tr_out s ++ [Printed (Latency l); Printed (Throughput p)]).
Proof.
  cbv zeta. rewrite train_run.
  destruct (train_loop args model 0%Z loader train_init) as [[[] | e] s]; cbn [snd].
  - cbv zeta. destruct (Qeq_bool (fl64 (inject_Z bs)) 0); [split; [reflexivity | now left] |].
    destruct (Qeq_bool (AverageMeter.avg (tr_batch_time s)) 0);
      [split; [reflexivity | now left] |].
    cbn. split; [reflexivity |]. right. now do 2 eexists.
  - split; [reflexivity | now left].
Qed.

Lemma train_tracks (args : Args) (model : Model) (loader : list observation) (bs : Z) :
  tracks (tr_batch_time (snd (train args model loader bs)))
         (measured (num_warmup args) (tr_out (snd (train args model loader bs)))).
Proof.
  destruct (train_state_after args model loader bs) as (Hb & Ho). rewrite Hb.
  assert (Hloop : tracks (tr_batch_time (snd (train_loop args model 0%Z loader train_init)))
                         (measured (num_warmup args)
                                   (tr_out (snd (train_loop args model 0%Z loader
                                                            train_init))))).
  { apply (for_enumerate_tracks _ _ _ _ _ _ (train_body_effect args model)).
    apply tracks_init. }
  destruct Ho as [-> | (l & p & ->)]; [exact Hloop |].
  rewrite measured_app. cbn. now rewrite app_nil_r.
Qed.

(** [validate] is its [jit] block followed, unless that block raises, by
    [validate_main]. *)
Lemma validate_run (args : Args) (model : Model) (val_loader : list observation)
    (sampler_len dataset_len : Z) (aux_loader : list observation)
    (others1 others5 : list (Q * Q)) :
  validate jit_trace fold_convbn args model val_loader sampler_len dataset_len
           aux_loader others1 others5 =
  let s0 := mk_validate model
                        (AverageMeter.init "Time" ":6.3f" NONE)
                        (AverageMeter.init "Loss" ":.4e" NONE)
                        (AverageMeter.init "Acc@1" ":6.2f" AVERAGE)
                        (AverageMeter.init "Acc@5" ":6.2f" AVERAGE)
                        [Printed (FuserMode (if nv_fuser args then "fuser2" else "none"))] in
  match validate_jit jit_trace fold_convbn args val_loader s0 with
  | (Ok _, s1) =>
      validate_main args val_loader sampler_len dataset_len aux_loader others1 others5 s1
  | (Raise e, s1) => (Raise e, s1)
  end.
Proof. reflexivity. Qed.

End LoopFacts.

(** *** The batches a loop runs *)

Lemma executed_from_0 (n : Z) (loader : list observation) :
  executed_from n 0 loader = executed n loader.
Proof. unfold executed_from, executed. now rewrite Z.sub_0_r. Qed.

Lemma executed_length (n : Z) (loader : list observation) :
  Z.of_nat (length (executed n loader))
  = if (n <? 0)%Z then Z.of_nat (length loader)
    else Z.min n (Z.of_nat (length loader)).
Proof.
  unfold executed. destruct (Z.ltb_spec n 0); [reflexivity |].
  rewrite length_firstn. lia.
Qed.

Lemma executed_from_cons (n i : Z) (b : observation) (rest : list observation) :
  executed_from n i (b :: rest)
  = if (i =? n)%Z then [] else b :: executed_from n (i + 1) rest.
Proof.
  unfold executed_from.
  destruct (Z.eqb_spec i n) as [-> | Hne].
  - rewrite Z.ltb_irrefl, Z.sub_diag. reflexivity.
  - destruct (Z.ltb_spec n i) as [Hlt | Hge].
    + rewrite (proj2 (Z.ltb_lt n (i + 1))) by lia. reflexivity.
    + rewrite (proj2 (Z.ltb_ge n (i + 1))) by lia.
      replace (Z.to_nat (n - i)) with (S (Z.to_nat (n - (i + 1)))) by lia.
      reflexivity.
Qed.

(** A property of the state that every pass through the body preserves is
    preserved by the loop. *)
Lemma for_enumerate_preserves {S : Type} (P : S -> Prop) (n : Z)
    (body : Z -> observation -> M S unit) :
  (forall i b s, P s -> P (snd (body i b s))) ->
  forall loader i s, P s -> P (snd (for_enumerate n body i loader s)).
Proof.
  intros Hbody. induction loader as [| b rest IH]; intros i s Hs; [exact Hs |].
  cbn [for_enumerate]. unfold bind, ret. destruct (i =? n)%Z; [exact Hs |].
  specialize (Hbody i b s Hs).
  destruct (body i b s) as [[[] | e] s1]; cbn [snd] in *; [now apply IH | exact Hbody].
Qed.

Lemma measured_loop_log {Model : Type} (w : Z) (m : Model) (bs : list observation) :
  forall i,
    measured w (loop_log m i bs) = map duration (skipn (Z.to_nat (w - i)) bs).
Proof.
  induction bs as [| b rest IH]; intros i.
  - now rewrite skipn_nil.
  - cbn [loop_log]. unfold measured in *. cbn [flat_map measured_of app].
    rewrite IH. destruct (Z.leb_spec w i) as [Hle | Hlt].
    + replace (Z.to_nat (w - i)) with 0%nat by lia.
      replace (Z.to_nat (w - (i + 1))) with 0%nat by lia. reflexivity.
    + replace (Z.to_nat (w - i)) with (S (Z.to_nat (w - (i + 1)))) by lia.
      reflexivity.
Qed.

Lemma forward_count_loop_log {Model : Type} (m : Model) (bs : list observation) :
  forall i, forward_count (loop_log m i bs) = length bs.
Proof.
  induction bs as [| b rest IH]; intros i; [reflexivity |].
  cbn [loop_log]. unfold forward_count in *. cbn. now rewrite IH.
Qed.

Lemma timed_indices_loop_log {Model : Type} (m : Model) (bs : list observation) :
  forall i,
    timed_indices (loop_log m i bs)
    = map (fun p => (i + Z.of_nat p)%Z) (seq 0 (length bs)).
Proof.
  induction bs as [| b rest IH]; intros i; [reflexivity |].
  cbn [loop_log length seq map]. unfold timed_indices in *. cbn [flat_map app].
  rewrite IH, <- seq_shift, map_map. f_equal; [f_equal; lia |].
  apply map_ext. intros p. lia.
Qed.

(** With [batch_time] in step with the log, the loop of [run_validate] does
    not raise, keeps the model, and writes the forward pass and the
    iteration line of each batch it runs, in order. *)
Lemma run_validate_loop_log {Model : Type} (args : Args) (loader : list observation) :
  forall i (s : validate_state Model),
    tracks (va_batch_time s) (measured (num_warmup args) (va_out s)) ->
    fst (run_validate_loop args i loader s) = Ok tt /\
    va_out (snd (run_validate_loop args i loader s))
    = va_out s ++ loop_log (va_model s) i (executed_from (num_iter args) i loader).
Proof.
  induction loader as [| b rest IH]; intros i s Ht.
  - split; [reflexivity |]. unfold executed_from.
    destruct (num_iter args <? i)%Z; rewrite ?firstn_nil; cbn; now rewrite app_nil_r.
  - rewrite executed_from_cons. unfold run_validate_loop in *.
    cbn [for_enumerate]. unfold bind, ret.
    destruct (i =? num_iter args)%Z.
    + split; [reflexivity |]. cbn. now rewrite app_nil_r.
    + pose proof (run_validate_step_ok Model args i b s Ht) as Hok.
      pose proof (effect_tracks Model _ _ _ _ _ _ _ _
                    (run_validate_step_effect Model args i b s) Ht) as Ht'.
      pose proof (run_validate_step_run Model args i b s) as Hrun.
      destruct (run_validate_step args i b s) as [[[] | e] s1];
        cbn [fst snd] in *; [| discriminate].
      destruct (IH (i + 1)%Z s1 Ht') as [Hr Ho].
      split; [exact Hr |]. rewrite Ho.
      cbv zeta in Hrun. injection Hrun as _ ->. cbn [va_out va_model loop_log].
      now rewrite <- app_assoc.
Qed.

Lemma run_validate_log {Model : Type} (args : Args) (loader : list observation)
    (base : Z) (s : validate_state Model) :
  tracks (va_batch_time s) (measured (num_warmup args) (va_out s)) ->
  exists tail,
    va_out (snd (run_validate args loader base s))
    = va_out s ++ loop_log (va_model s) 0 (executed (num_iter args) loader) ++ tail /\
    (tail = [] \/ exists l p, tail = [Printed (Latency l); Printed (Throughput p)]).
Proof.
  intros Ht.
  destruct (run_validate_state Model args loader base s) as (_ & _ & _ & _ & Ho).
  destruct (run_validate_loop_log args loader 0%Z s Ht) as [_ Hlog].
  rewrite executed_from_0 in Hlog.
  destruct Ho as [Ho | (l & p & Ho)]; rewrite Ho, Hlog.
  - exists []. rewrite app_nil_r. split; [reflexivity | now left].
  - eexists. rewrite <- app_assoc. split; [reflexivity |]. right. now do 2 eexists.
Qed.

(** ** The loops are bounded by [num_iter] *)

(** C4 (as the code has it). For every loader and every configuration with
    [num_iter >= 0], one call of [train] and one call of [run_validate] each
    run the model on at most [min(num_iter, number of batches)] batches. *)
Theorem loops_run_at_most_num_iter_batches {Model : Type} (args : Args) (model : Model)
    (train_loader : list observation) (loader_batch_size : Z)
    (loader : list observation) (base_progress : Z) (s : validate_state Model) :
  (0 <= num_iter args)%Z ->
  (Z.of_nat (forward_count (tr_out (snd (train args model train_loader loader_batch_size))))
   <= Z.min (num_iter args) (Z.of_nat (length train_loader)))%Z /\
  (Z.of_nat (forward_count (va_out (snd (run_validate args loader base_progress s))))
   - Z.of_nat (forward_count (va_out s))
   <= Z.min (num_iter args) (Z.of_nat (length loader)))%Z.
Proof.
  intros Hn. split.
  - destruct (train_state_after Model args model train_loader loader_batch_size)
      as (_ & Ho).
    pose proof (for_enumerate_forward_count Model _ (num_iter args) (num_warmup args)
                  _ _ _ (train_body_effect Model args model) train_loader 0%Z train_init Hn)
      as Hloop.
    fold (train_loop args model 0%Z train_loader) in Hloop.
    change (forward_count (tr_out train_init)) with 0%nat in Hloop.
    destruct Ho as [-> | (l & p & ->)].
    + lia.
    + rewrite forward_count_app. cbn. lia.
  - destruct (run_validate_state Model args loader base_progress s)
      as (_ & _ & _ & _ & Ho).
    pose proof (for_enumerate_forward_count Model _ (num_iter args) (num_warmup args)
                  _ _ _ (run_validate_body_effect Model args) loader 0%Z s Hn)
      as Hloop.
    fold (@run_validate_loop Model args 0%Z loader) in Hloop.
    destruct Ho as [-> | (l & p & ->)].
    + lia.
    + rewrite forward_count_app. cbn. lia.
Qed.

Lemma loops_run_at_most_num_iter_batches_witness :
  (Z.of_nat (forward_count
               (tr_out (snd (train (sample_args 2 1) tt
                                   [sample_batch 0 1; sample_batch 3 2; sample_batch 1 3]
                                   1))))
   <= 2)%Z /\
  (Z.of_nat (forward_count
               (va_out (snd (run_validate (sample_args 2 1)
                                          [sample_batch 0 1; sample_batch 3 2;
                                           sample_batch 1 3]
                                          0 (validate_init tt)))))
   <= 2)%Z.
Proof.
  destruct (loops_run_at_most_num_iter_batches
              (sample_args 2 1) tt
              [sample_batch 0 1; sample_batch 3 2; sample_batch 1 3] 1
              [sample_batch 0 1; sample_batch 3 2; sample_batch 1 3] 0
              (validate_init tt)) as [Ht Hv].
  - simpl. lia.
  - split; [exact Ht |].
    change (forward_count (va_out (validate_init tt))) with 0%nat in Hv.
    simpl Z.min in Hv. lia.
Defined.

(** C4, as stated, fails for a negative [num_iter]: the index never equals
    it, so both loops run the model on every batch of the loader. *)
Lemma negative_num_iter_runs_every_batch :
  let args := sample_args (-1) 0 in
  let loader := [sample_batch 0 1; sample_batch 3 2] in
  forward_count (tr_out (snd (train args tt loader 1))) = 2%nat /\
  forward_count (va_out (snd (run_validate args loader 0 (validate_init tt)))) = 2%nat /\
  ~ (2 <= Z.min (num_iter args) (Z.of_nat (length loader)))%Z.
Proof.
  split; [vm_compute; reflexivity |].
  split; [vm_compute; reflexivity |].
  vm_compute. intros H. now apply H.
Qed.

(** *** The iterations a loop times *)







(** ** Warmup iterations are not timed *)



(** ** Reported latency and throughput *)

Lemma inject_Z_gt0 (z : Z) : (0 < z)%Z -> 0 < inject_Z z.
Proof. intros H. change 0 with (inject_Z 0). now rewrite <- Zlt_Qlt. Qed.

Lemma batch_size_float_pos (bs : Z) : (0 < bs)%Z -> 0 < fl64 (inject_Z bs).
Proof. intros H. now apply fl64_pos, inject_Z_gt0. Qed.

Lemma within_intro (e x y lo hi : Q) :
  0 <= y -> y * lo <= x <= y * hi -> 1 - e <= lo -> hi <= 1 + e -> within e x y.
Proof.
  intros Hy [L U] Hlo Hhi. unfold within. apply Qabs_Qle_condition.
  assert (L' : y * (1 - e) <= y * lo).
  { rewrite !(Qmult_comm y). now apply Qmult_le_compat_r. }
  assert (U' : y * hi <= y * (1 + e)).
  { rewrite !(Qmult_comm y). now apply Qmult_le_compat_r. }
  split; lra.
Qed.

Lemma within_exact (x : Q) : x * 1 <= x <= x * 1.
Proof. split; lra. Qed.

Section Report.

Variables (a : Q) (bs : Z).
Hypothesis a_pos : 0 < a.
Hypothesis bs_pos : (0 < bs)%Z.

Lemma batch_float_within :
  inject_Z bs * (1 - eps64) <= fl64 (inject_Z bs) <= inject_Z bs * (1 + eps64).
Proof. apply fl64_within. apply Qlt_le_weak, inject_Z_gt0, bs_pos. Qed.

(** The latency as computed, against the one computed from the float of
    the batch size without rounding. *)
Lemma latency_ms_within_float :
  (a / fl64 (inject_Z bs) * 1000) * ((1 - eps64) * (1 - eps64)) <= latency_ms a bs
  <= (a / fl64 (inject_Z bs) * 1000) * ((1 + eps64) * (1 + eps64)).
Proof.
  unfold latency_ms. set (B' := fl64 (inject_Z bs)).
  assert (HB' : 0 < B') by (apply batch_size_float_pos, bs_pos).
  assert (Hq : 0 <= a / B').
  { apply Qlt_le_weak, Qlt_shift_div_l; [exact HB' | lra]. }
  pose proof (fl64_within _ Hq) as W1.
  assert (Hq1 : 0 <= fl64 (a / B')) by now apply (fl_nonneg PyFloat).
  pose proof (fun Ha Ha' => within_product _ _ _ _ _ _ _ _ Hq Ha
                              (ltac:(discriminate) : 0 <= 1000) Ha'
                              W1 (within_exact 1000)) as W2.
  specialize (W2 ltac:(vm_compute; discriminate) ltac:(vm_compute; discriminate)).
  assert (Hm : 0 <= fl64 (a / B') * 1000) by (apply Qmult_le_0_compat; [exact Hq1 | discriminate]).
  pose proof (fl64_within _ Hm) as W3.
  pose proof (fun Hc Hd => within_compose _ _ _ _ _ _ _ Hc Hd W2 W3) as W4.
  specialize (W4 ltac:(vm_compute; discriminate) ltac:(vm_compute; discriminate)).
  destruct W4 as [L U]. split.
  - eapply Qle_trans; [| exact L]. apply Qle_lteq. right. ring.
  - eapply Qle_trans; [exact U |]. apply Qle_lteq. right. ring.
Qed.

Lemma throughput_fps_within_float :
  (fl64 (inject_Z bs) / a) * (1 - eps64) <= throughput_fps a bs
  <= (fl64 (inject_Z bs) / a) * (1 + eps64).
Proof.
  unfold throughput_fps. apply fl64_within.
  apply Qlt_le_weak, Qlt_shift_div_l; [exact a_pos |].
  pose proof (batch_size_float_pos bs bs_pos). lra.
Qed.

(** The product of the two computed values is 1000 up to three roundings. *)
Lemma latency_throughput_product :
  within (2 ^ (-51)) (latency_ms a bs * throughput_fps a bs) 1000.
Proof.
  pose proof latency_ms_within_float as Wl. pose proof throughput_fps_within_float as Wt.
  set (B' := fl64 (inject_Z bs)) in *.
  assert (HB' : 0 < B') by (apply batch_size_float_pos, bs_pos).
  assert (Hx : 0 <= a / B' * 1000).
  { apply Qmult_le_0_compat; [| discriminate].
    apply Qlt_le_weak, Qlt_shift_div_l; [exact HB' | lra]. }
  assert (Hy : 0 <= B' / a).
  { apply Qlt_le_weak, Qlt_shift_div_l; [exact a_pos | lra]. }
  pose proof (fun Ha Ha' => within_product _ _ _ _ _ _ _ _ Hx Ha Hy Ha' Wl Wt) as W.
  specialize (W ltac:(vm_compute; discriminate) ltac:(vm_compute; discriminate)).
  assert (E : a / B' * 1000 * (B' / a) == 1000) by (field; split; lra).
  rewrite E in W.
  apply (within_intro _ _ _ _ _ (ltac:(discriminate) : 0 <= 1000) W);
    vm_compute; discriminate.
Qed.

(** Against the exact quotients, the float of the batch size adds one
    more rounding. *)
Lemma latency_ms_within :
  within (2 ^ (-51)) (latency_ms a bs) (a / inject_Z bs * 1000).
Proof.
  pose proof latency_ms_within_float as Wl. pose proof batch_float_within as Wb.
  set (B := inject_Z bs) in *. set (B' := fl64 B) in *.
  assert (HB : 0 < B) by (apply inject_Z_gt0, bs_pos).
  assert (HB' : 0 < B') by (apply batch_size_float_pos, bs_pos).
  pose proof (inv_within B B' _ _ HB (eq_refl : 0 < 1 - eps64) Wb) as Wi.
  assert (Hi : 0 <= / B) by (apply Qinv_le_0_compat; lra).
  pose proof (fun Ha Ha' => within_product _ _ _ _ _ _ _ _ (Qlt_le_weak _ _ a_pos) Ha Hi Ha'
                              (within_exact a) Wi) as W1.
  specialize (W1 ltac:(vm_compute; discriminate) ltac:(vm_compute; discriminate)).
  assert (Hq : 0 <= a * / B) by (apply Qmult_le_0_compat; lra).
  pose proof (fun Ha Ha' => within_product _ _ _ _ _ _ _ _ Hq Ha
                              (ltac:(discriminate) : 0 <= 1000) Ha'
                              W1 (within_exact 1000)) as W2.
  specialize (W2 ltac:(vm_compute; discriminate) ltac:(vm_compute; discriminate)).
  change (a * / B') with (a / B') in W2.
  pose proof (fun Hc Hd => within_compose _ _ _ _ _ _ _ Hc Hd W2 Wl) as W3.
  specialize (W3 ltac:(vm_compute; discriminate) ltac:(vm_compute; discriminate)).
  change (a * / B * 1000) with (a / B * 1000) in W3.
  assert (Hx : 0 <= a / B * 1000).
  { apply Qmult_le_0_compat; [exact Hq | discriminate]. }
  apply (within_intro _ _ _ _ _ Hx W3); vm_compute; discriminate.
Qed.

Lemma throughput_fps_within :
  within (2 ^ (-51)) (throughput_fps a bs) (inject_Z bs / a).
Proof.
  pose proof throughput_fps_within_float as Wt. pose proof batch_float_within as Wb.
  set (B := inject_Z bs) in *. set (B' := fl64 B) in *.
  assert (HB : 0 < B) by (apply inject_Z_gt0, bs_pos).
  assert (Hi : 0 <= / a) by (apply Qinv_le_0_compat; lra).
  pose proof (fun Ha Ha' => within_product _ _ _ _ _ _ _ _ (Qlt_le_weak _ _ HB) Ha Hi Ha'
                              Wb (within_exact (/ a))) as W1.
  specialize (W1 ltac:(vm_compute; discriminate) ltac:(vm_compute; discriminate)).
  change (B' * / a) with (B' / a) in W1.
  pose proof (fun Hc Hd => within_compose _ _ _ _ _ _ _ Hc Hd W1 Wt) as W2.
  specialize (W2 ltac:(vm_compute; discriminate) ltac:(vm_compute; discriminate)).
  change (B * / a) with (B / a) in W2.
  assert (Hx : 0 <= B / a).
  { apply Qlt_le_weak, Qlt_shift_div_l; [exact a_pos | lra]. }
  apply (within_intro _ _ _ _ _ Hx W2); vm_compute; discriminate.
Qed.

End Report.

(** [%.<digits>f] shows a number within half a unit of its last digit. *)
Lemma printf_f_near (digits : nat) (x : Q) :
  Qabs (printf_f digits x - x) <= (1 # 2) / 10 ^ Z.of_nat digits.
Proof.
  unfold printf_f. set (p := 10 ^ Z.of_nat digits).
  assert (Hp : 0 < p) by (subst p; apply Qpower_0_lt; reflexivity).
  destruct (Rounding.round_half_even_near (x * p)) as [L U].
  apply Qabs_Qle_condition. split.
  - apply Qle_minus_iff in L. apply Qle_minus_iff.
    assert (E : inject_Z (round_half_even (x * p)) / p - x + - - ((1 # 2) / p)
                == (inject_Z (round_half_even (x * p)) + - (x * p - (1 # 2))) / p)
      by (field; lra).
    rewrite E. apply Qle_shift_div_l; [exact Hp |]. lra.
  - apply Qle_minus_iff in U. apply Qle_minus_iff.
    assert (E : (1 # 2) / p + - (inject_Z (round_half_even (x * p)) / p - x)
                == (x * p + (1 # 2) + - inject_Z (round_half_even (x * p))) / p)
      by (field; lra).
    rewrite E. apply Qle_shift_div_l; [exact Hp |]. lra.
Qed.

Lemma report_accuracy_holds (digits : nat) (a : Q) (bs : Z) :
  0 < a -> (0 < bs)%Z -> report_accuracy digits a bs.
Proof.
  intros Ha Hbs. unfold report_accuracy.
  split; [now apply latency_ms_within |].
  split; [now apply throughput_fps_within |].
  split; [now apply latency_throughput_product |].
  split; apply printf_f_near.
Qed.

Lemma reports_intro {Model : Type} (digits : nat) (before : list (event Model))
    (a : Q) (bs : Z) :
  reports digits before
          (before ++ [Printed (Latency (printf_f digits (latency_ms a bs)));
                      Printed (Throughput (printf_f digits (throughput_fps a bs)))])
          a bs.
Proof. reflexivity. Qed.

(** C6 (as the code has it). Once the loop has completed with an average
    measured batch time [a] between [2^-500] and [2^500] seconds, [train]
    and [run_validate] return after two more lines: the latency [a / batch_size * 1000] and the
    throughput [batch_size / a], each computed in Python floats and written
    with no decimals by [train] and with three by [run_validate].  The
    computed latency and throughput are within a relative [2^-51] of the
    exact quotients, and their product is within a relative [2^-51] of
    1000; each written number is within half a unit of its last digit of
    the computed one.  The batch size is [train_loader.batch_size] in
    [train] and [args.batch_size] in [run_validate]; it is positive, as the
    loader requires of the batch size it is built with, and at most
    [2^53]. *)
Theorem reported_latency_and_throughput {Model : Type} (args : Args) (model : Model)
    (train_loader : list observation) (loader_batch_size : Z)
    (loader : list observation) (base_progress : Z) (s : validate_state Model) :
  (0 < loader_batch_size <= 2 ^ 53)%Z -> (0 < batch_size args <= 2 ^ 53)%Z ->
  (let loop := train_loop args model 0%Z train_loader train_init in
   let a := AverageMeter.avg (tr_batch_time (snd loop)) in
   let r := train args model train_loader loader_batch_size in
   fst loop = Ok tt -> 2 ^ (-500) <= a <= 2 ^ 500 ->
   fst r = Ok tt /\
   reports 0 (tr_out (snd loop)) (tr_out (snd r)) a loader_batch_size /\
   report_accuracy 0 a loader_batch_size)
  /\
  (let loop := run_validate_loop args 0%Z loader s in
   let a := AverageMeter.avg (va_batch_time (snd loop)) in
   let r := run_validate args loader base_progress s in
   fst loop = Ok tt -> 2 ^ (-500) <= a <= 2 ^ 500 ->
   fst r = Ok tt /\
   reports 3 (va_out (snd loop)) (va_out (snd r)) a (batch_size args) /\
   report_accuracy 3 a (batch_size args)).
Proof.
  intros [Hbs _] [Hargs _].
  assert (Hpos : forall a : Q, 2 ^ (-500) <= a <= 2 ^ 500 -> 0 < a).
  { intros a [Hlo _]. eapply Qlt_le_trans; [| exact Hlo]. reflexivity. }
  split; cbv zeta.
  - rewrite train_run.
    destruct (train_loop args model 0%Z train_loader train_init) as [[[] | e] s1];
      cbn [fst snd]; [| discriminate].
    intros _ Ha. apply Hpos in Ha. cbv zeta.
    rewrite (AverageMeterFacts.Qeq_bool_false_of_pos _ (batch_size_float_pos _ Hbs)).
    rewrite (AverageMeterFacts.Qeq_bool_false_of_pos _ Ha).
    cbn [fst snd tr_out]. split; [reflexivity |].
    split; [apply reports_intro | now apply report_accuracy_holds].
  - rewrite run_validate_run.
    destruct (run_validate_loop args 0%Z loader s) as [[[] | e] s1];
      cbn [fst snd]; [| discriminate].
    intros _ Ha. apply Hpos in Ha. cbv zeta.
    rewrite (AverageMeterFacts.Qeq_bool_false_of_pos _ (batch_size_float_pos _ Hargs)).
    rewrite (AverageMeterFacts.Qeq_bool_false_of_pos _ Ha).
    cbn [fst snd va_out]. split; [reflexivity |].
    split; [apply reports_intro | now apply report_accuracy_holds].
Qed.

Lemma reported_latency_and_throughput_witness :
  let args := sample_args 3 1 in
  let loader := [sample_batch 0 1; sample_batch 3 2; sample_batch 1 4] in
  let tr_loop := snd (train_loop args tt 0%Z loader train_init) in
  let va_loop := snd (run_validate_loop args 0%Z loader (validate_init tt)) in
  (fst (train args tt loader 4) = Ok tt /\
   reports 0 (tr_out tr_loop) (tr_out (snd (train args tt loader 4)))
           (AverageMeter.avg (tr_batch_time tr_loop)) 4)
  /\
  (fst (run_validate args loader 0 (validate_init tt)) = Ok tt /\
   reports 3 (va_out va_loop) (va_out (snd (run_validate args loader 0 (validate_init tt))))
           (AverageMeter.avg (va_batch_time va_loop)) 1).
Proof.
  cbv zeta.
  destruct (reported_latency_and_throughput
              (sample_args 3 1) tt
              [sample_batch 0 1; sample_batch 3 2; sample_batch 1 4] 4
              [sample_batch 0 1; sample_batch 3 2; sample_batch 1 4] 0
              (validate_init tt)) as [Ht Hv].
  - split; [reflexivity | vm_compute; discriminate].
  - split; [reflexivity | vm_compute; discriminate].
  - cbv zeta in Ht, Hv. split.
    + destruct Ht as (Hr & Hrep & _);
        [vm_compute; reflexivity | split; vm_compute; discriminate |].
      now split.
    + destruct Hv as (Hr & Hrep & _);
        [vm_compute; reflexivity | split; vm_compute; discriminate |].
      now split.
Defined.

(** C6, as stated, fails: the two values are floats, and what is reported is
    their decimal rounding.  With an average batch time of 3 and a batch
    size of 1, [run_validate] writes [3000.000] and [0.333]: the throughput
    written is not [1 / 3], and the product of the two is 999.  With an
    average of [0.7] and a batch size of 3 the product of the two floats is
    already not 1000. *)
Lemma reported_values_are_rounded :
  (let args := sample_args 3 1 in
   let loader := [sample_batch 0 1; sample_batch 3 2; sample_batch 1 4] in
   let loop := snd (run_validate_loop args 0%Z loader (validate_init tt)) in
   let a := AverageMeter.avg (va_batch_time loop) in
   exists l p,
     va_out (snd (run_validate args loader 0 (validate_init tt)))
     = va_out loop ++ [Printed (Latency l); Printed (Throughput p)] /\
     a == 3 /\ l == 3000 /\ p == 333 # 1000 /\
     ~ p == inject_Z (batch_size args) / a /\
     ~ l * p == 1000)
  /\
  (let a := fl64 (7 # 10) in
   ~ latency_ms a 3 * throughput_fps a 3 == 1000 /\
   ~ latency_ms a 3 == a / 3 * 1000).
Proof.
  split; cbv zeta.
  - do 2 eexists. split; [vm_compute; reflexivity |].
    split; [vm_compute; reflexivity |].
    split; [vm_compute; reflexivity |].
    split; [vm_compute; reflexivity |].
    split; apply Qeq_bool_neq; vm_compute; reflexivity.
  - split; apply Qeq_bool_neq; vm_compute; reflexivity.
Qed.

Example sample_run_average_batch_time :
  AverageMeter.avg
    (tr_batch_time
       (snd (train (sample_args 3 1) tt
                   [sample_batch 0 1; sample_batch 3 2; sample_batch 1 4] 4)))
  == 3.
Proof. vm_compute. reflexivity. Qed.

(** ** Throughput is defined only after a measured iteration *)

Lemma tracks_nothing_avg (m : AverageMeter.t) :
  tracks m [] -> AverageMeter.avg m == 0 /\ Qeq_bool (AverageMeter.avg m) 0 = true.
Proof.
  intros Ht. rewrite Ht. split; reflexivity.
Qed.

Lemma train_measured_after {Model : Type} (args : Args) (model : Model)
    (loader : list observation) (bs : Z) :
  measured (num_warmup args) (tr_out (snd (train args model loader bs)))
  = measured (num_warmup args) (tr_out (snd (train_loop args model 0%Z loader train_init))).
Proof.
  destruct (train_state_after Model args model loader bs) as (_ & [-> | (l & p & ->)]);
    [reflexivity |].
  rewrite measured_app. cbn. now rewrite app_nil_r.
Qed.

Lemma run_validate_measured_after {Model : Type} (args : Args)
    (loader : list observation) (base : Z) (s : validate_state Model) :
  measured (num_warmup args) (va_out (snd (run_validate args loader base s)))
  = measured (num_warmup args) (va_out (snd (run_validate_loop args 0%Z loader s))).
Proof.
  destruct (run_validate_state Model args loader base s)
    as (_ & _ & _ & _ & [-> | (l & p & ->)]); [reflexivity |].
  rewrite measured_app. cbn. now rewrite app_nil_r.
Qed.

(** C9 (as the code has it). The closing report of [train] and of
    [run_validate] divides by [batch_time.avg].  When the log holds no
    iteration with index at least [num_warmup], that average is zero and no
    report is produced: [run_validate] raises [ZeroDivisionError], and so
    does [train] once its loop has completed.  Hence a report implies a
    measured iteration.  No iteration is measured when
    [0 <= num_iter <= num_warmup] or when the loader has at most
    [num_warmup] batches.  For [run_validate] the meter is assumed in step
    with the log on entry, as it is at both calls in [validate]. *)
Theorem throughput_needs_a_measured_iteration {Model : Type} (args : Args) (model : Model)
    (train_loader : list observation) (loader_batch_size : Z)
    (loader : list observation) (base_progress : Z) (s : validate_state Model) :
  tracks (va_batch_time s) (measured (num_warmup args) (va_out s)) ->
  let w := num_warmup args in
  let tr := train args model train_loader loader_batch_size in
  let tr_loop := train_loop args model 0%Z train_loader train_init in
  let va := run_validate args loader base_progress s in
  (measured w (tr_out (snd tr)) = [] ->
   AverageMeter.avg (tr_batch_time (snd tr)) == 0 /\
   fst tr <> Ok tt /\
   (fst tr_loop = Ok tt -> fst tr = Raise ZeroDivisionError)) /\
  (measured w (va_out (snd va)) = [] ->
   AverageMeter.avg (va_batch_time (snd va)) == 0 /\
   fst va = Raise ZeroDivisionError) /\
  (fst tr = Ok tt -> measured w (tr_out (snd tr)) <> []) /\
  (fst va = Ok tt -> measured w (va_out (snd va)) <> []) /\
  ((0 <= num_iter args <= w)%Z \/ (Z.of_nat (length train_loader) <= w)%Z ->
   measured w (tr_out (snd tr)) = []) /\
  (measured w (va_out s) = [] ->
   (0 <= num_iter args <= w)%Z \/ (Z.of_nat (length loader) <= w)%Z ->
   measured w (va_out (snd va)) = []).
Proof.
  intros Hs w tr tr_loop va.
  assert (Htr : measured w (tr_out (snd tr)) = [] ->
                AverageMeter.avg (tr_batch_time (snd tr)) == 0 /\
                fst tr <> Ok tt /\
                (fst tr_loop = Ok tt -> fst tr = Raise ZeroDivisionError)).
  { intros Hnil. subst tr tr_loop w.
    pose proof (train_tracks Model args model train_loader loader_batch_size) as Ht.
    rewrite Hnil in Ht. apply tracks_nothing_avg in Ht. destruct Ht as [Ha Hb].
    split; [exact Ha |].
    destruct (train_state_after Model args model train_loader loader_batch_size)
      as (Hbt & _).
    rewrite Hbt in Hb. revert Hb. rewrite train_run.
    destruct (train_loop args model 0%Z train_loader train_init) as [[[] | e] s1];
      cbn [fst snd]; cbv zeta; intros Hb.
    - rewrite Hb. destruct (Qeq_bool (fl64 (inject_Z loader_batch_size)) 0);
        cbn [fst]; split; (discriminate || reflexivity).
    - split; discriminate. }
  assert (Hva : measured w (va_out (snd va)) = [] ->
                AverageMeter.avg (va_batch_time (snd va)) == 0 /\
                fst va = Raise ZeroDivisionError).
  { intros Hnil. subst va w.
    pose proof (run_validate_tracks Model args loader base_progress s Hs) as Ht.
    rewrite Hnil in Ht. apply tracks_nothing_avg in Ht. destruct Ht as [Ha Hb].
    split; [exact Ha |].
    destruct (run_validate_state Model args loader base_progress s) as (_ & Hbt & _).
    rewrite Hbt in Hb. revert Hb. rewrite run_validate_run.
    pose proof (run_validate_loop_ok Model args loader 0%Z s Hs) as Hok.
    destruct (run_validate_loop args 0%Z loader s) as [[[] | e] s1];
      cbn [fst snd] in *; [| discriminate].
    cbv zeta. intros Hb. rewrite Hb.
    now destruct (Qeq_bool (fl64 (inject_Z (batch_size args))) 0). }
  split; [exact Htr |]. split; [exact Hva |].
  split; [| split; [| split]].
  - intros Hok Hnil. now destruct (Htr Hnil) as (_ & Hne & _).
  - intros Hok Hnil. destruct (Hva Hnil) as (_ & Hr). congruence.
  - intros Hcase. subst tr w. rewrite train_measured_after.
    now apply (for_enumerate_nothing_measured Model _ (num_iter args) (num_warmup args)
                 _ _ _ (train_body_effect Model args model)).
  - intros Hnil Hcase. subst va w. rewrite run_validate_measured_after.
    now apply (for_enumerate_nothing_measured Model _ (num_iter args) (num_warmup args)
                 _ _ _ (run_validate_body_effect Model args)).
Qed.

Lemma throughput_needs_a_measured_iteration_witness :
  fst (train (sample_args 2 2) tt [sample_batch 0 1; sample_batch 3 2; sample_batch 1 4] 4)
  = Raise ZeroDivisionError /\
  fst (run_validate (sample_args 2 2) [sample_batch 0 1; sample_batch 3 2] 0
                    (validate_init tt))
  = Raise ZeroDivisionError.
Proof.
  destruct (throughput_needs_a_measured_iteration
              (sample_args 2 2) tt
              [sample_batch 0 1; sample_batch 3 2; sample_batch 1 4] 4
              [sample_batch 0 1; sample_batch 3 2] 0 (validate_init tt))
    as (Htr & Hva & _ & _ & Htr0 & Hva0).
  - vm_compute. repeat split; reflexivity.
  - cbv zeta in *. split.
    + apply Htr; [apply Htr0; left; simpl; lia | vm_compute; reflexivity].
    + apply Hva. apply Hva0; [reflexivity | left; simpl; lia].
Defined.

(** C9, as stated, fails for a negative [num_iter]: with [num_iter = -1] and
    [num_warmup = 0] we have [num_iter <= num_warmup], yet the only
    iteration is measured and the throughput is reported. *)
Lemma negative_num_iter_is_measured :
  let args := sample_args (-1) 0 in
  let tr := train args tt [sample_batch 0 1] 1 in
  let va := run_validate args [sample_batch 0 1] 0 (validate_init tt) in
  (num_iter args <= num_warmup args)%Z /\
  fst tr = Ok tt /\ ~ AverageMeter.avg (tr_batch_time (snd tr)) == 0 /\
  fst va = Ok tt /\ ~ AverageMeter.avg (va_batch_time (snd va)) == 0.
Proof.
  cbv zeta. split; [simpl; lia |].
  split; [vm_compute; reflexivity |]. split; [vm_compute; discriminate |].
  split; [vm_compute; reflexivity |]. vm_compute; discriminate.
Qed.

(** ** Falling back when tracing fails *)

(** C7 (as the code has it). Let [args.jit] be set and the folding step not
    be taken ([args.bn_folding] unset or the device not ["cuda"]).  When
    [torch.jit.trace] raises a [RuntimeError] or a [TypeError], [validate]
    catches it, prints the two fallback lines and carries on with the model
    it was given: the rest of [validate] runs from a state holding the
    original model, and every forward pass uses that model.  When tracing
    succeeds, the rest of [validate] runs with the traced model, and every
    forward pass uses the traced model. *)
Theorem trace_failure_keeps_the_original_model {Model : Type}
    (jit_trace : Model -> observation -> result Model)
    (fold_convbn : Model -> result Model)
    (args : Args) (model : Model) (b : observation) (rest : list observation)
    (sampler_len dataset_len : Z) (aux_loader : list observation)
    (others1 others5 : list (Q * Q)) :
  jit args = true ->
  (bn_folding args && (device args =? "cuda")%string) = false ->
  let run := validate jit_trace fold_convbn args model (b :: rest)
                      sampler_len dataset_len aux_loader others1 others5 in
  let resume (m : Model) (lines : list (event Model)) :=
    validate_main args (b :: rest) sampler_len dataset_len aux_loader others1 others5
      (mk_validate m
         (AverageMeter.init "Time" ":6.3f" NONE)
         (AverageMeter.init "Loss" ":.4e" NONE)
         (AverageMeter.init "Acc@1" ":6.2f" AVERAGE)
         (AverageMeter.init "Acc@5" ":6.2f" AVERAGE)
         (Printed (FuserMode (if nv_fuser args then "fuser2" else "none")) :: lines)) in
  (forall e, jit_trace model b = Raise e -> e = RuntimeError \/ e = TypeError ->
     run = resume model [Printed JitTraceDisable; Printed (JitFailedDueTo e)] /\
     Forall (eq model) (forward_models (va_out (snd run))))
  /\
  (forall modelJit, jit_trace model b = Ok modelJit ->
     run = resume modelJit [Printed UseTraceModel] /\
     Forall (eq modelJit) (forward_models (va_out (snd run)))).
Proof.
  intros Hjit Hfold run resume. subst run resume. split.
  - intros e Htrace He. rewrite validate_run. cbv zeta.
    set (s0 := mk_validate model _ _ _ _ _).
    rewrite (validate_jit_trace_fails Model jit_trace fold_convbn args b rest e s0
               Hjit Hfold Htrace He).
    subst s0.
    cbn [va_model va_batch_time va_losses va_top1 va_top5 va_out app].
    split; [reflexivity |].
    apply validate_main_forward_models; [reflexivity | constructor].
  - intros modelJit Htrace. rewrite validate_run. cbv zeta.
    set (s0 := mk_validate model _ _ _ _ _).
    rewrite (validate_jit_trace_succeeds Model jit_trace fold_convbn args b rest modelJit s0
               Hjit Hfold Htrace).
    subst s0.
    cbn [va_model va_batch_time va_losses va_top1 va_top5 va_out app].
    split; [reflexivity |].
    apply validate_main_forward_models; [reflexivity | constructor].
Qed.

Lemma trace_failure_keeps_the_original_model_witness :
  let run := validate (fun (m : string) _ => Raise TypeError) (fun m => Ok m)
                      sample_args_jit "eager"%string
                      [sample_batch 0 1; sample_batch 3 2] 0 0 [] [] [] in
  forward_models (va_out (snd run)) = ["eager"; "eager"]%string /\
  Forall (eq "eager"%string) (forward_models (va_out (snd run))).
Proof.
  cbv zeta.
  destruct (trace_failure_keeps_the_original_model
              (fun (m : string) _ => Raise TypeError) (fun m => Ok m)
              sample_args_jit "eager"%string (sample_batch 0 1) [sample_batch 3 2]
              0 0 [] [] []) as [Hfail _].
  - reflexivity.
  - reflexivity.
  - cbv zeta in Hfail.
    destruct (Hfail TypeError eq_refl (or_intror eq_refl)) as [_ Hall].
    split; [vm_compute; reflexivity | exact Hall].
Defined.

(** C7, as stated, fails when [--bn_folding] is given on ["cuda"]: after the
    tracer's [RuntimeError] has been caught, the folding step is attempted
    on the untraced model.  In [main.py] the name [wrap_cpp_module] is not
    bound, so the step raises [NameError]; [validate] is aborted before any
    forward pass. *)
Lemma trace_failure_then_folding_aborts :
  let run := validate (fun (m : string) _ => Raise RuntimeError)
                      (fun _ => Raise NameError)
                      sample_args_jit_folding "eager"%string
                      [sample_batch 0 1; sample_batch 3 2] 0 0 [] [] [] in
  fst run = Raise NameError /\
  forward_count (va_out (snd run)) = 0%nat /\
  va_out (snd run)
  = [Printed (FuserMode "none"); Printed JitTraceDisable;
     Printed (JitFailedDueTo RuntimeError)].
Proof. cbv zeta. repeat split. Qed.

(** With folding available, the model used after a successful trace is the
    folded one, not the traced one. *)
Example trace_then_folding_uses_the_folded_model :
  let run := validate (fun (m : string) _ => Ok "traced"%string)
                      (fun _ => Ok "folded"%string)
                      (mk_args 2 0 10 1 true true false false (-1) "cuda")
                      "eager"%string
                      [sample_batch 0 1; sample_batch 3 2] 0 0 [] [] [] in
  forward_models (va_out (snd run)) = ["folded"; "folded"]%string.
Proof. vm_compute. reflexivity. Qed.

(** In [validate] the meters [top1] and [top5] are never updated, so a
    distributed run whose ranks all execute this code reduces empty meters
    and raises. *)
Example validate_distributed_raises :
  fst (validate (fun (m : string) _ => Ok m) (fun m => Ok m)
                (mk_args 2 0 10 1 false false false true 2 "cpu") "eager"%string
                [sample_batch 0 1; sample_batch 3 2] 2 2 [] [(0, 0)] [(0, 0)])
  = Raise ZeroDivisionError.
Proof. vm_compute. reflexivity. Qed.

(** * Further properties *)

(** ** [AverageMeter]: order of updates, reduction across ranks *)

(** In floats the sum a meter reaches depends on the order of its updates. *)
Example update_order_matters :
  let a := fl64 (1 # 10) in
  let b := fl64 (2 # 10) in
  let c := fl64 (3 # 10) in
  ~ AverageMeter.sum (meter_after "Loss" ":.4e" AVERAGE PyFloat
                                  [(a, 1%Z); (b, 1%Z); (c, 1%Z)])
    == AverageMeter.sum (meter_after "Loss" ":.4e" AVERAGE PyFloat
                                     [(c, 1%Z); (b, 1%Z); (a, 1%Z)]).
Proof. apply Qeq_bool_neq. vm_compute. reflexivity. Qed.

Lemma others_of_split {A : Type} (l1 : list A) (a : A) (l2 : list A) :
  others_of (length l1) (l1 ++ a :: l2) = l1 ++ l2.
Proof.
  unfold others_of.
  rewrite firstn_app, Nat.sub_diag, firstn_all, firstn_O, app_nil_r.
  rewrite skipn_app, skipn_all2 by lia.
  replace (S (length l1) - length l1)%nat with 1%nat by lia. reflexivity.
Qed.

Lemma world_sum_app (l l' : list (Q * Q)) :
  world_sum (l ++ l') == world_sum l + world_sum l'.
Proof.
  induction l as [| x l IH]; cbn [app].
  - change (world_sum []) with 0. lra.
  - change (world_sum (x :: l ++ l')) with (fst x + world_sum (l ++ l')).
    change (world_sum (x :: l)) with (fst x + world_sum l). lra.
Qed.

Lemma world_count_app (l l' : list (Q * Q)) :
  world_count (l ++ l') == world_count l + world_count l'.
Proof.
  induction l as [| x l IH]; cbn [app].
  - change (world_count []) with 0. lra.
  - change (world_count (x :: l ++ l')) with (snd x + world_count (l ++ l')).
    change (world_count (x :: l)) with (snd x + world_count l). lra.
Qed.

(** Whatever the rank, its own pair plus the pairs of the others add up to
    the totals over the world. *)
Lemma global_totals_of_rank (world : list (Q * Q)) (r : nat) (c : Q * Q) :
  nth_error world r = Some c ->
  global_sum c (others_of r world) == world_sum world /\
  global_count c (others_of r world) == world_count world.
Proof.
  intros Hr. destruct (nth_error_split _ _ Hr) as (l1 & l2 & -> & <-).
  rewrite others_of_split. unfold global_sum, global_count.
  fold (world_sum (l1 ++ l2)) (world_count (l1 ++ l2)).
  rewrite !world_sum_app, !world_count_app.
  change (world_sum (c :: l2)) with (fst c + world_sum l2).
  change (world_count (c :: l2)) with (snd c + world_count l2). split; lra.
Qed.

(** On every rank [all_reduce] leaves the [float32] of the totals over the
    world. *)
Lemma all_reduce_on_world (world : list AverageMeter.t) (r : nat) (m : AverageMeter.t) :
  nth_error world r = Some m ->
  let run := AverageMeter.all_reduce (others_of r (map contribution world)) m in
  let s := fl32 (world_sum (map contribution world)) in
  let c := fl32 (world_count (map contribution world)) in
  AverageMeter.sum (snd run) = s /\
  AverageMeter.count (snd run) = c /\
  fst run = (if Qeq_bool c 0 then Raise ZeroDivisionError else Ok tt) /\
  (~ c == 0 -> AverageMeter.avg (snd run) = fl64 (s / c)).
Proof.
  intros Hr. cbv zeta.
  assert (Hc : nth_error (map contribution world) r = Some (contribution m))
    by (now apply map_nth_error).
  destruct (global_totals_of_rank _ _ _ Hc) as [Gs Gc].
  rewrite AverageMeterFacts.all_reduce_run. cbv zeta.
  unfold AverageMeter.dist_all_reduce_sum. cbn [fst snd].
  change (fl32 (AverageMeter.sum m)
          + fold_right (fun x acc => fst x + acc) 0 (others_of r (map contribution world)))
    with (global_sum (contribution m) (others_of r (map contribution world))).
  change (fl32 (AverageMeter.count m)
          + fold_right (fun x acc => snd x + acc) 0 (others_of r (map contribution world)))
    with (global_count (contribution m) (others_of r (map contribution world))).
  rewrite (fl32_comp _ _ Gs), (fl32_comp _ _ Gc).
  destruct (Qeq_bool (fl32 (world_count (map contribution world))) 0) eqn:E;
    cbn [fst snd AverageMeter.sum AverageMeter.count AverageMeter.avg].
  - repeat split. intros Hne. exfalso. apply Hne. now apply Qeq_bool_eq.
  - repeat split.
Qed.

(** X3. [all_reduce] brings every rank to the same result: for any two ranks
    of a world of meters, each reducing with the pairs of all the others,
    either both raise or both complete, and their sums, counts and (when
    they complete) averages are equal. *)
Theorem all_reduce_ranks_agree (world : list AverageMeter.t) (r1 r2 : nat)
    (m1 m2 : AverageMeter.t) :
  nth_error world r1 = Some m1 -> nth_error world r2 = Some m2 ->
  let run1 := AverageMeter.all_reduce (others_of r1 (map contribution world)) m1 in
  let run2 := AverageMeter.all_reduce (others_of r2 (map contribution world)) m2 in
  fst run1 = fst run2 /\
  AverageMeter.sum (snd run1) == AverageMeter.sum (snd run2) /\
  AverageMeter.count (snd run1) == AverageMeter.count (snd run2) /\
  (fst run1 = Ok tt -> AverageMeter.avg (snd run1) == AverageMeter.avg (snd run2)).
Proof.
  intros H1 H2 run1 run2.
  destruct (all_reduce_on_world world r1 m1 H1) as (S1 & C1 & R1 & A1).
  destruct (all_reduce_on_world world r2 m2 H2) as (S2 & C2 & R2 & A2).
  fold run1 in S1, C1, R1, A1. fold run2 in S2, C2, R2, A2.
  split; [now rewrite R1, R2 |].
  split; [now rewrite S1, S2 |]. split; [now rewrite C1, C2 |].
  intros Hok. rewrite R1 in Hok.
  destruct (Qeq_bool (fl32 (world_count (map contribution world))) 0) eqn:E;
    [discriminate |].
  assert (Hne : ~ fl32 (world_count (map contribution world)) == 0).
  { intros H. apply Qeq_eq_bool in H. congruence. }
  now rewrite (A1 Hne), (A2 Hne).
Qed.

Lemma all_reduce_ranks_agree_witness :
  let a := meter_after "Acc@1" ":6.2f" AVERAGE Tensor32 [(80, 4%Z)] in
  let b := meter_after "Acc@1" ":6.2f" AVERAGE Tensor32 [(100, 2%Z); (60, 2%Z)] in
  let run1 := AverageMeter.all_reduce (others_of 0 (map contribution [a; b])) a in
  let run2 := AverageMeter.all_reduce (others_of 1 (map contribution [a; b])) b in
  fst run1 = fst run2 /\
  AverageMeter.sum (snd run1) == AverageMeter.sum (snd run2) /\
  AverageMeter.count (snd run1) == AverageMeter.count (snd run2) /\
  (fst run1 = Ok tt -> AverageMeter.avg (snd run1) == AverageMeter.avg (snd run2)).
Proof.
  apply (all_reduce_ranks_agree
           [meter_after "Acc@1" ":6.2f" AVERAGE Tensor32 [(80, 4%Z)];
            meter_after "Acc@1" ":6.2f" AVERAGE Tensor32 [(100, 2%Z); (60, 2%Z)]] 0 1);
    reflexivity.
Defined.

(** ** [accuracy]: range, errors, extremes, rescaled scores *)

Lemma filter_length_le {A : Type} (f : A -> bool) (l : list A) :
  (length (filter f l) <= length l)%nat.
Proof. induction l as [| a l IH]; simpl; [lia |]. destruct (f a); simpl; lia. Qed.

Lemma topk_hits_le (k : nat) (output : tensor2 Q) (target : list Z) :
  (topk_hits k output target <= length target)%nat.
Proof.
  unfold topk_hits.
  pose proof (filter_length_le
                (fun st => among_k_highest k (fst st) (snd st)) (combine output target)).
  rewrite length_combine in H. lia.
Qed.

(** X5. For an output with one row per sample, a non-empty target with one
    label per sample, at most [2^24] samples and a non-empty [topk] whose
    entries are at most the number of classes, every value [accuracy]
    returns is a percentage up to the rounding of [float32]: it lies
    between 0 and [100 * (1 + 2^-22)]. *)
Theorem accuracy_between_0_and_100
    (output : tensor2 Q) (target : list Z) (topk : list nat) :
  topk <> [] -> target <> [] -> length target = length output ->
  (Z.of_nat (length target) <= 2 ^ 24)%Z ->
  topk_fits output topk ->
  exists res,
    accuracy output target topk = Ok res /\
    Forall (fun v => 0 <= v <= 100 * (1 + 2 ^ (-22))) res.
Proof.
  intros Htopk Htarget Hlen _ Hfits.
  eexists. split; [now apply accuracy_value |].
  apply Forall_map, Forall_forall. intros k _.
  pose proof (topk_hits_le k output target) as Hle.
  assert (Hb : (0 < length target)%nat).
  { destruct target; [congruence | simpl; lia]. }
  split; [apply float32_percentage_nonneg |].
  eapply Qle_trans; [apply (float32_percentage_mono _ _ _ Hle) |].
  destruct (float32_percentage_within (length target) (length target) Hb) as [_ U].
  eapply Qle_trans; [exact U |]. apply Qle_lteq. right.
  assert (Hnz : ~ inject_Z (Z.of_nat (length target)) == 0)
    by now apply inject_length_nonzero.
  field. exact Hnz.
Qed.

Lemma accuracy_between_0_and_100_witness :
  exists res,
    accuracy [[1 # 10; 7 # 10; 2 # 10]; [5 # 10; 3 # 10; 2 # 10]] [2%Z; 0%Z] [1; 2]%nat
    = Ok res /\ Forall (fun v => 0 <= v <= 100 * (1 + 2 ^ (-22))) res.
Proof.
  apply (accuracy_between_0_and_100
           [[1 # 10; 7 # 10; 2 # 10]; [5 # 10; 3 # 10; 2 # 10]] [2%Z; 0%Z] [1; 2]%nat).
  - discriminate.
  - discriminate.
  - reflexivity.
  - vm_compute. discriminate.
  - repeat constructor.
Defined.

(** The [float32] of [100 / 45] lies above the quotient: a batch of 45
    samples, all of them classified correctly, has an accuracy above 100. *)
Example accuracy_can_exceed_100 :
  exists v,
    accuracy (repeat [1; 0] 45) (repeat 0%Z 45) [1%nat] = Ok [v] /\ 100 < v.
Proof. eexists. split; vm_compute; reflexivity. Qed.

(** A single label broadcast against several samples is outside that
    precondition, and the value is then no percentage. *)
Example accuracy_broadcast_exceeds_100 :
  exists v, accuracy [[1; 0]; [1; 0]; [1; 0]] [0%Z] [1%nat] = Ok [v] /\ v == 300.
Proof. eexists. split; vm_compute; reflexivity. Qed.

Lemma topk_indices_raises (k : nat) (output : tensor2 Q) :
  Exists (fun row => (length row < k)%nat) output ->
  topk_indices k output = Raise RuntimeError.
Proof.
  unfold topk_indices. induction output as [| row rest IH]; intros H.
  - inversion H.
  - cbn [mapM]. unfold topk_row at 1.
    destruct (Nat.leb_spec k (length row)) as [Hle | Hlt]; [| reflexivity].
    cbn [rbind]. rewrite IH; [reflexivity |].
    inversion H as [? ? Hh | ? ? Ht]; subst; [lia | exact Ht].
Qed.

Lemma topk_overflows_max (output : tensor2 Q) (topk : list nat) (maxk : nat) :
  py_max topk = Ok maxk -> topk_overflows output topk ->
  Exists (fun row => (length row < maxk)%nat) output.
Proof.
  intros Hmax H. destruct (py_max_spec topk maxk Hmax) as [_ Hle].
  rewrite Forall_forall in Hle.
  unfold topk_overflows in H. rewrite Exists_exists in *.
  destruct H as (row & Hrow & Hk). rewrite Exists_exists in Hk.
  destruct Hk as (k & Hk & Hlt). exists row. split; [exact Hrow |].
  specialize (Hle k Hk). lia.
Qed.

Lemma topk_fits_max (output : tensor2 Q) (topk : list nat) (maxk : nat) :
  py_max topk = Ok maxk -> topk_fits output topk ->
  Forall (fun row => (maxk <= length row)%nat) output.
Proof.
  intros Hmax. destruct (py_max_spec topk maxk Hmax) as [Hin _].
  apply Forall_impl. intros row Hrow. rewrite Forall_forall in Hrow. now apply Hrow.
Qed.

(** X6. The errors of [accuracy].  An empty [topk] raises [ValueError].
    Otherwise a [k] larger than the number of classes raises [RuntimeError];
    otherwise a target whose length is neither the number of samples nor 1
    raises [RuntimeError]; and on a batch of at least one sample, with every
    [k] at most the number of classes and a non-empty target of the length
    of the batch or of length 1, [accuracy] returns one value per entry of
    [topk]. *)
Theorem accuracy_error_behaviour
    (output : tensor2 Q) (target : list Z) (topk : list nat) :
  (topk = [] -> accuracy output target topk = Raise ValueError) /\
  (topk <> [] -> topk_overflows output topk ->
   accuracy output target topk = Raise RuntimeError) /\
  (topk <> [] -> topk_fits output topk ->
   length target <> length output -> length target <> 1%nat ->
   accuracy output target topk = Raise RuntimeError) /\
  (topk <> [] -> output <> [] -> topk_fits output topk -> target <> [] ->
   length target = length output \/ length target = 1%nat ->
   exists res, accuracy output target topk = Ok res /\ length res = length topk).
Proof.
  split; [intros ->; reflexivity |].
  split; [| split].
  - intros Htopk Hover. unfold accuracy.
    destruct (py_max_ok topk Htopk) as [maxk Hmax]. rewrite Hmax. cbn [rbind].
    now rewrite (topk_indices_raises maxk output (topk_overflows_max _ _ _ Hmax Hover)).
  - intros Htopk Hfits Hlen H1. unfold accuracy.
    destruct (py_max_ok topk Htopk) as [maxk Hmax]. rewrite Hmax. cbn [rbind].
    rewrite (topk_indices_ok maxk output (topk_fits_max _ _ _ Hmax Hfits)). cbn [rbind].
    unfold expand_as. rewrite (proj2 (Nat.eqb_neq _ _) Hlen).
    destruct target as [| t [| t' ts]]; [reflexivity | now contradiction H1 | reflexivity].
  - intros Htopk _ Hfits Htarget Hshape. unfold accuracy.
    destruct (py_max_ok topk Htopk) as [maxk Hmax]. rewrite Hmax. cbn [rbind].
    rewrite (topk_indices_ok maxk output (topk_fits_max _ _ _ Hmax Hfits)). cbn [rbind].
    assert (Hexp : exists expanded,
               expand_as target maxk (length output) = Ok expanded).
    { unfold expand_as. destruct (length target =? length output)%nat eqn:E;
        [now eexists |].
      destruct Hshape as [H | H]; [apply Nat.eqb_neq in E; contradiction |].
      destruct target as [| t [| t' ts]]; try discriminate. now eexists. }
    destruct Hexp as [expanded ->]. cbn [rbind].
    eexists. split.
    + apply mapM_ok. intros k _.
      rewrite py_truediv_ok by (now apply batch_size_nonzero). reflexivity.
    + apply length_map.
Qed.

Lemma accuracy_error_behaviour_witness :
  accuracy [[1; 2; 3]] [0%Z] [] = Raise ValueError /\
  accuracy [[1; 2; 3]] [0%Z] [1; 5]%nat = Raise RuntimeError /\
  accuracy [[1; 2; 3]; [3; 2; 1]] [0%Z; 1%Z; 2%Z] [1; 2]%nat = Raise RuntimeError /\
  (exists res, accuracy [[1; 2; 3]; [3; 2; 1]] [0%Z] [1; 2]%nat = Ok res /\
               length res = 2%nat).
Proof.
  split; [| split; [| split]].
  - destruct (accuracy_error_behaviour [[1; 2; 3]] [0%Z] []) as (H & _).
    apply H. reflexivity.
  - destruct (accuracy_error_behaviour [[1; 2; 3]] [0%Z] [1; 5]%nat) as (_ & H & _).
    apply H; [discriminate |].
    constructor. apply Exists_cons_tl. constructor. simpl. lia.
  - destruct (accuracy_error_behaviour [[1; 2; 3]; [3; 2; 1]] [0%Z; 1%Z; 2%Z] [1; 2]%nat)
      as (_ & _ & H & _).
    apply H; [discriminate | repeat constructor | simpl; lia | simpl; lia].
  - destruct (accuracy_error_behaviour [[1; 2; 3]; [3; 2; 1]] [0%Z] [1; 2]%nat)
      as (_ & _ & _ & H).
    apply H; [discriminate | discriminate | repeat constructor | discriminate |].
    now right.
Defined.

Lemma filter_length_lt {A : Type} (f : A -> bool) (l : list A) (x : A) :
  In x l -> f x = false -> (length (filter f l) < length l)%nat.
Proof.
  induction l as [| a l IH]; simpl; [tauto |].
  intros [-> | Hin] Hx.
  - rewrite Hx. pose proof (filter_length_le f l). lia.
  - specialize (IH Hin Hx). destruct (f a); simpl; lia.
Qed.

(** A class of the row has fewer classes ahead of it than the row has
    classes. *)
Lemma rank_lt_length (row : list Q) (i : nat) :
  (i < length row)%nat -> (rank row i < length row)%nat.
Proof.
  intros Hi. unfold rank.
  rewrite <- (length_seq (length row) 0) at 2.
  apply (filter_length_lt _ _ i); [apply in_seq; lia | apply before_irrefl].
Qed.

Lemma topk_hits_0 (output : tensor2 Q) (target : list Z) :
  topk_hits 0 output target = 0%nat.
Proof.
  unfold topk_hits. rewrite filter_none; [reflexivity |].
  intros [row t] _. unfold among_k_highest. cbn [fst snd].
  now rewrite andb_false_r.
Qed.

Lemma topk_hits_all (k : nat) (output : tensor2 Q) (target : list Z) :
  length target = length output ->
  (forall row t, In (row, t) (combine output target) ->
                 (0 <= t < Z.of_nat (length row))%Z /\ (length row <= k)%nat) ->
  topk_hits k output target = length target.
Proof.
  intros Hlen Hall. unfold topk_hits.
  rewrite forallb_filter_id.
  - rewrite length_combine. lia.
  - apply forallb_forall. intros [row t] Hin. cbn [fst snd].
    destruct (Hall row t Hin) as [Ht Hk]. unfold among_k_highest.
    rewrite (proj2 (Z.leb_le _ _)) by lia. rewrite (proj2 (Z.ltb_lt _ _)) by lia.
    cbn [andb]. apply Nat.ltb_lt.
    pose proof (rank_lt_length row (Z.to_nat t)). lia.
Qed.

Lemma float32_percentage_0 (batch : nat) : float32_percentage 0 batch == 0.
Proof.
  unfold float32_percentage. change (fl32 (inject_Z (Z.of_nat 0))) with 0.
  rewrite (fl32_comp _ 0) by ring. reflexivity.
Qed.

(** X7. The two extremes of [k], under the shape preconditions of
    [accuracy] and for at most [2^24] samples.  Top-0 accuracy is 0.  When every label is a class index of
    its row and [k] is the number of classes, every sample counts: top-k
    accuracy is the percentage of the whole batch as [float32] computes it,
    within a relative [2^-22] of 100. *)
Theorem accuracy_at_the_extremes
    (output : tensor2 Q) (target : list Z) (topk : list nat) :
  topk <> [] -> target <> [] -> length target = length output ->
  (Z.of_nat (length target) <= 2 ^ 24)%Z ->
  topk_fits output topk ->
  exists res,
    accuracy output target topk = Ok res /\
    forall i k v,
      nth_error topk i = Some k -> nth_error res i = Some v ->
      (k = 0%nat -> v == 0) /\
      ((forall row t, In (row, t) (combine output target) ->
                      (0 <= t < Z.of_nat (length row))%Z /\ (length row <= k)%nat) ->
       v = float32_percentage (length target) (length target) /\
       Qabs (v - 100) <= 100 * 2 ^ (-22)).
Proof.
  intros Htopk Htarget Hlen _ Hfits.
  eexists. split; [now apply accuracy_value |].
  intros i k v Hk Hv. rewrite nth_error_map, Hk in Hv. cbn in Hv.
  injection Hv as <-.
  pose proof (inject_length_nonzero target Htarget) as Hb.
  split.
  - intros ->. rewrite topk_hits_0. apply float32_percentage_0.
  - intros Hall. rewrite (topk_hits_all k output target Hlen Hall).
    split; [reflexivity |].
    assert (Hpos : (0 < length target)%nat).
    { destruct target; [congruence | simpl; lia]. }
    pose proof (float32_percentage_error (length target) (length target) Hpos) as He.
    cbv zeta in He.
    assert (E : 100 * (inject_Z (Z.of_nat (length target))
                       / inject_Z (Z.of_nat (length target))) == 100)
      by (field; exact Hb).
    now rewrite E in He.
Qed.

Lemma accuracy_at_the_extremes_witness :
  exists v0 v3,
    accuracy [[1 # 10; 7 # 10; 2 # 10]; [5 # 10; 3 # 10; 2 # 10]] [2%Z; 0%Z] [0; 3]%nat
    = Ok [v0; v3] /\ v0 == 0 /\ v3 == 100.
Proof.
  destruct (accuracy_at_the_extremes
              [[1 # 10; 7 # 10; 2 # 10]; [5 # 10; 3 # 10; 2 # 10]] [2%Z; 0%Z] [0; 3]%nat)
    as (res & Hres & Hext).
  - discriminate.
  - discriminate.
  - reflexivity.
  - vm_compute. discriminate.
  - repeat constructor.
  - vm_compute in Hres. injection Hres as <-.
    do 2 eexists. split; [reflexivity |]. split.
    + apply (Hext 0%nat 0%nat); reflexivity.
    + reflexivity.
Defined.

(** The [float32] of [100 / 97] lies below the quotient: with 97 samples,
    top-k accuracy over all the classes falls short of 100. *)
Example accuracy_of_all_classes_below_100 :
  exists v,
    accuracy (repeat [1; 0] 97) (repeat 0%Z 97) [2%nat] = Ok [v] /\ v < 100.
Proof. eexists. split; vm_compute; reflexivity. Qed.

(** *** Scores enter [accuracy] through their order only *)

Section OrderPreserving.

Variable f : Q -> Q.
Hypothesis f_order : forall a b, (f a ?= f b) = (a ?= b).

Lemma score_map (row : list Q) (j : nat) :
  (j < length row)%nat -> score (map f row) j = f (score row j).
Proof.
  intros Hj. unfold score.
  rewrite (nth_indep (map f row) 0 (f 0)) by (now rewrite length_map).
  apply map_nth.
Qed.

Lemma before_map (row : list Q) (j i : nat) :
  (j < length row)%nat -> (i < length row)%nat ->
  before (map f row) j i = before row j i.
Proof.
  intros Hj Hi. unfold before. now rewrite !score_map, f_order.
Qed.

Lemma insert_idx_map (row : list Q) (i : nat) (l : list nat) :
  (i < length row)%nat -> Forall (fun j => (j < length row)%nat) l ->
  insert_idx (map f row) i l = insert_idx row i l.
Proof.
  intros Hi. induction 1 as [| j l Hj _ IH]; cbn [insert_idx]; [reflexivity |].
  rewrite before_map by assumption. now rewrite IH.
Qed.

Lemma fold_insert_map (row : list Q) (l : list nat) :
  Forall (fun j => (j < length row)%nat) l ->
  fold_right (insert_idx (map f row)) [] l = fold_right (insert_idx row) [] l.
Proof.
  induction 1 as [| i l Hi Hl IH]; cbn [fold_right]; [reflexivity |].
  rewrite IH. apply insert_idx_map; [exact Hi |].
  clear IH. induction Hl as [| j l Hj _ IHl]; cbn [fold_right]; [constructor |].
  apply (Permutation_Forall (Permutation_sym (insert_idx_perm row j _))).
  now constructor.
Qed.

Lemma argsort_desc_map (row : list Q) :
  argsort_desc (map f row) = argsort_desc row.
Proof.
  unfold argsort_desc. rewrite length_map. apply fold_insert_map.
  apply Forall_forall. intros j Hj. apply in_seq in Hj. lia.
Qed.

Lemma topk_indices_map (k : nat) (output : tensor2 Q) :
  topk_indices k (map (map f) output) = topk_indices k output.
Proof.
  unfold topk_indices. induction output as [| row rest IH]; cbn [map mapM];
    [reflexivity |].
  unfold topk_row at 1 3. now rewrite length_map, argsort_desc_map, IH.
Qed.

Lemma accuracy_map (output : tensor2 Q) (target : list Z) (topk : list nat) :
  accuracy (map (map f) output) target topk = accuracy output target topk.
Proof.
  unfold accuracy. destruct (py_max topk) as [maxk | e]; cbn [rbind]; [| reflexivity].
  now rewrite topk_indices_map, length_map.
Qed.

End OrderPreserving.

Lemma affine_preserves_order (s c a b : Q) :
  0 < s -> (s * a + c ?= s * b + c) = (a ?= b).
Proof.
  intros Hs.
  destruct (Qcompare_spec a b) as [E | L | G].
  - apply (proj1 (Qeq_alt _ _)). rewrite E. reflexivity.
  - apply (proj1 (Qlt_alt _ _)). apply (Qmult_lt_l _ _ _ Hs) in L. lra.
  - apply (proj1 (Qgt_alt _ _)). apply (Qmult_lt_l _ _ _ Hs) in G. lra.
Qed.

(** X8. [accuracy] depends on the scores only through their order within
    each row: rescaling every score by a positive factor [s] and shifting it
    by [c] (a temperature, a bias) changes neither the values returned nor
    the errors raised. *)
Theorem accuracy_unchanged_by_rescaling
    (output : tensor2 Q) (target : list Z) (topk : list nat) (s c : Q) :
  0 < s ->
  accuracy (map (map (fun x => s * x + c)) output) target topk
  = accuracy output target topk.
Proof.
  intros Hs. apply accuracy_map. intros a b. now apply affine_preserves_order.
Qed.

Lemma accuracy_unchanged_by_rescaling_witness :
  accuracy (map (map (fun x => 10 * x + (1 # 2)))
                [[1 # 10; 7 # 10; 2 # 10]; [5 # 10; 3 # 10; 2 # 10]])
           [2%Z; 0%Z] [1; 2]%nat
  = accuracy [[1 # 10; 7 # 10; 2 # 10]; [5 # 10; 3 # 10; 2 # 10]] [2%Z; 0%Z] [1; 2]%nat.
Proof.
  apply (accuracy_unchanged_by_rescaling
           [[1 # 10; 7 # 10; 2 # 10]; [5 # 10; 3 # 10; 2 # 10]] [2%Z; 0%Z] [1; 2]%nat
           10 (1 # 2)).
  reflexivity.
Defined.

(** ** The loops, batch by batch *)

(** X9. [run_validate] runs the model on exactly the batches its loop header
    admits, in order, logging each forward pass followed by its iteration
    line and nothing else before the closing report: on the first
    [min(num_iter, number of batches)] batches when [num_iter >= 0], on
    every batch when [num_iter] is negative.  The meter is assumed in step
    with the log on entry, as it is at both calls in [validate]. *)
Theorem run_validate_runs_exactly_the_admitted_batches {Model : Type} (args : Args)
    (loader : list observation) (base_progress : Z) (s : validate_state Model) :
  tracks (va_batch_time s) (measured (num_warmup args) (va_out s)) ->
  let s' := snd (run_validate args loader base_progress s) in
  (exists tail,
      va_out s' = va_out s ++ loop_log (va_model s) 0 (executed (num_iter args) loader)
                        ++ tail /\
      (tail = [] \/ exists l p, tail = [Printed (Latency l); Printed (Throughput p)])) /\
  (Z.of_nat (forward_count (va_out s'))
   = Z.of_nat (forward_count (va_out s))
     + (if (num_iter args <? 0)%Z then Z.of_nat (length loader)
        else Z.min (num_iter args) (Z.of_nat (length loader))))%Z.
Proof.
  intros Ht s'. pose proof (run_validate_log args loader base_progress s Ht) as Hlog.
  fold s' in Hlog. split; [exact Hlog |].
  destruct Hlog as (tail & -> & Htail).
  rewrite !forward_count_app, forward_count_loop_log, <- executed_length.
  destruct Htail as [-> | (l & p & ->)]; cbn; lia.
Qed.

Lemma run_validate_runs_exactly_the_admitted_batches_witness :
  forward_count
    (va_out (snd (run_validate (sample_args 2 1)
                               [sample_batch 0 1; sample_batch 3 2; sample_batch 1 3]
                               0 (validate_init tt))))
  = 2%nat.
Proof.
  destruct (run_validate_runs_exactly_the_admitted_batches
              (sample_args 2 1)
              [sample_batch 0 1; sample_batch 3 2; sample_batch 1 3] 0
              (validate_init tt)) as [_ Hcount].
  - reflexivity.
  - cbv zeta in Hcount. apply Nat2Z.inj. rewrite Hcount. reflexivity.
Defined.

(** X10. After [run_validate], [batch_time] has been fed exactly the
    durations of the batches the loop ran from position [num_warmup] on:
    with [ran] the batches admitted by the loop header, it is the meter its
    constructor built, fed by [update] the durations it held on entry
    followed by the durations of [ran[num_warmup:]], in order. *)
Theorem run_validate_times_the_batches_after_warmup {Model : Type} (args : Args)
    (loader : list observation) (base_progress : Z) (s : validate_state Model) :
  tracks (va_batch_time s) (measured (num_warmup args) (va_out s)) ->
  let s' := snd (run_validate args loader base_progress s) in
  let ran := executed (num_iter args) loader in
  tracks (va_batch_time s')
         (measured (num_warmup args) (va_out s)
            ++ map duration (skipn (Z.to_nat (num_warmup args)) ran)).
Proof.
  intros Ht s' ran.
  pose proof (run_validate_tracks Model args loader base_progress s Ht) as Ht'.
  fold s' in Ht'.
  destruct (run_validate_log args loader base_progress s Ht) as (tail & Ho & Htail).
  fold s' in Ho. rewrite Ho in Ht'.
  rewrite !measured_app, measured_loop_log, Z.sub_0_r in Ht'.
  replace (measured (num_warmup args) tail) with (@nil Q) in Ht'
    by (destruct Htail as [-> | (l & p & ->)]; reflexivity).
  now rewrite app_nil_r in Ht'.
Qed.

Lemma run_validate_times_the_batches_after_warmup_witness :
  AverageMeter.sum
    (va_batch_time
       (snd (run_validate (sample_args 3 1)
                          [sample_batch 0 1; sample_batch 3 2; sample_batch 1 4;
                           sample_batch 2 8]
                          0 (validate_init tt))))
  == 6.
Proof.
  pose proof (run_validate_times_the_batches_after_warmup
                (sample_args 3 1)
                [sample_batch 0 1; sample_batch 3 2; sample_batch 1 4; sample_batch 2 8] 0
                (validate_init tt) eq_refl) as Hs.
  cbv zeta in Hs. rewrite Hs. vm_compute. reflexivity.
Defined.

(** *** [train], batch by batch *)

Lemma progress_meters {Model : Type} (args : Args) (i : Z) (s : train_state Model) :
  let r := (r <- py_mod i (print_freq args) ;;
            when (r =? 0)%Z (tr_emit (Printed (Progress (i + 1)%Z))))%py s in
  tr_data_time (snd r) = tr_data_time s /\ tr_losses (snd r) = tr_losses s /\
  tr_top1 (snd r) = tr_top1 s /\ tr_top5 (snd r) = tr_top5 s.
Proof.
  cbv zeta. unfold bind, py_mod, when, tr_emit, modify, ret, raise.
  destruct (print_freq args =? 0)%Z; [repeat split |].
  destruct (i mod print_freq args =? 0)%Z; repeat split.
Qed.

(** What an iteration of [train] does to the meters other than
    [batch_time]: [data_time] is never touched; a raise of [accuracy] stops
    the iteration right after the forward pass; an iteration that completes
    has fed [losses], [top1] and [top5] once each. *)
Lemma train_step_meters {Model : Type} (args : Args) (model : Model) (i : Z)
    (b : observation) (s : train_state Model) :
  let r := train_step args model i b s in
  tr_data_time (snd r) = tr_data_time s /\
  (forall e, accuracy (output b) (target b) [1; 5]%nat = Raise e ->
             r = (Raise e,
                  mk_train (tr_batch_time s) (tr_data_time s) (tr_losses s)
                           (tr_top1 s) (tr_top5 s) (tr_out s ++ [Forward model i]))) /\
  (fst r = Ok tt ->
   exists acc,
     accuracy (output b) (target b) [1; 5]%nat = Ok acc /\
     AverageMeter.update PyFloat (loss_item b) (n_images b) (tr_losses s)
     = (Ok tt, tr_losses (snd r)) /\
     AverageMeter.update Tensor32 (nth 0 acc 0) (n_images b) (tr_top1 s)
     = (Ok tt, tr_top1 (snd r)) /\
     AverageMeter.update Tensor32 (nth 1 acc 0) (n_images b) (tr_top5 s)
     = (Ok tt, tr_top5 (snd r))).
Proof.
  cbv zeta. destruct s as [bt dt lo t1 t5 out]. unfold train_step.
  set (progress := (r <- py_mod i (print_freq args) ;;
                    when (r =? 0)%Z (tr_emit (Printed (Progress (i + 1)%Z))))%py).
  cbv [bind tr_emit modify lift_result when ret raise get zoom
       tr_losses tr_top1 tr_top5 tr_batch_time tr_out tr_data_time
       tr_set_losses tr_set_top1 tr_set_top5 tr_set_batch_time].
  destruct (accuracy (output b) (target b) [1%nat; 5%nat]) as [acc | e0].
  2:{ cbn [fst snd]. split; [reflexivity |]. split; [| discriminate].
      now intros e [= <-]. }
  destruct (AverageMeter.update PyFloat (loss_item b) (n_images b) lo) as [[[] | e1] lo'].
  2:{ cbn [fst snd]. split; [reflexivity |]. split; discriminate. }
  destruct (AverageMeter.update Tensor32 (nth 0 acc 0) (n_images b) t1) as [[[] | e1] t1'] eqn:E1.
  2:{ cbn [fst snd]. split; [reflexivity |]. split; discriminate. }
  destruct (AverageMeter.update Tensor32 (nth 1 acc 0) (n_images b) t5) as [[[] | e1] t5'] eqn:E5.
  2:{ cbn [fst snd]. split; [reflexivity |]. split; discriminate. }
  assert (Htail : forall bt' : AverageMeter.t,
             let r := progress (mk_train bt' dt lo' t1' t5'
                                  ((out ++ [Forward model i])
                                     ++ [Printed (IterationTime i (duration b))])) in
             tr_data_time (snd r) = dt /\ tr_losses (snd r) = lo' /\
             tr_top1 (snd r) = t1' /\ tr_top5 (snd r) = t5').
  { intros bt'. apply (progress_meters args i). }
  split; [| split; [discriminate |]].
  - destruct (num_warmup args <=? i)%Z.
    + destruct (AverageMeter.update PyFloat (duration b) 1 bt) as [[[] | e1] bt'];
        [apply Htail | reflexivity].
    + apply Htail.
  - intros Hok. exists acc. split; [reflexivity |].
    destruct (num_warmup args <=? i)%Z.
    + destruct (AverageMeter.update PyFloat (duration b) 1 bt) as [[[] | e1] bt'];
        [| discriminate].
      destruct (Htail bt') as (_ & H1 & H2 & H3).
      split; [f_equal; symmetry; exact H1 |].
      rewrite E1, E5.
      split; [f_equal; symmetry; exact H2 | f_equal; symmetry; exact H3].
    + destruct (Htail bt) as (_ & H1 & H2 & H3).
      split; [f_equal; symmetry; exact H1 |].
      rewrite E1, E5.
      split; [f_equal; symmetry; exact H2 | f_equal; symmetry; exact H3].
Qed.

Lemma accuracy_top5_needs_five_classes (output : tensor2 Q) (target : list Z) :
  Exists (fun row => (length row < 5)%nat) output ->
  accuracy output target [1; 5]%nat = Raise RuntimeError.
Proof.
  intros H. unfold accuracy. cbn [py_max fold_left Nat.max rbind].
  now rewrite topk_indices_raises.
Qed.

(** X11. [train] asks [accuracy] for top-1 and top-5.  When the first batch
    holds a sample with fewer than five class scores and the loop is entered
    ([num_iter] is not 0), [train] raises [RuntimeError] right after the
    first forward pass: no meter is updated and nothing is reported. *)
Theorem train_needs_five_classes {Model : Type} (args : Args) (model : Model)
    (b : observation) (rest : list observation) (loader_batch_size : Z) :
  num_iter args <> 0%Z ->
  Exists (fun row => (length row < 5)%nat) (output b) ->
  train args model (b :: rest) loader_batch_size
  = (Raise RuntimeError,
     mk_train (AverageMeter.init "Time" ":6.3f" AVERAGE)
              (AverageMeter.init "Data" ":6.3f" AVERAGE)
              (AverageMeter.init "Loss" ":.4e" AVERAGE)
              (AverageMeter.init "Acc@1" ":6.2f" AVERAGE)
              (AverageMeter.init "Acc@5" ":6.2f" AVERAGE)
              [Forward model 0%Z]).
Proof.
  intros Hn Hrow. rewrite train_run. unfold train_loop.
  cbn [for_enumerate]. rewrite (proj2 (Z.eqb_neq 0 (num_iter args))) by congruence.
  unfold bind at 1.
  destruct (train_step_meters args model 0%Z b train_init) as (_ & Hraise & _).
  rewrite (Hraise RuntimeError (accuracy_top5_needs_five_classes _ _ Hrow)).
  reflexivity.
Qed.

Lemma train_needs_five_classes_witness :
  fst (train (sample_args 2 0) tt
             [mk_obs 1 [[3; 1; 2]] [0%Z] (1 # 2) 1; sample_batch 0 1] 1)
  = Raise RuntimeError.
Proof.
  rewrite (train_needs_five_classes (sample_args 2 0) tt
             (mk_obs 1 [[3; 1; 2]] [0%Z] (1 # 2) 1) [sample_batch 0 1] 1).
  - reflexivity.
  - discriminate.
  - constructor. simpl. lia.
Defined.

Lemma updates_cons_ok (k : kind) (v : Q) (n : Z) (rest : list (Q * Z))
    (m m1 : AverageMeter.t) :
  AverageMeter.update k v n m = (Ok tt, m1) ->
  AverageMeter.updates k ((v, n) :: rest) m = AverageMeter.updates k rest m1.
Proof. intros H. cbn [AverageMeter.updates]. unfold bind. now rewrite H. Qed.

(** A loop of [train] that completes has run the model once on every batch
    its header admits and has fed [losses], [top1] and [top5] once per
    batch, in order. *)
Lemma train_loop_on_success {Model : Type} (args : Args) (model : Model)
    (loader : list observation) :
  forall i (s : train_state Model),
    fst (train_loop args model i loader s) = Ok tt ->
    let ran := executed_from (num_iter args) i loader in
    let s' := snd (train_loop args model i loader s) in
    tr_losses s'
    = snd (AverageMeter.updates PyFloat (map (fun b => (loss_item b, n_images b)) ran)
                                (tr_losses s)) /\
    tr_top1 s'
    = snd (AverageMeter.updates Tensor32 (map (fun b => (acc_of 0 b, n_images b)) ran)
                                (tr_top1 s)) /\
    tr_top5 s'
    = snd (AverageMeter.updates Tensor32 (map (fun b => (acc_of 1 b, n_images b)) ran)
                                (tr_top5 s)) /\
    forward_count (tr_out s') = (forward_count (tr_out s) + length ran)%nat.
Proof.
  induction loader as [| b rest IH]; intros i s Hok; cbv zeta.
  - unfold executed_from. destruct (num_iter args <? i)%Z; rewrite ?firstn_nil;
      cbn; repeat split; lia.
  - rewrite executed_from_cons. unfold train_loop in *.
    cbn [for_enumerate] in *. unfold bind, ret in *.
    destruct (i =? num_iter args)%Z.
    + cbn. repeat split; lia.
    + destruct (train_step_meters args model i b s) as (_ & _ & Hstep).
      pose proof (effect_forward_count Model _ _ _ _ _ _ _ _
                    (train_step_effect Model args model i b s)) as Hfc.
      destruct (train_step args model i b s) as [[[] | e] s1]; cbn [fst snd] in *;
        [| discriminate].
      destruct (Hstep eq_refl) as (acc & Hacc & Hl & H1 & H5).
      destruct (IH (i + 1)%Z s1 Hok) as (IHl & IH1 & IH5 & IHf).
      cbv zeta in IHl, IH1, IH5, IHf. cbn [map length].
      unfold acc_of at 1 3. rewrite Hacc.
      rewrite (updates_cons_ok _ _ _ _ _ _ Hl), (updates_cons_ok _ _ _ _ _ _ H1),
        (updates_cons_ok _ _ _ _ _ _ H5).
      repeat split; try assumption. rewrite IHf, Hfc. lia.
Qed.

(** X12. When [train] returns, it has run the model on exactly the batches
    its loop header admits ([ran]: the first [num_iter] batches, or all of
    them when [num_iter] is negative), and its meters are those of fresh
    meters fed once per batch of [ran], in order: [losses] with the loss (a
    Python float) and [top1], [top5] with the top-1 and top-5 accuracy of
    the batch ([float32] tensors), each weighted by [images.size(0)]. *)
Theorem train_meters_on_success {Model : Type} (args : Args) (model : Model)
    (train_loader : list observation) (loader_batch_size : Z) :
  fst (train args model train_loader loader_batch_size) = Ok tt ->
  let ran := executed (num_iter args) train_loader in
  let s' := snd (train args model train_loader loader_batch_size) in
  tr_losses s'
  = meter_after "Loss" ":.4e" AVERAGE PyFloat
                (map (fun b => (loss_item b, n_images b)) ran) /\
  tr_top1 s'
  = meter_after "Acc@1" ":6.2f" AVERAGE Tensor32
                (map (fun b => (acc_of 0 b, n_images b)) ran) /\
  tr_top5 s'
  = meter_after "Acc@5" ":6.2f" AVERAGE Tensor32
                (map (fun b => (acc_of 1 b, n_images b)) ran) /\
  forward_count (tr_out s') = length ran.
Proof.
  rewrite train_run. intros Hok. cbv zeta.
  pose proof (train_loop_on_success args model train_loader 0%Z train_init) as Hloop.
  rewrite executed_from_0 in Hloop.
  destruct (train_loop args model 0%Z train_loader train_init) as [[[] | e] s1];
    cbn [fst snd] in *; [| discriminate].
  destruct (Hloop eq_refl) as (Hl & H1 & H5 & Hf). clear Hloop.
  cbv zeta in Hok |- *.
  destruct (Qeq_bool (fl64 (inject_Z loader_batch_size)) 0); [discriminate |].
  destruct (Qeq_bool (AverageMeter.avg (tr_batch_time s1)) 0); [discriminate |].
  cbn [snd tr_losses tr_top1 tr_top5 tr_out].
  split; [exact Hl |]. split; [exact H1 |]. split; [exact H5 |].
  rewrite forward_count_app, Hf. cbn. lia.
Qed.

Lemma train_meters_on_success_witness :
  let s' := snd (train (sample_args 2 1) tt
                       [sample_batch 0 1; sample_batch 3 2; sample_batch 1 4] 4) in
  AverageMeter.avg (tr_top1 s') == 50 /\ forward_count (tr_out s') = 2%nat.
Proof.
  cbv zeta.
  destruct (train_meters_on_success (sample_args 2 1) tt
              [sample_batch 0 1; sample_batch 3 2; sample_batch 1 4] 4)
    as (_ & H1 & _ & Hf).
  - vm_compute. reflexivity.
  - cbv zeta in H1, Hf. split; [rewrite H1; vm_compute; reflexivity | exact Hf].
Defined.

Lemma update_tensor_state (v : Q) (n : Z) (m m1 : AverageMeter.t) :
  AverageMeter.update Tensor32 v n m = (Ok tt, m1) ->
  AverageMeter.sum m1 = fl32 (AverageMeter.sum m + fl32 (v * fl32 (inject_Z n))) /\
  AverageMeter.count m1 = AverageMeter.count m + inject_Z n /\
  AverageMeter.avg m1
  = (if Qeq_bool (AverageMeter.count m + inject_Z n) 0 then 0
     else fl32 (AverageMeter.sum m1 / fl32 (AverageMeter.count m1))).
Proof.
  rewrite AverageMeterFacts.update_run. cbv zeta.
  destruct (Qeq_bool (AverageMeter.count m + inject_Z n) 0) eqn:E;
    intros [= <-]; cbn; repeat split.
Qed.

(** Feeding two [float32] meters the same weight, and the first no larger
    a value, keeps them ordered: rounding is monotone. *)
Lemma meters_ordered_update (t1 t5 t1' t5' : AverageMeter.t) (a1 a5 : Q) (n : Z) :
  meters_ordered t1 t5 -> a1 <= a5 -> (0 <= n)%Z ->
  AverageMeter.update Tensor32 a1 n t1 = (Ok tt, t1') ->
  AverageMeter.update Tensor32 a5 n t5 = (Ok tt, t5') ->
  meters_ordered t1' t5'.
Proof.
  intros (Hc & Hpos & Hs & _) Ha Hn H1 H5.
  destruct (update_tensor_state _ _ _ _ H1) as (S1 & C1 & A1).
  destruct (update_tensor_state _ _ _ _ H5) as (S5 & C5 & A5).
  assert (Hn' : 0 <= inject_Z n) by (change 0 with (inject_Z 0); now rewrite <- Zle_Qle).
  assert (Hfn : 0 <= fl32 (inject_Z n)) by now apply (fl_nonneg Tensor32).
  assert (Hmul : fl32 (a1 * fl32 (inject_Z n)) <= fl32 (a5 * fl32 (inject_Z n))).
  { apply fl32_mono. now apply Qmult_le_compat_r. }
  assert (Hsum : AverageMeter.sum t1' <= AverageMeter.sum t5').
  { rewrite S1, S5. apply fl32_mono. lra. }
  assert (Hcount : AverageMeter.count t1' == AverageMeter.count t5').
  { rewrite C1, C5. now rewrite Hc. }
  unfold meters_ordered.
  split; [exact Hcount |]. split; [rewrite C1; lra |]. split; [exact Hsum |].
  rewrite A1, A5.
  destruct (Qeq_bool (AverageMeter.count t1 + inject_Z n) 0) eqn:E1;
    destruct (Qeq_bool (AverageMeter.count t5 + inject_Z n) 0) eqn:E5.
  - apply Qle_refl.
  - exfalso. apply Qeq_bool_eq in E1. rewrite Hc in E1. apply Qeq_eq_bool in E1.
    congruence.
  - exfalso. apply Qeq_bool_eq in E5. rewrite <- Hc in E5. apply Qeq_eq_bool in E5.
    congruence.
  - assert (Hne : ~ AverageMeter.count t1 + inject_Z n == 0).
    { intros H. apply Qeq_eq_bool in H. congruence. }
    assert (Hc1 : 0 < AverageMeter.count t1') by (rewrite C1; lra).
    rewrite <- (fl32_comp _ _ Hcount).
    apply fl32_mono. apply Qmult_le_compat_r; [exact Hsum |].
    apply Qlt_le_weak, Qinv_lt_0_compat, (fl_pos Tensor32), Hc1.
Qed.

Lemma accuracy_top1_le_top5 (b : observation) (acc : list Q) :
  accuracy (output b) (target b) [1; 5]%nat = Ok acc -> nth 0 acc 0 <= nth 1 acc 0.
Proof.
  intros Hacc.
  assert (Hlen : length acc = 2%nat).
  { pose proof Hacc as H. unfold accuracy in H.
    cbn [py_max fold_left Nat.max rbind] in H.
    destruct (topk_indices 5 (output b)); cbn [rbind] in H; [| discriminate].
    destruct (expand_as (target b) 5 (length (output b))); cbn [rbind] in H;
      [| discriminate].
    now apply mapM_length in H. }
  destruct acc as [| v1 [| v5 [| ? ?]]]; try discriminate.
  apply (accuracy_result_monotone _ _ _ _ Hacc 0%nat 1%nat 1%nat 5%nat);
    try reflexivity. lia.
Qed.

Lemma train_loop_meters_ordered {Model : Type} (args : Args) (model : Model)
    (loader : list observation) :
  Forall (fun b => (0 <= n_images b)%Z) loader ->
  forall i (s : train_state Model),
    meters_ordered (tr_top1 s) (tr_top5 s) ->
    fst (train_loop args model i loader s) = Ok tt ->
    meters_ordered (tr_top1 (snd (train_loop args model i loader s)))
                   (tr_top5 (snd (train_loop args model i loader s))).
Proof.
  induction 1 as [| b rest Hb _ IH]; intros i s Hs Hok; [exact Hs |].
  unfold train_loop in *. cbn [for_enumerate] in *. unfold bind, ret in *.
  destruct (i =? num_iter args)%Z; [exact Hs |].
  destruct (train_step_meters args model i b s) as (_ & _ & Hstep).
  destruct (train_step args model i b s) as [[[] | e] s1]; cbn [fst snd] in *;
    [| discriminate].
  destruct (Hstep eq_refl) as (acc & Hacc & _ & H1 & H5).
  apply IH; [| exact Hok].
  apply (meters_ordered_update _ _ _ _ _ _ _ Hs (accuracy_top1_le_top5 b acc Hacc) Hb
           H1 H5).
Qed.

(** X13. When [train] returns, the average top-1 accuracy it has accumulated
    is at most the average top-5 accuracy, provided no batch has a negative
    size. *)
Theorem train_top1_average_at_most_top5 {Model : Type} (args : Args) (model : Model)
    (train_loader : list observation) (loader_batch_size : Z) :
  Forall (fun b => (0 <= n_images b)%Z) train_loader ->
  fst (train args model train_loader loader_batch_size) = Ok tt ->
  let s' := snd (train args model train_loader loader_batch_size) in
  AverageMeter.avg (tr_top1 s') <= AverageMeter.avg (tr_top5 s').
Proof.
  intros Hn. rewrite train_run. intros Hok. cbv zeta.
  pose proof (train_loop_meters_ordered args model train_loader Hn 0%Z train_init)
    as Hloop.
  destruct (train_loop args model 0%Z train_loader train_init) as [[[] | e] s1];
    cbn [fst snd] in *; [| discriminate].
  assert (H0 : meters_ordered (tr_top1 (@train_init Model)) (tr_top5 (@train_init Model))).
  { unfold meters_ordered. cbn. repeat split; lra. }
  destruct (Hloop H0 eq_refl) as (_ & _ & _ & Ha).
  cbv zeta in Hok |- *.
  destruct (Qeq_bool (fl64 (inject_Z loader_batch_size)) 0); [discriminate |].
  destruct (Qeq_bool (AverageMeter.avg (tr_batch_time s1)) 0); [discriminate |].
  exact Ha.
Qed.

Lemma train_top1_average_at_most_top5_witness :
  let s' := snd (train (sample_args 2 1) tt
                       [sample_batch 0 1; sample_batch 3 2; sample_batch 1 4] 4) in
  AverageMeter.avg (tr_top1 s') <= AverageMeter.avg (tr_top5 s').
Proof.
  apply (train_top1_average_at_most_top5 (sample_args 2 1) tt
           [sample_batch 0 1; sample_batch 3 2; sample_batch 1 4] 4).
  - repeat constructor; simpl; lia.
  - vm_compute. reflexivity.
Defined.

(** ** Meters that are never fed *)

Lemma validate_jit_meters {Model : Type}
    (jit_trace : Model -> observation -> result Model)
    (fold_convbn : Model -> result Model)
    (args : Args) (val_loader : list observation) (s : validate_state Model) :
  let s' := snd (validate_jit jit_trace fold_convbn args val_loader s) in
  va_losses s' = va_losses s /\ va_top1 s' = va_top1 s /\ va_top5 s' = va_top5 s.
Proof.
  cbv zeta. destruct s as [m bt lo t1 t5 out]. unfold validate_jit, when.
  destruct (jit args); [| repeat split].
  destruct val_loader as [| b rest]; [repeat split |].
  cbv [bind ret get raise va_emit modify lift_result va_set_model
       va_model va_batch_time va_losses va_top1 va_top5 va_out].
  destruct (jit_trace m b) as [mj | []];
    destruct (bn_folding args && (device args =? "cuda")%string);
    try destruct (fold_convbn _) as [f | e];
    repeat split.
Qed.

Lemma run_validate_meters {Model : Type} (args : Args) (loader : list observation)
    (base : Z) (s : validate_state Model) :
  let s' := snd (run_validate args loader base s) in
  va_losses s' = va_losses s /\ va_top1 s' = va_top1 s /\ va_top5 s' = va_top5 s.
Proof.
  cbv zeta.
  assert (Hloop : let s1 := snd (run_validate_loop args 0%Z loader s) in
                  va_losses s1 = va_losses s /\ va_top1 s1 = va_top1 s /\
                  va_top5 s1 = va_top5 s).
  { apply (for_enumerate_preserves
             (fun s1 : validate_state Model =>
                va_losses s1 = va_losses s /\ va_top1 s1 = va_top1 s /\
                va_top5 s1 = va_top5 s)); [| repeat split].
    intros i b s1 H. now rewrite run_validate_step_run. }
  cbv zeta in Hloop. rewrite run_validate_run.
  destruct (run_validate_loop args 0%Z loader s) as [[[] | e] s1]; cbn [snd] in *;
    [| exact Hloop].
  cbv zeta. destruct (Qeq_bool (fl64 (inject_Z (batch_size args))) 0); [exact Hloop |].
  destruct (Qeq_bool (AverageMeter.avg (va_batch_time s1)) 0); exact Hloop.
Qed.

Lemma train_step_data_time {Model : Type} (args : Args) (model : Model) (i : Z)
    (b : observation) (s : train_state Model) :
  tr_data_time (snd (train_step args model i b s)) = tr_data_time s.
Proof. now destruct (train_step_meters args model i b s) as (H & _). Qed.

(** X14. Two meters are created, shown in the progress line, and never fed:
    [data_time] in [train] and [losses] in [validate] are, at the end of
    every run, the meters their constructors built. *)
Theorem data_time_and_validation_loss_are_never_fed {Model : Type}
    (jit_trace : Model -> observation -> result Model)
    (fold_convbn : Model -> result Model)
    (args : Args) (model : Model)
    (train_loader : list observation) (loader_batch_size : Z)
    (val_loader : list observation) (sampler_len dataset_len : Z)
    (aux_loader : list observation) (others1 others5 : list (Q * Q)) :
  tr_data_time (snd (train args model train_loader loader_batch_size))
  = AverageMeter.init "Data" ":6.3f" AVERAGE /\
  va_losses (snd (validate jit_trace fold_convbn args model val_loader
                           sampler_len dataset_len aux_loader others1 others5))
  = AverageMeter.init "Loss" ":.4e" NONE.
Proof.
  split.
  - assert (Hloop : tr_data_time (snd (train_loop args model 0%Z train_loader train_init))
                    = AverageMeter.init "Data" ":6.3f" AVERAGE).
    { apply (for_enumerate_preserves
               (fun s : train_state Model =>
                  tr_data_time s = AverageMeter.init "Data" ":6.3f" AVERAGE));
        [| reflexivity].
      intros i b s H. now rewrite train_step_data_time. }
    rewrite train_run.
    destruct (train_loop args model 0%Z train_loader train_init) as [[[] | e] s1];
      cbn [snd] in *; [| exact Hloop].
    cbv zeta. destruct (Qeq_bool (fl64 (inject_Z loader_batch_size)) 0); [exact Hloop |].
    destruct (Qeq_bool (AverageMeter.avg (tr_batch_time s1)) 0); exact Hloop.
  - rewrite validate_run. cbv zeta.
    set (s0 := mk_validate model _ _ _ _ _).
    destruct (validate_jit_meters jit_trace fold_convbn args val_loader s0) as (Hl & _).
    change (va_losses s0) with (AverageMeter.init "Loss" ":.4e" NONE) in Hl.
    destruct (validate_jit jit_trace fold_convbn args val_loader s0) as [[[] | e] s1];
      cbn [snd] in *; [| exact Hl].
    apply (validate_main_invariant Model
             (fun s => va_losses s = AverageMeter.init "Loss" ":.4e" NONE));
      [| | | exact Hl].
    + intros loader base s H.
      destruct (run_validate_meters args loader base s) as (Hr & _). now rewrite Hr.
    + intros t s H. exact H.
    + intros t s H. exact H.
Qed.

(** ** What [validate] returns *)

Lemma validate_main_local {Model : Type} (args : Args)
    (val_loader : list observation) (sampler_len dataset_len : Z)
    (aux_loader : list observation) (others1 others5 : list (Q * Q))
    (s : validate_state Model) :
  distributed args = false ->
  validate_main args val_loader sampler_len dataset_len aux_loader others1 others5 s
  = match run_validate args val_loader 0%Z s with
    | (Ok _, s1) => (Ok (AverageMeter.avg (va_top1 s1)), s1)
    | (Raise e, s1) => (Raise e, s1)
    end.
Proof.
  intros Hd. unfold validate_main. rewrite Hd. cbn [andb].
  unfold when, bind, ret, get.
  now destruct (run_validate args val_loader 0%Z s) as [[[] | e] s1].
Qed.

(** X15. Nothing in [validate] measures accuracy.  In a run that is not
    distributed, [top1] and [top5] end as their constructors built them, and
    the value [validate] returns, [top1.avg], is 0 whatever the model and
    the data. *)
Theorem validate_returns_zero_when_not_distributed {Model : Type}
    (jit_trace : Model -> observation -> result Model)
    (fold_convbn : Model -> result Model)
    (args : Args) (model : Model)
    (val_loader : list observation) (sampler_len dataset_len : Z)
    (aux_loader : list observation) (others1 others5 : list (Q * Q)) :
  distributed args = false ->
  let run := validate jit_trace fold_convbn args model val_loader
                      sampler_len dataset_len aux_loader others1 others5 in
  va_top1 (snd run) = AverageMeter.init "Acc@1" ":6.2f" AVERAGE /\
  va_top5 (snd run) = AverageMeter.init "Acc@5" ":6.2f" AVERAGE /\
  (forall acc1, fst run = Ok acc1 -> acc1 = 0).
Proof.
  intros Hd run. subst run. rewrite validate_run. cbv zeta.
  set (s0 := mk_validate model _ _ _ _ _).
  destruct (validate_jit_meters jit_trace fold_convbn args val_loader s0)
    as (_ & H1 & H5).
  change (va_top1 s0) with (AverageMeter.init "Acc@1" ":6.2f" AVERAGE) in H1.
  change (va_top5 s0) with (AverageMeter.init "Acc@5" ":6.2f" AVERAGE) in H5.
  destruct (validate_jit jit_trace fold_convbn args val_loader s0) as [[[] | e] s1];
    cbn [fst snd] in *; [| repeat split; try assumption; discriminate].
  rewrite (validate_main_local args val_loader sampler_len dataset_len aux_loader
             others1 others5 s1 Hd).
  destruct (run_validate_meters args val_loader 0%Z s1) as (_ & R1 & R5).
  destruct (run_validate args val_loader 0%Z s1) as [[[] | e] s2]; cbn [fst snd] in *.
  - rewrite R1, R5, H1, H5. repeat split. intros acc1 [= <-]. reflexivity.
  - rewrite R1, R5, H1, H5. repeat split. discriminate.
Qed.

Lemma validate_returns_zero_when_not_distributed_witness :
  fst (validate (fun (m : string) _ => Ok m) (fun m => Ok m)
                (sample_args 3 1) "eager"%string
                [sample_batch 0 1; sample_batch 3 2; sample_batch 1 4] 0 0 [] [] [])
  = Ok 0.
Proof.
  destruct (validate_returns_zero_when_not_distributed
              (fun (m : string) _ => Ok m) (fun m => Ok m)
              (sample_args 3 1) "eager"%string
              [sample_batch 0 1; sample_batch 3 2; sample_batch 1 4] 0 0 [] [] [])
    as (_ & _ & H).
  - reflexivity.
  - cbv zeta in H.
    destruct (validate (fun (m : string) _ => Ok m) (fun m => Ok m)
                (sample_args 3 1) "eager"%string
                [sample_batch 0 1; sample_batch 3 2; sample_batch 1 4] 0 0 [] [] [])
      as [[acc1 | e] s] eqn:E; cbn [fst] in *.
    + now rewrite (H acc1 eq_refl).
    + vm_compute in E. discriminate.
Defined.


(** X16. In a distributed run in which the other ranks contribute empty
    counts for [top1] (as they do when they run this same function, whose
    [top1] is never fed), [validate] never returns a value: the reduction of
    [top1] divides by a zero count. *)
Theorem distributed_validate_never_returns {Model : Type}
    (jit_trace : Model -> observation -> result Model)
    (fold_convbn : Model -> result Model)
    (args : Args) (model : Model)
    (val_loader : list observation) (sampler_len dataset_len : Z)
    (aux_loader : list observation) (others1 others5 : list (Q * Q)) :
  distributed args = true ->
  world_count others1 == 0 ->
  forall acc1,
    fst (validate jit_trace fold_convbn args model val_loader
                  sampler_len dataset_len aux_loader others1 others5) <> Ok acc1.
Proof.
  intros Hd Hz acc1. rewrite validate_run. cbv zeta.
  set (s0 := mk_validate model _ _ _ _ _).
  destruct (validate_jit_meters jit_trace fold_convbn args val_loader s0)
    as (_ & H1 & _).
  change (va_top1 s0) with (AverageMeter.init "Acc@1" ":6.2f" AVERAGE) in H1.
  destruct (validate_jit jit_trace fold_convbn args val_loader s0) as [[[] | e] s1];
    cbn [fst snd] in *; [| discriminate].
  unfold validate_main. rewrite Hd. unfold bind at 1.
  destruct (run_validate_meters args val_loader 0%Z s1) as (_ & R1 & _).
  destruct (run_validate args val_loader 0%Z s1) as [[[] | e] s2]; cbn [fst snd] in *;
    [| discriminate].
  unfold bind at 1. unfold when at 1. unfold bind at 1. unfold zoom at 1.
  destruct (all_reduce_zero_count others1 (va_top1 s2)) as (Hr & _).
  { rewrite R1, H1. unfold global_count. cbn [AverageMeter.init AverageMeter.count snd].
    fold (world_count others1). rewrite Hz. reflexivity. }
  cbv zeta in Hr.
  destruct (AverageMeter.all_reduce others1 (va_top1 s2)) as [r t1]; cbn [fst] in Hr.
  subst r. cbn [fst]. discriminate.
Qed.

Lemma distributed_validate_never_returns_witness :
  fst (validate (fun (m : string) _ => Ok m) (fun m => Ok m)
                (mk_args 3 1 10 1 false false false true 2 "cpu") "eager"%string
                [sample_batch 0 1; sample_batch 3 2; sample_batch 1 4] 3 3 []
                [(0, 0)] [(0, 0)])
  <> Ok 0.
Proof.
  apply (distributed_validate_never_returns
           (fun (m : string) _ => Ok m) (fun m => Ok m)
           (mk_args 3 1 10 1 false false false true 2 "cpu") "eager"%string
           [sample_batch 0 1; sample_batch 3 2; sample_batch 1 4] 3 3 []
           [(0, 0)] [(0, 0)]); reflexivity.
Defined.

(** ** The [jit] block of [validate] *)

(** X17. With [--jit], two failures escape the block that prepares the
    model, before any forward pass: an empty validation loader ends
    [validate] with [StopIteration], and an exception of the tracer other
    than [RuntimeError] and [TypeError] ends it with that exception. *)
Theorem jit_block_failures_that_escape {Model : Type}
    (jit_trace : Model -> observation -> result Model)
    (fold_convbn : Model -> result Model)
    (args : Args) (model : Model)
    (val_loader : list observation) (sampler_len dataset_len : Z)
    (aux_loader : list observation) (others1 others5 : list (Q * Q)) :
  jit args = true ->
  let run := validate jit_trace fold_convbn args model val_loader
                      sampler_len dataset_len aux_loader others1 others5 in
  (val_loader = [] ->
   fst run = Raise StopIteration /\ forward_count (va_out (snd run)) = 0%nat) /\
  (forall b rest e,
      val_loader = b :: rest ->
      jit_trace model b = Raise e -> e <> RuntimeError -> e <> TypeError ->
      fst run = Raise e /\ forward_count (va_out (snd run)) = 0%nat).
Proof.
  intros Hjit run. subst run. rewrite validate_run. cbv zeta.
  unfold validate_jit, when. rewrite Hjit. split.
  - intros ->. split; reflexivity.
  - intros b rest e -> Htrace Hr Ht.
    cbv [bind ret get raise va_emit modify lift_result va_set_model
         va_model va_batch_time va_losses va_top1 va_top5 va_out].
    rewrite Htrace. destruct e; try congruence; split; reflexivity.
Qed.

Lemma jit_block_failures_that_escape_witness :
  fst (validate (fun (m : string) _ => Raise ValueError) (fun m => Ok m)
                sample_args_jit "eager"%string
                [sample_batch 0 1; sample_batch 3 2] 0 0 [] [] [])
  = Raise ValueError.
Proof.
  destruct (jit_block_failures_that_escape
              (fun (m : string) _ => Raise ValueError) (fun m => Ok m)
              sample_args_jit "eager"%string
              [sample_batch 0 1; sample_batch 3 2] 0 0 [] [] [] eq_refl)
    as (_ & H).
  apply (H (sample_batch 0 1) [sample_batch 3 2] ValueError eq_refl eq_refl);
    discriminate.
Defined.

(** X18. With [--jit --bn_folding --device cuda] the folding step decides
    which model is evaluated.  It is applied to the model the tracing step
    left (traced, or the original after a caught failure).  If it raises,
    [validate] ends with that exception before any forward pass; if it
    returns, every forward pass of [validate] runs the folded model. *)
Theorem folding_decides_the_evaluated_model {Model : Type}
    (jit_trace : Model -> observation -> result Model)
    (fold_convbn : Model -> result Model)
    (args : Args) (model : Model)
    (b : observation) (rest : list observation) (sampler_len dataset_len : Z)
    (aux_loader : list observation) (others1 others5 : list (Q * Q))
    (m' : Model) :
  jit args = true -> bn_folding args = true -> device args = "cuda"%string ->
  model_after_trace jit_trace model b = Some m' ->
  let run := validate jit_trace fold_convbn args model (b :: rest)
                      sampler_len dataset_len aux_loader others1 others5 in
  (forall e, fold_convbn m' = Raise e ->
             fst run = Raise e /\ forward_models (va_out (snd run)) = []) /\
  (forall folded, fold_convbn m' = Ok folded ->
                  Forall (eq folded) (forward_models (va_out (snd run)))).
Proof.
  intros Hjit Hbn Hdev Hm' run. subst run. rewrite validate_run. cbv zeta.
  set (s0 := mk_validate model _ _ _ _ _).
  assert (Hblock :
    forall r, fold_convbn m' = r ->
      exists out,
        forward_models out = [] /\
        validate_jit jit_trace fold_convbn args (b :: rest) s0
        = match r with
          | Ok folded =>
              (Ok tt, mk_validate folded (va_batch_time s0) (va_losses s0)
                                  (va_top1 s0) (va_top5 s0) out)
          | Raise e =>
              (Raise e, mk_validate m' (va_batch_time s0) (va_losses s0)
                                    (va_top1 s0) (va_top5 s0) out)
          end).
  { intros r Hr. unfold validate_jit, when. rewrite Hjit, Hbn, Hdev.
    cbn [andb String.eqb Ascii.eqb Bool.eqb].
    unfold model_after_trace in Hm'. subst s0.
    cbv [bind ret get raise va_emit modify lift_result va_set_model
         va_model va_batch_time va_losses va_top1 va_top5 va_out].
    destruct (jit_trace model b) as [mj | []]; try discriminate;
      injection Hm' as ->; rewrite Hr; destruct r;
      eexists; (split; [| reflexivity]); reflexivity. }
  split.
  - intros e He. destruct (Hblock _ He) as (out & Hout & ->). cbn [fst snd va_out].
    now split.
  - intros folded Hf. destruct (Hblock _ Hf) as (out & Hout & ->).
    apply validate_main_forward_models; [reflexivity |].
    cbn [va_out]. rewrite Hout. constructor.
Qed.

Lemma folding_decides_the_evaluated_model_witness :
  Forall (eq "folded"%string)
    (forward_models
       (va_out (snd (validate (fun (m : string) _ => Raise RuntimeError)
                              (fun _ => Ok "folded"%string)
                              (mk_args 2 0 10 1 true true false false (-1) "cuda")
                              "eager"%string
                              [sample_batch 0 1; sample_batch 3 2] 0 0 [] [] [])))).
Proof.
  destruct (folding_decides_the_evaluated_model
              (fun (m : string) _ => Raise RuntimeError)
              (fun _ => Ok "folded"%string)
              (mk_args 2 0 10 1 true true false false (-1) "cuda")
              "eager"%string (sample_batch 0 1) [sample_batch 3 2] 0 0 [] [] []
              "eager"%string eq_refl eq_refl eq_refl eq_refl)
    as (_ & H).
  apply H. reflexivity.
Defined.


(** ** The progress lines of [train] *)

Lemma progress_batches_app {Model : Type} (out out' : list (event Model)) :
  progress_batches (out ++ out') = progress_batches out ++ progress_batches out'.
Proof. apply flat_map_app. Qed.

Lemma train_step_progress {Model : Type} (args : Args) (model : Model) (i : Z)
    (b : observation) (s : train_state Model) (j : Z) :
  In j (progress_batches (tr_out (snd (train_step args model i b s)))) ->
  In j (progress_batches (tr_out s)) \/
  (j = (i + 1)%Z /\ print_freq args <> 0%Z /\ (i mod print_freq args = 0)%Z).
Proof.
  destruct s as [bt dt lo t1 t5 out]. unfold train_step.
  cbv [bind tr_emit modify lift_result when py_mod ret raise get zoom
       tr_losses tr_top1 tr_top5 tr_batch_time tr_out tr_data_time
       tr_set_losses tr_set_top1 tr_set_top5 tr_set_batch_time].
  assert (Hplain : forall l : list (event Model),
             In j (progress_batches (out ++ l)) -> progress_batches l = [] ->
             In j (progress_batches out)).
  { intros l Hin Hl. rewrite progress_batches_app, Hl, app_nil_r in Hin. exact Hin. }
  destruct (accuracy (output b) (target b) [1%nat; 5%nat]) as [acc | e];
    [| intros H; left; now apply (Hplain [Forward model i])].
  destruct (AverageMeter.update PyFloat (loss_item b) (n_images b) lo) as [[[] | e1] lo'];
    [| intros H; left; now apply (Hplain [Forward model i])].
  destruct (AverageMeter.update Tensor32 (nth 0 acc 0) (n_images b) t1) as [[[] | e1] t1'];
    [| intros H; left; now apply (Hplain [Forward model i])].
  destruct (AverageMeter.update Tensor32 (nth 1 acc 0) (n_images b) t5) as [[[] | e1] t5'];
    [| intros H; left; now apply (Hplain [Forward model i])].
  assert (Hend :
    forall l : list (event Model),
      l = [Forward model i; Printed (IterationTime i (duration b))] ->
      (In j (progress_batches (out ++ l)) ->
       In j (progress_batches out) \/
       (j = (i + 1)%Z /\ print_freq args <> 0%Z /\ (i mod print_freq args = 0)%Z)) /\
      (In j (progress_batches ((out ++ l) ++ [Printed (Progress (i + 1)%Z)])) ->
       print_freq args <> 0%Z -> (i mod print_freq args = 0)%Z ->
       In j (progress_batches out) \/
       (j = (i + 1)%Z /\ print_freq args <> 0%Z /\ (i mod print_freq args = 0)%Z))).
  { intros l ->. split.
    - intros H. left. now apply (Hplain _ H).
    - intros H Hp Hm. rewrite !progress_batches_app in H.
      apply in_app_or in H. destruct H as [H | H].
      + apply in_app_or in H. destruct H as [H | []]. now left.
      + destruct H as [<- | []]. right. now repeat split. }
  destruct (Hend _ eq_refl) as [Hquiet Hline]. clear Hend.
  rewrite <- !app_assoc in Hline. cbn [app] in Hline.
  destruct (num_warmup args <=? i)%Z;
    [destruct (AverageMeter.update PyFloat (duration b) 1 bt) as [[[] | e1] bt'] |];
    cbv beta iota zeta delta [snd];
    try (destruct (Z.eqb_spec (print_freq args) 0) as [Hz | Hnz];
         [| destruct (Z.eqb_spec (i mod print_freq args) 0) as [Hm | Hm]]);
    cbv beta iota zeta delta [snd];
    rewrite <- ?app_assoc; cbn [app];
    first [ exact Hquiet | intros H; now apply Hline ].
Qed.

Lemma train_loop_progress {Model : Type} (args : Args) (model : Model)
    (loader : list observation) :
  forall i (s : train_state Model) j,
    In j (progress_batches (tr_out (snd (train_loop args model i loader s)))) ->
    In j (progress_batches (tr_out s)) \/
    ((i + 1 <= j <= i + Z.of_nat (length loader))%Z /\
     print_freq args <> 0%Z /\ ((j - 1) mod print_freq args = 0)%Z /\
     ((i <= num_iter args)%Z -> (j <= num_iter args)%Z)).
Proof.
  unfold train_loop.
  induction loader as [| b rest IH]; intros i s j Hj; [now left |].
  cbn [for_enumerate] in Hj. unfold bind, ret in Hj.
  destruct (Z.eqb_spec i (num_iter args)) as [-> | Hne]; [now left |].
  pose proof (train_step_progress args model i b s j) as Hstep.
  destruct (train_step args model i b s) as [[[] | e] s1]; cbn [snd] in *.
  - apply IH in Hj. destruct Hj as [Hj | (Hr & Hp & Hm & Hn)].
    + destruct (Hstep Hj) as [H | (-> & Hp & Hm)]; [now left |].
      right. cbn [length]. replace (i + 1 - 1)%Z with i by lia.
      repeat split; try assumption; lia.
    + right. cbn [length]. repeat split; try assumption; lia.
  - destruct (Hstep Hj) as [H | (-> & Hp & Hm)]; [now left |].
    right. cbn [length]. replace (i + 1 - 1)%Z with i by lia.
    repeat split; try assumption; lia.
Qed.

(** X19. Every progress line [train] prints, whether it returns or raises,
    shows a batch number [j] between 1 and [len(train_loader)], at most
    [num_iter] when that is not negative, and one more than a multiple of
    [print_freq], which is then not zero. *)
Theorem train_progress_lines {Model : Type} (args : Args) (model : Model)
    (train_loader : list observation) (loader_batch_size : Z) (j : Z) :
  In j (progress_batches (tr_out (snd (train args model train_loader
                                             loader_batch_size)))) ->
  (1 <= j <= Z.of_nat (length train_loader))%Z /\
  print_freq args <> 0%Z /\
  ((j - 1) mod print_freq args = 0)%Z /\
  ((0 <= num_iter args)%Z -> (j <= num_iter args)%Z).
Proof.
  intros Hj.
  assert (Hloop : In j (progress_batches
                          (tr_out (snd (train_loop args model 0%Z train_loader
                                                   train_init))))).
  { destruct (train_state_after Model args model train_loader loader_batch_size)
      as (_ & [Ho | (l & p & Ho)]); rewrite Ho in Hj; [exact Hj |].
    rewrite progress_batches_app in Hj. cbn in Hj. now rewrite app_nil_r in Hj. }
  apply train_loop_progress in Hloop. destruct Hloop as [[] | H]. exact H.
Qed.

Lemma train_progress_lines_witness :
  (1 <= 3 <= 3)%Z /\ 2%Z <> 0%Z /\ ((3 - 1) mod 2 = 0)%Z /\ ((0 <= 5)%Z -> (3 <= 5)%Z).
Proof.
  apply (train_progress_lines (mk_args 5 0 2 1 false false false false (-1) "cpu") tt
           [sample_batch 0 1; sample_batch 3 2; sample_batch 1 4] 4 3).
  vm_compute. right. left. reflexivity.
Defined.


(** ** [ProgressMeter] *)

Section StringFacts.

Local Open Scope string_scope.

Lemma append_nil_r (s : string) : s ++ "" = s.
Proof. induction s as [| c s IH]; cbn; [reflexivity | now rewrite IH]. Qed.

Lemma append_assoc (s t u : string) : (s ++ t) ++ u = s ++ (t ++ u).
Proof. induction s as [| c s IH]; cbn; [reflexivity | now rewrite IH]. Qed.

Lemma length_append (s t : string) :
  String.length (s ++ t) = (String.length s + String.length t)%nat.
Proof. induction s as [| c s IH]; cbn; [reflexivity | now rewrite IH]. Qed.

Lemma length_repeat_char (c : ascii) (n : nat) : String.length (repeat_char c n) = n.
Proof. induction n as [| n IH]; cbn; [reflexivity | now rewrite IH]. Qed.

End StringFacts.

(** *** [str] of an int *)

Ltac digit_cases d :=
  let H := fresh "H" in
  assert (H : (d = 0 \/ d = 1 \/ d = 2 \/ d = 3 \/ d = 4 \/ d = 5 \/ d = 6 \/ d = 7
               \/ d = 8 \/ d = 9)%Z) by lia;
  destruct H as [H | [H | [H | [H | [H | [H | [H | [H | [H | H]]]]]]]]]; rewrite H.

Lemma str_digits_app (fuel : nat) :
  forall n acc, str_digits fuel n acc = (str_digits fuel n "" ++ acc)%string.
Proof.
  induction fuel as [| f IH]; intros n acc; [reflexivity |].
  cbn [str_digits]. destruct (n <? 10)%Z; [reflexivity |].
  rewrite IH, (IH _ (String _ "")), append_assoc. reflexivity.
Qed.

Lemma length_str_digits_ge (fuel : nat) :
  forall n acc, (String.length acc <= String.length (str_digits fuel n acc))%nat.
Proof.
  induction fuel as [| f IH]; intros n acc; [apply Nat.le_refl |].
  cbn [str_digits]. destruct (n <? 10)%Z; [cbn; lia |].
  etransitivity; [| apply IH]. cbn. lia.
Qed.

Lemma length_str_digits_S (fuel : nat) (n : Z) (acc : string) :
  (S (String.length acc) <= String.length (str_digits (S fuel) n acc))%nat.
Proof.
  cbn [str_digits]. destruct (n <? 10)%Z; [cbn; lia |].
  etransitivity; [| apply length_str_digits_ge]. cbn. lia.
Qed.

Lemma str_digits_S (fuel : nat) (n : Z) (acc : string) :
  str_digits (S fuel) n acc
  = if (n <? 10)%Z then String (digit_char (n mod 10)) acc
    else str_digits fuel (n / 10) (String (digit_char (n mod 10)) acc).
Proof. reflexivity. Qed.

(** More digits are never needed for a smaller number. *)
Lemma length_str_digits_mono (f1 : nat) :
  forall f2 a b acc1 acc2,
    (0 <= a <= b)%Z -> (a < 2 ^ Z.of_nat (S f1))%Z -> (b < 2 ^ Z.of_nat (S f2))%Z ->
    (String.length (str_digits (S f1) a acc1) + String.length acc2
     <= String.length (str_digits (S f2) b acc2) + String.length acc1)%nat.
Proof.
  induction f1 as [| f1 IH]; intros f2 a b acc1 acc2 Hab Ha Hb.
  - pose proof (length_str_digits_S f2 b acc2) as H.
    rewrite (str_digits_S 0 a). change (2 ^ Z.of_nat 1)%Z with 2%Z in Ha.
    rewrite (proj2 (Z.ltb_lt a 10)) by lia.
    cbn [String.length]. lia.
  - pose proof (length_str_digits_S f2 b acc2) as H.
    rewrite (str_digits_S (S f1) a). destruct (Z.ltb_spec a 10) as [Hlt | Hge].
    + cbn [String.length]. lia.
    + clear H. rewrite (str_digits_S f2 b).
      rewrite (proj2 (Z.ltb_ge b 10)) by lia.
      destruct f2 as [| f2].
      { change (2 ^ Z.of_nat 1)%Z with 2%Z in Hb. lia. }
      rewrite Nat2Z.inj_succ, Z.pow_succ_r in Ha, Hb by lia.
      specialize (IH f2 (a / 10)%Z (b / 10)%Z
                     (String (digit_char (a mod 10)) acc1)
                     (String (digit_char (b mod 10)) acc2)).
      cbn [String.length] in IH.
      assert (H2 : (0 < 2 ^ Z.of_nat (S f1))%Z) by (apply Z.pow_pos_nonneg; lia).
      assert (H3 : (0 < 2 ^ Z.of_nat (S f2))%Z) by (apply Z.pow_pos_nonneg; lia).
      assert (Hdiv : (a / 10 <= b / 10)%Z) by (apply Z.div_le_mono; lia).
      assert (Hpos : (0 <= a / 10)%Z) by (apply Z.div_pos; lia).
      assert (Ha' : (a / 10 < 2 ^ Z.of_nat (S f1))%Z)
        by (apply Z.div_lt_upper_bound; lia).
      assert (Hb' : (b / 10 < 2 ^ Z.of_nat (S f2))%Z)
        by (apply Z.div_lt_upper_bound; lia).
      specialize (IH ltac:(lia) Ha' Hb'). lia.
Qed.

Lemma enough_fuel (n : Z) : (0 <= n)%Z -> (n < 2 ^ Z.of_nat (S (Z.to_nat (Z.log2 n))))%Z.
Proof.
  intros Hn. destruct (Z.eq_dec n 0) as [-> | Hnz]; [reflexivity |].
  rewrite Nat2Z.inj_succ, Z2Nat.id by apply Z.log2_nonneg.
  apply Z.log2_spec. lia.
Qed.

Lemma py_str_int_nonneg (n : Z) :
  (0 <= n)%Z -> py_str_int n = str_digits (S (Z.to_nat (Z.log2 n))) n "".
Proof. intros Hn. unfold py_str_int. now rewrite (proj2 (Z.ltb_ge n 0)). Qed.

Lemma length_py_str_int_pos (n : Z) : (1 <= String.length (py_str_int n))%nat.
Proof.
  unfold py_str_int. destruct (n <? 0)%Z.
  - cbn [String.length]. lia.
  - apply (length_str_digits_S _ n "").
Qed.

Lemma length_py_str_int_mono (a b : Z) :
  (0 <= a <= b)%Z -> (String.length (py_str_int a) <= String.length (py_str_int b))%nat.
Proof.
  intros Hab. rewrite !py_str_int_nonneg by lia.
  pose proof (length_str_digits_mono (Z.to_nat (Z.log2 a)) (Z.to_nat (Z.log2 b))
                a b "" "" Hab (enough_fuel a ltac:(lia)) (enough_fuel b ltac:(lia))) as H.
  cbn [String.length] in H. lia.
Qed.

(** *** [format] on the strings [str] produces *)

Lemma format_width_digit (d : Z) (rest : string) (args : list Z) (zero : bool) (w : Z) :
  (0 <= d <= 9)%Z ->
  format_width (String (digit_char d) rest) args zero w
  = format_width rest args zero (10 * w + d)%Z.
Proof. intros Hd. digit_cases d; reflexivity. Qed.

Lemma format_text_digit (d : Z) (rest : string) (args : list Z) :
  (0 <= d <= 9)%Z ->
  format_text (String (digit_char d) rest) args
  = option_map (String (digit_char d)) (format_text rest args).
Proof. intros Hd. digit_cases d; reflexivity. Qed.

(** A width written by [str] is read back as the number it was written
    from. *)
Lemma format_flag_str_digits (fuel : nat) :
  forall n acc args,
    (1 <= n < 2 ^ Z.of_nat fuel)%Z ->
    format_flag (str_digits fuel n acc) args = format_width acc args false n.
Proof.
  induction fuel as [| f IH]; intros n acc args Hn.
  - change (2 ^ Z.of_nat 0)%Z with 1%Z in Hn. lia.
  - cbn [str_digits]. destruct (Z.ltb_spec n 10) as [Hlt | Hge].
    + rewrite Z.mod_small by lia.
      assert (H : (n = 1 \/ n = 2 \/ n = 3 \/ n = 4 \/ n = 5 \/ n = 6 \/ n = 7
                   \/ n = 8 \/ n = 9)%Z) by lia.
      repeat (destruct H as [H | H]; [rewrite H; reflexivity |]).
      rewrite H. reflexivity.
    + rewrite Nat2Z.inj_succ, Z.pow_succ_r in Hn by lia.
      rewrite IH.
      * rewrite format_width_digit by (pose proof (Z.mod_pos_bound n 10); lia).
        f_equal. pose proof (Z.div_mod n 10). lia.
      * split; [apply Z.div_le_lower_bound; lia | apply Z.div_lt_upper_bound; lia].
Qed.

(** The digits [str] writes are text to [format]. *)
Lemma format_text_str_digits (fuel : nat) :
  forall n acc args,
    (0 <= n)%Z ->
    format_text (str_digits fuel n acc) args
    = option_map (append (str_digits fuel n "")) (format_text acc args).
Proof.
  induction fuel as [| f IH]; intros n acc args Hn.
  - cbn [str_digits]. now destruct (format_text acc args).
  - cbn [str_digits]. destruct (Z.ltb_spec n 10) as [Hlt | Hge].
    + rewrite format_text_digit by (pose proof (Z.mod_pos_bound n 10); lia).
      now destruct (format_text acc args).
    + rewrite IH by (apply Z.div_pos; lia).
      rewrite format_text_digit by (pose proof (Z.mod_pos_bound n 10); lia).
      rewrite (str_digits_app f _ (String _ "")).
      destruct (format_text acc args) as [t |]; [| reflexivity].
      cbn [option_map]. now rewrite append_assoc.
Qed.

Lemma format_text_py_str_int (n : Z) (rest : string) (args : list Z) :
  format_text (py_str_int n ++ rest) args
  = option_map (append (py_str_int n)) (format_text rest args).
Proof.
  unfold py_str_int. destruct (Z.ltb_spec n 0) as [Hneg | Hpos].
  - cbn [append]. rewrite <- str_digits_app.
    change (format_text (String "-" ?s) args)
      with (option_map (String "-") (format_text s args)).
    rewrite format_text_str_digits by lia.
    now destruct (format_text rest args).
  - rewrite <- str_digits_app. now apply format_text_str_digits.
Qed.

(** One replacement field [{:Nd}], with [N] written by [str]. *)
Lemma format_field (width : Z) (rest : string) (x : Z) (args : list Z) :
  (1 <= width)%Z ->
  format_text (("{:" ++ py_str_int width ++ "d}") ++ rest) (x :: args)
  = option_map (append (format_int false width x)) (format_text rest args).
Proof.
  intros Hw. rewrite py_str_int_nonneg by lia.
  cbn [append]. rewrite append_assoc. cbn [append]. rewrite <- str_digits_app.
  change (format_text (String "{" (String ":" ?s)) ?a) with (format_flag s a).
  rewrite format_flag_str_digits by (split; [lia | apply enough_fuel; lia]).
  reflexivity.
Qed.

Lemma format_int_rjust (width : Z) (x : Z) :
  format_int false width x
  = rjust (Z.to_nat width) (py_str_int x).
Proof.
  unfold format_int, rjust. do 2 f_equal. lia.
Qed.

Lemma rjust_fits (width : nat) (s : string) :
  (width <= String.length s)%nat -> rjust width s = s.
Proof.
  intros H. unfold rjust. replace (width - String.length s)%nat with 0%nat by lia.
  reflexivity.
Qed.

Lemma length_rjust (width : nat) (s : string) :
  (String.length s <= width)%nat -> String.length (rjust width s) = width.
Proof.
  intros H. unfold rjust. rewrite length_append, length_repeat_char. lia.
Qed.

(** The format string [_get_batch_fmtstr] builds. *)
Lemma get_batch_fmtstr_value (num_batches : Z) :
  let N := String.length (py_str_int num_batches) in
  _get_batch_fmtstr num_batches
  = Some ("[" ++ ("{:" ++ py_str_int (Z.of_nat N) ++ "d}") ++ "/"
              ++ py_str_int num_batches ++ "]")%string.
Proof.
  cbv zeta. unfold _get_batch_fmtstr, py_format. rewrite Z.div_1_r.
  pose proof (length_py_str_int_pos num_batches) as HN.
  rewrite <- (append_nil_r ("{:" ++ py_str_int _ ++ "d}")) at 1.
  rewrite format_field by lia. cbn [format_text option_map].
  rewrite append_nil_r, format_int_rjust, Nat2Z.id, rjust_fits by apply Nat.le_refl.
  reflexivity.
Qed.

(** X20. [ProgressMeter] builds its counter format from the decimal width of
    [num_batches] and reads that width back when formatting: for every
    [num_batches] the constructor succeeds, and [display(batch)] prints the
    entries separated by tabs, the first being the prefix followed by
    [[batch/num_batches]] with [batch] right-justified to the number of
    characters of [str(num_batches)]. *)
Theorem progress_display_line (num_batches : Z) (prefix : string) :
  exists progress,
    ProgressMeter.init num_batches prefix = Some progress /\
    forall (meter_strs : list string) (batch : Z),
      ProgressMeter.display progress meter_strs batch
      = Some (String.concat (String (ascii_of_nat 9) "")
                ((prefix ++ "["
                    ++ rjust (String.length (py_str_int num_batches)) (py_str_int batch)
                    ++ "/" ++ py_str_int num_batches ++ "]")%string :: meter_strs)).
Proof.
  unfold ProgressMeter.init. rewrite get_batch_fmtstr_value. cbv zeta.
  eexists. split; [reflexivity |]. intros meter_strs batch.
  unfold ProgressMeter.display, py_format.
  cbn [ProgressMeter.batch_fmtstr ProgressMeter.prefix].
  pose proof (length_py_str_int_pos num_batches) as HN.
  change (format_text ("[" ++ ?s) ?a) with (option_map (String "[") (format_text s a)).
  rewrite format_field by lia.
  change (format_text ("/" ++ ?s) ?a) with (option_map (String "/") (format_text s a)).
  rewrite format_text_py_str_int. cbn [format_text option_map].
  rewrite format_int_rjust, Nat2Z.id. reflexivity.
Qed.

(** X21. The counter of a progress line has a fixed width: for every batch
    number from 0 to [num_batches], the first entry [display] prints is the
    prefix followed by [2 * N + 3] characters, [N] being the number of
    digits of [num_batches]. *)
Theorem progress_counter_has_fixed_width (num_batches : Z) (prefix : string)
    (batch : Z) :
  (0 <= batch <= num_batches)%Z ->
  exists progress line,
    ProgressMeter.init num_batches prefix = Some progress /\
    ProgressMeter.display progress [] batch = Some line /\
    String.length line
    = (String.length prefix + 2 * String.length (py_str_int num_batches) + 3)%nat.
Proof.
  intros Hb. unfold ProgressMeter.init. rewrite get_batch_fmtstr_value. cbv zeta.
  do 2 eexists. split; [reflexivity |].
  unfold ProgressMeter.display, py_format.
  cbn [ProgressMeter.batch_fmtstr ProgressMeter.prefix].
  pose proof (length_py_str_int_pos num_batches) as HN.
  change (format_text ("[" ++ ?s) ?a) with (option_map (String "[") (format_text s a)).
  rewrite format_field by lia.
  change (format_text ("/" ++ ?s) ?a) with (option_map (String "/") (format_text s a)).
  rewrite format_text_py_str_int. cbn [format_text option_map String.concat].
  split; [reflexivity |].
  rewrite format_int_rjust, Nat2Z.id.
  rewrite length_append. cbn [String.length]. rewrite length_append, length_rjust
    by (apply length_py_str_int_mono; lia).
  cbn [append String.length]. rewrite length_append. cbn [String.length]. lia.
Qed.

Lemma progress_counter_has_fixed_width_witness :
  exists progress line,
    ProgressMeter.init 5005 "Epoch: [0]" = Some progress /\
    ProgressMeter.display progress [] 11 = Some line /\
    String.length line
    = (String.length "Epoch: [0]" + 2 * String.length (py_str_int 5005) + 3)%nat.
Proof.
  apply (progress_counter_has_fixed_width 5005 "Epoch: [0]" 11). lia.
Defined.

Example progress_display_sample :
  match ProgressMeter.init 5005 "Epoch: [0]" with
  | Some progress => ProgressMeter.display progress ["Time  0.100 ( 0.100)"%string] 11
  | None => None
  end
  = Some ("Epoch: [0][  11/5005]" ++ String (ascii_of_nat 9) "Time  0.100 ( 0.100)")%string.
Proof. reflexivity. Qed.


(** ** The ranks of the workers *)

Lemma seq_from (a len : nat) : seq a len = map (Nat.add a) (seq 0 len).
Proof.
  induction a as [| a IH].
  - cbn. symmetry. apply map_id.
  - rewrite <- seq_shift, IH, map_map. reflexivity.
Qed.

Lemma spawned_ranks (ngpus_per_node : nat) (world : Z) (nodes : nat) :
  let group :=
    flat_map (fun node =>
                map (fun gpu => ((Z.of_nat node * Z.of_nat ngpus_per_node
                                  + Z.of_nat gpu)%Z, world))
                    (seq 0 ngpus_per_node))
             (seq 0 nodes) in
  map fst group = map Z.of_nat (seq 0 (nodes * ngpus_per_node)) /\
  Forall (fun p => snd p = world) group.
Proof.
  cbv zeta. induction nodes as [| k [IHr IHw]]; [split; [reflexivity | constructor] |].
  rewrite seq_S, flat_map_app, map_app, IHr. cbn [Nat.add flat_map].
  rewrite app_nil_r. split.
  - replace (S k * ngpus_per_node)%nat with (k * ngpus_per_node + ngpus_per_node)%nat
      by lia.
    rewrite seq_app, map_app. f_equal. cbn [Nat.add].
    rewrite (seq_from (k * ngpus_per_node)), !map_map. cbn [fst].
    apply map_ext. intros gpu. lia.
  - apply Forall_app. split; [exact IHw |].
    apply Forall_forall. intros p Hp. apply in_map_iff in Hp.
    destruct Hp as (gpu & <- & _). reflexivity.
Qed.

(** X22. The global ranks are a numbering of the processes.  In a
    distributed job on [nnodes] machines started with [--world-size nnodes]
    and [--rank 0 .. nnodes - 1], the ranks with which the workers join the
    process group are [0, 1, ..., world - 1] in order of machine and GPU,
    each exactly once, and every worker announces the same [world]: the
    number of machines times [ngpus_per_node] with
    [--multiprocessing-distributed], the number of machines without. *)
Theorem job_ranks_fill_the_world (multiprocessing_distributed : bool)
    (ngpus_per_node nnodes : nat) :
  main_distributed (Z.of_nat nnodes) multiprocessing_distributed = true ->
  let world := if multiprocessing_distributed
               then (nnodes * ngpus_per_node)%nat else nnodes in
  let group := job_process_group multiprocessing_distributed ngpus_per_node nnodes in
  map fst group = map Z.of_nat (seq 0 world) /\
  Forall (fun p => snd p = Z.of_nat world) group.
Proof.
  intros Hd. cbv zeta. unfold job_process_group, main_process_group. rewrite Hd.
  destruct multiprocessing_distributed.
  - replace (Z.of_nat (nnodes * ngpus_per_node))
      with (Z.of_nat ngpus_per_node * Z.of_nat nnodes)%Z by lia.
    apply spawned_ranks.
  - generalize (Z.of_nat nnodes) as world. intros world. clear Hd.
    induction nnodes as [| k [IHr IHw]]; [split; [reflexivity | constructor] |].
    rewrite seq_S, flat_map_app, !map_app, IHr. cbn [Nat.add flat_map map fst app].
    split; [reflexivity |].
    apply Forall_app. split; [exact IHw | now repeat constructor].
Qed.

Lemma job_ranks_fill_the_world_witness :
  map fst (job_process_group true 4 2) = map Z.of_nat (seq 0 8) /\
  Forall (fun p => snd p = Z.of_nat 8) (job_process_group true 4 2).
Proof.
  apply (job_ranks_fill_the_world true 4 2). reflexivity.
Defined.

(** ** The profiled iteration *)

Lemma train_timed_indices {Model : Type} (args : Args) (model : Model)
    (loader : list observation) (bs : Z) (j : Z) :
  In j (timed_indices (tr_out (snd (train args model loader bs)))) ->
  (0 <= j)%Z /\ ((0 <= num_iter args)%Z -> (j < num_iter args)%Z).
Proof.
  intros Hj.
  assert (Hloop : In j (timed_indices
                          (tr_out (snd (train_loop args model 0%Z loader train_init))))).
  { destruct (train_state_after Model args model loader bs)
      as (_ & [Ho | (l & p & Ho)]); rewrite Ho in Hj; [exact Hj |].
    rewrite timed_indices_app in Hj. cbn in Hj. now rewrite app_nil_r in Hj. }
  apply (for_enumerate_timed_indices Model _ (num_iter args) (num_warmup args)
           _ _ _ (train_body_effect Model args model)) in Hloop.
  destruct Hloop as [[] | [Hr Hn]]. split; [lia | exact Hn].
Qed.

Lemma validate_timed_indices {Model : Type}
    (jit_trace : Model -> observation -> result Model)
    (fold_convbn : Model -> result Model)
    (args : Args) (model : Model)
    (val_loader : list observation) (sampler_len dataset_len : Z)
    (aux_loader : list observation) (others1 others5 : list (Q * Q)) (j : Z) :
  In j (timed_indices
          (va_out (snd (validate jit_trace fold_convbn args model val_loader
                                 sampler_len dataset_len aux_loader others1 others5)))) ->
  (0 <= j)%Z /\ ((0 <= num_iter args)%Z -> (j < num_iter args)%Z).
Proof.
  set (I := fun s : validate_state Model =>
              forall k, In k (timed_indices (va_out s)) ->
                        (0 <= k)%Z /\ ((0 <= num_iter args)%Z -> (k < num_iter args)%Z)).
  assert (Hrun : forall loader base s, I s -> I (snd (run_validate args loader base s))).
  { intros loader base s Hs k Hk.
    assert (Hloop : In k (timed_indices
                            (va_out (snd (run_validate_loop args 0%Z loader s))))).
    { destruct (run_validate_state Model args loader base s)
        as (_ & _ & _ & _ & [Ho | (l & p & Ho)]); rewrite Ho in Hk; [exact Hk |].
      rewrite timed_indices_app in Hk. cbn in Hk. now rewrite app_nil_r in Hk. }
    apply (for_enumerate_timed_indices Model _ (num_iter args) (num_warmup args)
             _ _ _ (run_validate_body_effect Model args)) in Hloop.
    destruct Hloop as [H | [Hr Hn]]; [now apply Hs | split; [lia | exact Hn]]. }
  rewrite validate_run. cbv zeta.
  set (s0 := mk_validate model _ _ _ _ _).
  assert (Hjit : I (snd (validate_jit jit_trace fold_convbn args val_loader s0))).
  { destruct (validate_jit_quiet Model jit_trace fold_convbn args val_loader s0)
      as (_ & tail & Ho & Hm & _).
    intros k Hk. rewrite Ho, timed_indices_app in Hk. apply in_app_or in Hk.
    destruct Hk as [[] | Hk].
    pose proof (proj1 (measured_nil_iff Model k tail) (Hm k) k Hk). lia. }
  destruct (validate_jit jit_trace fold_convbn args val_loader s0) as [[[] | e] s1];
    cbn [snd] in *; [| apply Hjit].
  apply (validate_main_invariant Model I); [exact Hrun | | | exact Hjit].
  - intros t s H. exact H.
  - intros t s H. exact H.
Qed.

(** X23. With [--profile], the iteration the loops hand to the profiler is
    the one of index [(num_iter + num_warmup) // 2].  For [num_iter >= 0],
    an iteration of [train] or of [validate] that is profiled and reports
    its time is never a warm-up iteration: its index is at least
    [num_warmup] (and below [num_iter]), so what is profiled is also
    measured. *)
Theorem profiled_iteration_is_measured {Model : Type}
    (jit_trace : Model -> observation -> result Model)
    (fold_convbn : Model -> result Model)
    (args : Args) (model : Model)
    (train_loader : list observation) (loader_batch_size : Z)
    (val_loader : list observation) (sampler_len dataset_len : Z)
    (aux_loader : list observation) (others1 others5 : list (Q * Q)) (j : Z) :
  (0 <= num_iter args)%Z ->
  In j (timed_indices (tr_out (snd (train args model train_loader loader_batch_size))))
  \/ In j (timed_indices
             (va_out (snd (validate jit_trace fold_convbn args model val_loader
                                    sampler_len dataset_len aux_loader
                                    others1 others5)))) ->
  profiled true args j = true ->
  (num_warmup args <= j < num_iter args)%Z.
Proof.
  intros Hn Hj Hp.
  assert (Hr : (0 <= j < num_iter args)%Z).
  { destruct Hj as [Hj | Hj].
    - apply train_timed_indices in Hj. destruct Hj as [H0 H1]. split; [exact H0 | now apply H1].
    - apply validate_timed_indices in Hj. destruct Hj as [H0 H1].
      split; [exact H0 | now apply H1]. }
  unfold profiled, profile_iter in Hp. cbn [andb] in Hp. apply Z.eqb_eq in Hp.
  split; [| lia].
  pose proof (Z.div_mod (num_iter args + num_warmup args) 2 ltac:(lia)) as Hdm.
  pose proof (Z.mod_pos_bound (num_iter args + num_warmup args) 2 ltac:(lia)) as Hmb.
  lia.
Qed.

Lemma profiled_iteration_is_measured_witness :
  (1 <= 2 < 3)%Z.
Proof.
  apply (profiled_iteration_is_measured
           (fun (m : unit) _ => Ok m) (fun m => Ok m)
           (sample_args 3 1) tt
           [sample_batch 0 1; sample_batch 3 2; sample_batch 1 4] 4
           [] 0 0 [] [] [] 2).
  - cbn. lia.
  - left. vm_compute. right. right. left. reflexivity.
  - reflexivity.
Defined.


(** ** The exceptions of [train] and [validate] *)

Lemma mapM_raises {A B : Type} (P : exn -> Prop) (f : A -> result B) (l : list A) :
  (forall a e, f a = Raise e -> P e) ->
  forall e, mapM f l = Raise e -> P e.
Proof.
  intros Hf. induction l as [| a l IH]; intros e; cbn [mapM]; [discriminate |].
  destruct (f a) as [b |e0] eqn:Ea; cbn [rbind].
  - destruct (mapM f l) as [bs | e1]; cbn [rbind]; [discriminate |].
    intros [= <-]. now apply IH.
  - intros [= <-]. now apply (Hf a).
Qed.

(** With a non-empty [topk], [accuracy] raises nothing but [RuntimeError]
    (from [topk] and [expand_as]) and [ZeroDivisionError]. *)
Lemma accuracy_raises (output : tensor2 Q) (target : list Z) (topk : list nat) (e : exn) :
  topk <> [] ->
  accuracy output target topk = Raise e ->
  e = RuntimeError \/ e = ZeroDivisionError.
Proof.
  intros Hne. unfold accuracy. destruct topk as [| k topk]; [contradiction |].
  cbn [py_max rbind].
  destruct (topk_indices _ output) as [pred | e0] eqn:Ep; cbn [rbind].
  - destruct (expand_as target _ (length output)) as [ex | e1] eqn:Ee; cbn [rbind].
    + apply (mapM_raises (fun e => e = RuntimeError \/ e = ZeroDivisionError)).
      intros a e2. unfold py_truediv. destruct (Qeq_bool _ 0); cbn [rbind].
      * intros [= <-]. now right.
      * discriminate.
    + intros [= <-]. left. unfold expand_as in Ee.
      destruct (length target =? _)%nat; [discriminate |].
      destruct target as [| t [| t' target]]; congruence.
  - intros [= <-]. left. unfold topk_indices in Ep.
    revert Ep. apply (mapM_raises (fun e => e = RuntimeError)).
    intros row e2. unfold topk_row. destruct (_ <=? _)%nat; congruence.
Qed.

Lemma for_enumerate_raises {S : Type} (P : exn -> Prop) (n : Z)
    (body : Z -> observation -> M S unit) :
  (forall i b s e, fst (body i b s) = Raise e -> P e) ->
  forall loader i s e, fst (for_enumerate n body i loader s) = Raise e -> P e.
Proof.
  intros Hbody. induction loader as [| b rest IH]; intros i s e; [discriminate |].
  cbn [for_enumerate]. unfold bind, ret. destruct (i =? n)%Z; [discriminate |].
  specialize (Hbody i b s).
  destruct (body i b s) as [[[] | e0] s1]; cbn [fst] in *.
  - apply IH.
  - intros [= <-]. now apply Hbody.
Qed.

(** What one iteration of [train] can raise, and that it cannot complete
    when [print_freq] is 0. *)
Lemma train_step_raises {Model : Type} (args : Args) (model : Model) (i : Z)
    (b : observation) (s : train_state Model) :
  (forall e, fst (train_step args model i b s) = Raise e ->
             e = RuntimeError \/ e = ZeroDivisionError) /\
  (print_freq args = 0%Z -> fst (train_step args model i b s) <> Ok tt).
Proof.
  destruct s as [bt dt lo t1 t5 out]. unfold train_step.
  cbv [bind tr_emit modify lift_result when py_mod ret raise get zoom
       tr_losses tr_top1 tr_top5 tr_batch_time tr_out tr_data_time
       tr_set_losses tr_set_top1 tr_set_top5 tr_set_batch_time].
  pose proof (accuracy_raises (output b) (target b) [1; 5]%nat) as Hacc.
  destruct (accuracy (output b) (target b) [1%nat; 5%nat]) as [acc | e0].
  2:{ split; [intros e [= <-]; now apply Hacc | discriminate]. }
  clear Hacc.
  pose proof (AverageMeterFacts.update_raises PyFloat (loss_item b) (n_images b) lo) as Hl.
  destruct (AverageMeter.update PyFloat (loss_item b) (n_images b) lo) as [[[] | e1] lo'].
  2:{ split; [intros e [= <-]; right; now apply Hl | discriminate]. }
  pose proof (AverageMeterFacts.update_raises Tensor32 (nth 0 acc 0) (n_images b) t1) as H1.
  destruct (AverageMeter.update Tensor32 (nth 0 acc 0) (n_images b) t1) as [[[] | e1] t1'].
  2:{ split; [intros e [= <-]; right; now apply H1 | discriminate]. }
  pose proof (AverageMeterFacts.update_raises Tensor32 (nth 1 acc 0) (n_images b) t5) as H5.
  destruct (AverageMeter.update Tensor32 (nth 1 acc 0) (n_images b) t5) as [[[] | e1] t5'].
  2:{ split; [intros e [= <-]; right; now apply H5 | discriminate]. }
  pose proof (AverageMeterFacts.update_raises PyFloat (duration b) 1 bt) as Hb.
  destruct (num_warmup args <=? i)%Z;
    [destruct (AverageMeter.update PyFloat (duration b) 1 bt) as [[[] | e1] bt'] |];
    cbv beta iota zeta delta [fst snd];
    try (destruct (Z.eqb_spec (print_freq args) 0) as [Hz | Hnz];
         [| destruct (i mod print_freq args =? 0)%Z]);
    cbv beta iota zeta delta [fst snd];
    (split; [intros e He; first [discriminate He
                                | injection He as <-; right;
                                  first [reflexivity | now apply Hb]]
            | intros Hp; first [discriminate | contradiction]]).
Qed.

(** X24. The exceptions that can end the two benchmarks.  [train] fails
    with [RuntimeError] (raised by [accuracy]) or with [ZeroDivisionError]
    and nothing else; [validate] without [--jit] fails with
    [ZeroDivisionError] and nothing else. *)
Theorem exceptions_of_train_and_validate {Model : Type}
    (jit_trace : Model -> observation -> result Model)
    (fold_convbn : Model -> result Model)
    (args : Args) (model : Model)
    (train_loader : list observation) (loader_batch_size : Z)
    (val_loader : list observation) (sampler_len dataset_len : Z)
    (aux_loader : list observation) (others1 others5 : list (Q * Q)) (e : exn) :
  (fst (train args model train_loader loader_batch_size) = Raise e ->
   e = RuntimeError \/ e = ZeroDivisionError) /\
  (jit args = false ->
   fst (validate jit_trace fold_convbn args model val_loader
                 sampler_len dataset_len aux_loader others1 others5) = Raise e ->
   e = ZeroDivisionError).
Proof.
  split.
  - rewrite train_run.
    pose proof (for_enumerate_raises
                  (fun e => e = RuntimeError \/ e = ZeroDivisionError)
                  (num_iter args) (train_step args model)
                  (fun i b s e => proj1 (train_step_raises args model i b s) e)
                  train_loader 0%Z train_init e) as Hloop.
    fold (train_loop args model 0%Z train_loader train_init) in Hloop.
    destruct (train_loop args model 0%Z train_loader train_init) as [[[] | e0] s1];
      cbn [fst] in *; [| exact Hloop].
    cbv zeta. destruct (Qeq_bool (fl64 (inject_Z loader_batch_size)) 0);
      [intros [= <-]; now right |].
    destruct (Qeq_bool (AverageMeter.avg (tr_batch_time s1)) 0);
      [intros [= <-]; now right | discriminate].
  - intros Hjit. rewrite validate_run. cbv zeta. unfold validate_jit, when.
    rewrite Hjit. unfold ret.
    assert (Hrun : forall loader base (s : validate_state Model),
               fst (run_validate args loader base s) = Raise e ->
               e = ZeroDivisionError).
    { intros loader base s. rewrite run_validate_run.
      assert (Hstep : forall i b (s0 : validate_state Model) e0,
                 fst (run_validate_step args i b s0) = Raise e0 ->
                 e0 = ZeroDivisionError).
      { intros i b s0 e0. rewrite run_validate_step_run. cbv zeta. cbn [fst].
        destruct (num_warmup args <=? i)%Z; [apply AverageMeterFacts.update_raises | discriminate]. }
      pose proof (for_enumerate_raises (fun e => e = ZeroDivisionError)
                    (num_iter args) (run_validate_step args) Hstep
                    loader 0%Z s e) as Hloop.
      fold (run_validate_loop args 0%Z loader s) in Hloop.
      destruct (run_validate_loop args 0%Z loader s) as [[[] | e0] s1];
        cbn [fst] in *; [| exact Hloop].
      cbv zeta. destruct (Qeq_bool (fl64 (inject_Z (batch_size args))) 0);
        [now intros [= <-] |].
      destruct (Qeq_bool (AverageMeter.avg (va_batch_time s1)) 0);
        [now intros [= <-] | discriminate]. }
    assert (Hreduce : forall others (m : AverageMeter.t),
               fst (AverageMeter.all_reduce others m) = Raise e ->
               e = ZeroDivisionError).
    { intros others m. rewrite AverageMeterFacts.all_reduce_run. cbv zeta.
      destruct (Qeq_bool _ 0); cbn [fst]; congruence. }
    unfold validate_main. unfold bind at 1.
    match goal with
    | |- context [run_validate args val_loader 0%Z ?s] =>
        specialize (Hrun val_loader 0%Z s) as Hfirst;
        destruct (run_validate args val_loader 0%Z s) as [[[] | e0] s1]
    end; cbn [fst] in *; [| intros [= <-]; now apply Hfirst].
    unfold bind at 1. unfold when at 1.
    destruct (distributed args); cbn [andb].
    + unfold bind at 1. unfold zoom at 1.
      pose proof (Hreduce others1 (va_top1 s1)) as Hr1.
      destruct (AverageMeter.all_reduce others1 (va_top1 s1)) as [[[] | e1] t1];
        cbn [fst] in *; [| intros [= <-]; now apply Hr1].
      unfold zoom at 1.
      pose proof (Hreduce others5 (va_top5 (va_set_top1 t1 s1))) as Hr5.
      destruct (AverageMeter.all_reduce others5 (va_top5 (va_set_top1 t1 s1)))
        as [[[] | e5] t5]; cbn [fst] in *; [| intros [= <-]; now apply Hr5].
      unfold bind at 1. unfold when.
      destruct (sampler_len * world_size args <? dataset_len)%Z.
      * match goal with
        | |- context [run_validate args aux_loader ?base ?s] =>
            specialize (Hrun aux_loader base s) as Haux;
            destruct (run_validate args aux_loader base s) as [[[] | e0] s2]
        end; cbn [fst] in *; [discriminate | intros [= <-]; now apply Haux].
      * discriminate.
    + discriminate.
Qed.

Lemma exceptions_of_train_and_validate_witness :
  ZeroDivisionError = RuntimeError \/ ZeroDivisionError = ZeroDivisionError.
Proof.
  apply (exceptions_of_train_and_validate
           (fun (m : unit) _ => Ok m) (fun m => Ok m)
           (sample_args 2 2) tt
           [sample_batch 0 1; sample_batch 3 2; sample_batch 1 4] 4
           [] 0 0 [] [] [] ZeroDivisionError).
  reflexivity.
Defined.

(** X25. With [--print-freq 0] the test [i % args.print_freq] divides by
    zero: when the loop of [train] is entered (a non-empty loader,
    [num_iter] not 0), [train] ends in its first iteration with an
    exception, after exactly one forward pass. *)
Theorem train_print_freq_zero {Model : Type} (args : Args) (model : Model)
    (b : observation) (rest : list observation) (loader_batch_size : Z) :
  print_freq args = 0%Z -> num_iter args <> 0%Z ->
  let run := train args model (b :: rest) loader_batch_size in
  (exists e, fst run = Raise e /\ (e = RuntimeError \/ e = ZeroDivisionError)) /\
  forward_count (tr_out (snd run)) = 1%nat.
Proof.
  intros Hp Hn. cbv zeta. rewrite train_run.
  assert (Hloop : exists e s1,
             train_loop args model 0%Z (b :: rest) train_init = (Raise e, s1) /\
             (e = RuntimeError \/ e = ZeroDivisionError) /\
             forward_count (tr_out s1) = 1%nat).
  { unfold train_loop. cbn [for_enumerate].
    rewrite (proj2 (Z.eqb_neq 0 (num_iter args))) by congruence.
    unfold bind.
    destruct (train_step_raises args model 0%Z b train_init) as [Hraise Hnot].
    pose proof (train_step_effect Model args model 0%Z b train_init) as Heff.
    cbv zeta in Heff. apply effect_forward_count in Heff.
    destruct (train_step args model 0%Z b train_init) as [[[] | e] s1];
      cbn [fst snd] in *.
    - now contradiction (Hnot Hp).
    - exists e, s1. split; [reflexivity |]. split; [now apply Hraise | exact Heff]. }
  destruct Hloop as (e & s1 & -> & He & Hf). cbn [fst snd].
  split; [exists e; now split | exact Hf].
Qed.

Lemma train_print_freq_zero_witness :
  forward_count
    (tr_out (snd (train (mk_args 2 0 0 1 false false false false (-1) "cpu") tt
                        [sample_batch 0 1; sample_batch 3 2] 4)))
  = 1%nat.
Proof.
  apply (train_print_freq_zero (mk_args 2 0 0 1 false false false false (-1) "cpu") tt
           (sample_batch 0 1) [sample_batch 3 2] 4).
  - reflexivity.
  - cbn. lia.
Defined.
